(** * Secure image-ingestion pipeline: a shallow embedding

    The development follows [lambda_functions/secure_upload_image.py],
    [lambda_functions/delete_image.py] and [lambda_functions/common.py].

    Python [str] values are modelled as [string]; a character stands for a
    code point in the range 0..255.  Lengths are integers ([Z]).  Python
    exceptions are values of type [exn], and a call that may raise returns a
    [result]. *)

From Stdlib Require Import ZArith Lia Ascii String.
From stdpp Require Import base strings gmap list pretty.

Set Warnings "-register-all".

Local Open Scope string_scope.
Local Open Scope list_scope.
Local Open Scope Z_scope.

(** ** Python values, exceptions and results *)

Inductive pyvalue :=
| PNone
| PBool (b : bool)
| PInt (n : Z)
| PFloat (mantissa exponent : Z)
| PStr (s : string)
| PList (l : list pyvalue)
| PDict (d : list (string * pyvalue)).

Abbreviation dict := (list (string * pyvalue)).

(** [bool(v)] *)
Definition truthy (v : pyvalue) : bool :=
  match v with
  | PNone => false
  | PBool b => b
  | PInt n => negb (n =? 0)
  | PFloat m _ => negb (m =? 0)
  | PStr s => negb (String.eqb s "")
  | PList l => match l with [] => false | _ => true end
  | PDict d => match d with [] => false | _ => true end
  end.

(** [d.get(k, default)]; the first binding of a key is the live one. *)
Fixpoint dict_get (d : dict) (k : string) (default : pyvalue) : pyvalue :=
  match d with
  | [] => default
  | (k', v) :: d' => if String.eqb k' k then v else dict_get d' k default
  end.

(** [k in d] and [d[k]] *)
Fixpoint dict_lookup (d : dict) (k : string) : option pyvalue :=
  match d with
  | [] => None
  | (k', v) :: d' => if String.eqb k' k then Some v else dict_lookup d' k
  end.

Inductive exn :=
| SecurityError (msg : string)
| ClientError (code msg : string)
| KeyError (key : string)
| AttributeError (msg : string)
| LibraryError (cls msg : string).

(** The class an [except] clause dispatches on. *)
Inductive exn_class :=
| CSecurityError
| CClientError
| CKeyError
| CAttributeError
| CLibraryError (cls : string).

Definition class_of (e : exn) : exn_class :=
  match e with
  | SecurityError _ => CSecurityError
  | ClientError _ _ => CClientError
  | KeyError _ => CKeyError
  | AttributeError _ => CAttributeError
  | LibraryError c _ => CLibraryError c
  end.

(** [str(e)] *)
Definition str_exn (e : exn) : string :=
  match e with
  | SecurityError m => m
  | ClientError _ m => m
  | KeyError k => "'" +:+ k +:+ "'"
  | AttributeError m => m
  | LibraryError _ m => m
  end.

Inductive result (A : Type) :=
| Ok (a : A)
| Raise (e : exn).
Arguments Ok {A} a.
Arguments Raise {A} e.

(** ** Characters and strings *)

Definition ord (c : ascii) : Z := Z.of_N (N_of_ascii c).

Definition len (s : string) : Z := Z.of_nat (String.length s).

Definition in_range (lo hi : Z) (c : ascii) : bool :=
  (lo <=? ord c) && (ord c <=? hi).

(** The class [[a-zA-Z0-9_-]]. *)
Definition is_id_char (c : ascii) : bool :=
  in_range 97 122 c || in_range 65 90 c || in_range 48 57 c
  || (ord c =? 95) || (ord c =? 45).

(** [str.isspace] on the code points below 256. *)
Definition is_space (c : ascii) : bool :=
  in_range 9 13 c || in_range 28 32 c || (ord c =? 133) || (ord c =? 160).

(** The class of the four markup characters: less-than, greater-than,
    double quote and single quote. *)
Definition is_markup_char (c : ascii) : bool :=
  (ord c =? 60) || (ord c =? 62) || (ord c =? 34) || (ord c =? 39).

Fixpoint str_filter (keep : ascii -> bool) (s : string) : string :=
  match s with
  | EmptyString => EmptyString
  | String c s' => if keep c then String c (str_filter keep s') else str_filter keep s'
  end.

Fixpoint str_forall (p : ascii -> bool) (s : string) : bool :=
  match s with
  | EmptyString => true
  | String c s' => p c && str_forall p s'
  end.

Fixpoint lstrip (s : string) : string :=
  match s with
  | EmptyString => EmptyString
  | String c s' => if is_space c then lstrip s' else s
  end.

Fixpoint rstrip (s : string) : string :=
  match s with
  | EmptyString => EmptyString
  | String c s' =>
      match rstrip s' with
      | EmptyString => if is_space c then EmptyString else String c EmptyString
      | r => String c r
      end
  end.

(** [s.strip()] *)
Definition strip (s : string) : string := rstrip (lstrip s).

(** [re.sub(r'[^a-zA-Z0-9_-]', '', s)] *)
Definition sub_non_id (s : string) : string := str_filter is_id_char s.

(** [re.sub] deleting every markup character of [s]. *)
Definition sub_markup (s : string) : string :=
  str_filter (fun c => negb (is_markup_char c)) s.

(** ** Security configuration *)

Definition MAX_IMAGE_SIZE : Z := 10 * 1024 * 1024.
Definition MAX_TITLE_LENGTH : Z := 100.
Definition MAX_DESCRIPTION_LENGTH : Z := 500.
Definition MAX_TAGS_COUNT : Z := 10.
Definition ALLOWED_IMAGE_FORMATS : list string := ["JPEG"; "PNG"; "GIF"; "WEBP"].

(** ** hashlib.sha256 and str.encode

    [hashlib.sha256(b).hexdigest()] computed on 32-bit words held in [Z]
    (FIPS 180-4); additions wrap around modulo [2^32]. *)

Abbreviation bytes := (list Byte.byte).

Definition byte_val (b : Byte.byte) : Z := Z.of_N (Byte.to_N b).

Definition byte_of_Z (n : Z) : Byte.byte := byte_of_ascii (ascii_of_N (Z.to_N n)).

(** [s.encode()], UTF-8 on the code points below 256. *)
Fixpoint str_encode (s : string) : bytes :=
  match s with
  | EmptyString => []
  | String c s' =>
      if ord c <? 128 then byte_of_ascii c :: str_encode s'
      else byte_of_Z (192 + ord c / 64) :: byte_of_Z (128 + ord c mod 64) :: str_encode s'
  end.

Module Sha256.

Definition mask32 : Z := 0xFFFFFFFF.
Definition add32 (x y : Z) : Z := (x + y) mod 2 ^ 32.
Definition rotr (n x : Z) : Z :=
  Z.lor (Z.shiftr x n) (Z.land (Z.shiftl x (32 - n)) mask32).
Definition Ch (x y z : Z) : Z := Z.lxor (Z.land x y) (Z.land (Z.lxor x mask32) z).
Definition Maj (x y z : Z) : Z :=
  Z.lxor (Z.lxor (Z.land x y) (Z.land x z)) (Z.land y z).
Definition Sigma0 (x : Z) : Z := Z.lxor (Z.lxor (rotr 2 x) (rotr 13 x)) (rotr 22 x).
Definition Sigma1 (x : Z) : Z := Z.lxor (Z.lxor (rotr 6 x) (rotr 11 x)) (rotr 25 x).
Definition sigma0 (x : Z) : Z := Z.lxor (Z.lxor (rotr 7 x) (rotr 18 x)) (Z.shiftr x 3).
Definition sigma1 (x : Z) : Z := Z.lxor (Z.lxor (rotr 17 x) (rotr 19 x)) (Z.shiftr x 10).

(** The constants are fractional parts of roots of the first primes: the
    first 32 bits after the point of the cube roots of the first 64 primes
    for [K], of the square roots of the first 8 primes for [H0]. *)
Definition is_prime (n : Z) : bool :=
  forallb (fun d => negb (n mod Z.of_nat d =? 0)) (seq 2 (Z.to_nat n - 2)).

Definition primes : list Z := List.filter is_prime (map Z.of_nat (seq 2 310)).

(** The integer cube root of [n], found bit by bit from bit [bits - 1] down. *)
Fixpoint cube_root (bits : nat) (n r : Z) : Z :=
  match bits with
  | O => r
  | S bits' =>
      let r' := r + 2 ^ Z.of_nat bits' in
      cube_root bits' n (if r' * r' * r' <=? n then r' else r)
  end.

Definition K : list Z :=
  map (fun p => cube_root 36 (p * 2 ^ 96) 0 mod 2 ^ 32) primes.

Definition H0 : list Z :=
  map (fun p => Z.sqrt (p * 2 ^ 64) mod 2 ^ 32) (take 8 primes).

(** Big-endian bytes of [x], [n] of them. *)
Fixpoint be_bytes (n : nat) (x : Z) : list Z :=
  match n with
  | O => []
  | S n' => (Z.shiftr x (8 * Z.of_nat n')) mod 256 :: be_bytes n' x
  end.

Definition pad (msg : list Z) : list Z :=
  let l := Z.of_nat (length msg) in
  msg ++ [0x80] ++ repeat 0 (Z.to_nat ((55 - l) mod 64)) ++ be_bytes 8 (8 * l).

Fixpoint be_word (bs : list Z) (acc : Z) : Z :=
  match bs with
  | [] => acc
  | b :: bs' => be_word bs' (acc * 256 + b)
  end.

(** Cut a list into pieces of [n] elements. *)
Fixpoint chunks {A} (fuel n : nat) (l : list A) : list (list A) :=
  match fuel, l with
  | S fuel', _ :: _ => take n l :: chunks fuel' n (drop n l)
  | _, _ => []
  end.

Definition words_of_block (block : list Z) : list Z :=
  map (fun bs => be_word bs 0) (chunks 16 4 block).

(** The message schedule, most recent word first. *)
Fixpoint extend (n : nat) (ws : list Z) : list Z :=
  match n with
  | O => ws
  | S n' =>
      let w := add32 (add32 (sigma1 (nth 1 ws 0)) (nth 6 ws 0))
                     (add32 (sigma0 (nth 14 ws 0)) (nth 15 ws 0)) in
      extend n' (w :: ws)
  end.

Definition schedule (block : list Z) : list Z :=
  rev (extend 48 (rev (words_of_block block))).

Definition round (st : list Z) (kw : Z * Z) : list Z :=
  match st with
  | [a; b; c; d; e; f; g; h] =>
      let t1 := add32 (add32 (add32 h (Sigma1 e)) (add32 (Ch e f g) (fst kw))) (snd kw) in
      let t2 := add32 (Sigma0 a) (Maj a b c) in
      [add32 t1 t2; a; b; c; add32 d t1; e; f; g]
  | _ => st
  end.

Definition compress (h : list Z) (block : list Z) : list Z :=
  zip_with add32 h (fold_left round (zip K (schedule block)) h).

Definition digest_words (msg : list Z) : list Z :=
  let padded := pad msg in
  fold_left compress (chunks (length padded) 64 padded) H0.

Definition hexdigit (n : Z) : ascii :=
  match String.get (Z.to_nat (n mod 16)) "0123456789abcdef" with
  | Some c => c
  | None => "0"%char
  end.

Definition hex_word (w : Z) (rest : string) : string :=
  String (hexdigit (Z.shiftr w 28)) (String (hexdigit (Z.shiftr w 24))
  (String (hexdigit (Z.shiftr w 20)) (String (hexdigit (Z.shiftr w 16))
  (String (hexdigit (Z.shiftr w 12)) (String (hexdigit (Z.shiftr w 8))
  (String (hexdigit (Z.shiftr w 4)) (String (hexdigit w) rest))))))).

Definition hexdigest (msg : bytes) : string :=
  fold_right hex_word "" (digest_words (map byte_val msg)).

End Sha256.

(** ** The storage backends and the effects of a handler

    One DynamoDB table (keyed by [image_id]) and one S3 bucket; either may
    not exist yet.  [ticks] counts the draws of [uuid.uuid4] and
    [datetime.utcnow] made so far. *)

Record s3_object := {
  obj_body : bytes;
  obj_content_type : string;
  obj_metadata : list (string * string);
  obj_encryption : string;
  obj_cache_control : string
}.

Record World := {
  table : option (gmap string dict);
  bucket : option (gmap string s3_object);
  ticks : N
}.

Definition set_table (t : option (gmap string dict)) (w : World) : World :=
  {| table := t; bucket := bucket w; ticks := ticks w |}.
Definition set_bucket (b : option (gmap string s3_object)) (w : World) : World :=
  {| table := table w; bucket := b; ticks := ticks w |}.
Definition tick (w : World) : World :=
  {| table := table w; bucket := bucket w; ticks := N.succ (ticks w) |}.

Inductive aws_call :=
| TableLoad
| CreateTable
| WaitUntilExists
| HeadBucket
| CreateBucket
| PutObject (key : string) (obj : s3_object)
| PutItem (item : dict)
| GetItem (image_id : pyvalue)
| DeleteItem (image_id : pyvalue)
| DeleteObject (key : pyvalue).

(** What a run leaves behind besides the stores: the lines printed and the
    calls made to the clients of the backends, each with the exception it
    raised, if any. *)
Inductive effect :=
| Print (line : string)
| Call (c : aws_call) (failure : option exn).

(** What a backend call can fail with for reasons outside the handler: a
    [botocore] [ClientError] carrying an error code, or another [botocore]
    exception (no connection, a request the HTTP client refuses to send,
    such as one with a line break inside a header value). *)
Inductive fault :=
| FClient (code msg : string)
| FBotoCore (cls msg : string).

Definition exn_of_fault (f : fault) : exn :=
  match f with
  | FClient code msg => ClientError code msg
  | FBotoCore cls msg => LibraryError cls msg
  end.

Record Image := {
  img_format : option string;
  img_size : Z * Z;
  img_mode : string;
  img_pixels : bytes
}.

(** What [json.loads] does with a text: it returns the value, raises
    [json.JSONDecodeError] on a text that is not JSON, or raises another
    exception: a [ValueError] on an integer literal with more digits than
    [int] converts, a [RecursionError] on a document nested too deeply. *)
Inductive loaded :=
| Loaded (v : pyvalue)
| JSONDecodeError (msg : string)
| LoadRaised (cls msg : string).

(** The libraries and the environment the handlers run against: [json],
    [base64], [PIL.Image], [uuid], [datetime], [os.environ], and the faults
    the backends may answer a call with (throttling, denied access, lost
    connections). *)
Record Ext := {
  json_loads : string -> loaded;
  json_dumps : bool -> pyvalue -> string;
  b64decode : string -> option bytes;
  Image_open : bytes -> result Image;
  Image_convert : Image -> string -> result Image;
  Image_save_jpeg : Image -> result bytes;
  uuid4 : N -> string;
  utcnow_isoformat : N -> string;
  environ_ALLOWED_ORIGIN : option string;
  aws_fault : World -> aws_call -> option fault
}.

Definition failure_of {A} (r : result A) : option exn :=
  match r with Ok _ => None | Raise e => Some e end.

(** The answer of a healthy backend. *)
Definition service (c : aws_call) (w : World) : result pyvalue * World :=
  match c with
  | TableLoad =>
      match table w with
      | None => (Raise (ClientError "ResourceNotFoundException" "Requested resource not found"), w)
      | Some _ => (Ok PNone, w)
      end
  | CreateTable =>
      match table w with
      | None => (Ok PNone, set_table (Some ∅) w)
      | Some _ => (Raise (ClientError "ResourceInUseException" "Table already exists"), w)
      end
  | WaitUntilExists =>
      match table w with
      | None => (Raise (LibraryError "WaiterError" "Waiter TableExists failed"), w)
      | Some _ => (Ok PNone, w)
      end
  | HeadBucket =>
      match bucket w with
      | None => (Raise (ClientError "404" "Not Found"), w)
      | Some _ => (Ok PNone, w)
      end
  | CreateBucket =>
      match bucket w with
      | None => (Ok PNone, set_bucket (Some ∅) w)
      | Some _ => (Raise (ClientError "BucketAlreadyOwnedByYou" "Bucket already exists"), w)
      end
  | PutObject key obj =>
      match bucket w with
      | None => (Raise (ClientError "NoSuchBucket" "The specified bucket does not exist"), w)
      | Some b => (Ok PNone, set_bucket (Some (<[key := obj]> b)) w)
      end
  | PutItem item =>
      match table w, dict_lookup item "image_id" with
      | None, _ => (Raise (ClientError "ResourceNotFoundException" "Requested resource not found"), w)
      | Some t, Some (PStr id) => (Ok PNone, set_table (Some (<[id := item]> t)) w)
      | Some _, _ => (Raise (ClientError "ValidationException" "Missing the key image_id in the item"), w)
      end
  | GetItem k =>
      match table w, k with
      | None, _ => (Raise (ClientError "ResourceNotFoundException" "Requested resource not found"), w)
      | Some t, PStr id =>
          match t !! id with
          | Some item => (Ok (PDict [("Item", PDict item)]), w)
          | None => (Ok (PDict []), w)
          end
      | Some _, _ => (Raise (ClientError "ValidationException" "The provided key element does not match the schema"), w)
      end
  | DeleteItem k =>
      match table w, k with
      | None, _ => (Raise (ClientError "ResourceNotFoundException" "Requested resource not found"), w)
      | Some t, PStr id => (Ok PNone, set_table (Some (delete id t)) w)
      | Some _, _ => (Raise (ClientError "ValidationException" "The provided key element does not match the schema"), w)
      end
  | DeleteObject k =>
      match bucket w, k with
      | None, _ => (Raise (ClientError "NoSuchBucket" "The specified bucket does not exist"), w)
      | Some b, PStr key => (Ok PNone, set_bucket (Some (delete key b)) w)
      | Some _, _ => (Raise (LibraryError "ParamValidationError" "Invalid type for parameter Key"), w)
      end
  end.

(** A computation reads and updates the world, may raise, and emits effects
    in the order they happen. *)
Definition M (A : Type) : Type := World -> result A * World * list effect.

Definition ret {A} (a : A) : M A := fun w => (Ok a, w, []).

Definition raise {A} (e : exn) : M A := fun w => (Raise e, w, []).

Definition bind {A B} (m : M A) (k : A -> M B) : M B := fun w =>
  match m w with
  | (Ok a, w1, t1) =>
      match k a w1 with
      | (r, w2, t2) => (r, w2, t1 ++ t2)
      end
  | (Raise e, w1, t1) => (Raise e, w1, t1)
  end.

(** [try: m  except Exception as e: h e] *)
Definition try_except {A} (m : M A) (h : exn -> M A) : M A := fun w =>
  match m w with
  | (Ok a, w1, t1) => (Ok a, w1, t1)
  | (Raise e, w1, t1) =>
      match h e w1 with
      | (r, w2, t2) => (r, w2, t1 ++ t2)
      end
  end.

Definition lift {A} (r : result A) : M A := fun w => (r, w, []).

Definition print (line : string) : M unit := fun w => (Ok tt, w, [Print line]).

Definition aws (X : Ext) (c : aws_call) : M pyvalue := fun w =>
  match aws_fault X w c with
  | Some f => (Raise (exn_of_fault f), w, [Call c (Some (exn_of_fault f))])
  | None =>
      match service c w with
      | (r, w1) => (r, w1, [Call c (failure_of r)])
      end
  end.

Definition draw (f : N -> string) : M string := fun w => (Ok (f (ticks w)), tick w, []).

(** [s.encode('ascii')] succeeds. *)
Definition is_ascii (s : string) : bool := str_forall (fun c => ord c <? 128) s.

Definition double_quote : string := String "034"%char EmptyString.
Definition line_feed : string := String "010"%char EmptyString.

(** The check [botocore] runs on the [Metadata] of a [put_object] before
    the request is built: the first entry whose key or value has a
    character outside ASCII makes the call raise [ParamValidationError],
    and nothing is sent. *)
Definition non_ascii_metadata (k v : string) : exn :=
  LibraryError "ParamValidationError"
    ("Parameter validation failed:" +:+ line_feed
     +:+ "Non ascii characters found in S3 metadata for key "
     +:+ double_quote +:+ k +:+ double_quote
     +:+ ", value: " +:+ double_quote +:+ v +:+ double_quote +:+ ".  " +:+ line_feed
     +:+ "S3 metadata can only contain ASCII characters. ").

Fixpoint validate_ascii_metadata (metadata : list (string * string)) : option exn :=
  match metadata with
  | [] => None
  | (k, v) :: rest =>
      if is_ascii k && is_ascii v then validate_ascii_metadata rest
      else Some (non_ascii_metadata k v)
  end.

(** [s3_client.put_object]: the metadata is checked, then the request is
    sent. *)
Definition put_object (X : Ext) (key : string) (obj : s3_object) : M pyvalue := fun w =>
  match validate_ascii_metadata (obj_metadata obj) with
  | Some e => (Raise e, w, [Call (PutObject key obj) (Some e)])
  | None => aws X (PutObject key obj) w
  end.

Notation "'let!' x := m 'in' k" := (bind m (fun x => k))
  (at level 10, x name, m at level 100, k at level 200).
Notation "'do!' m 'in' k" := (bind m (fun _ => k))
  (at level 10, m at level 100, k at level 200).

(** Sequencing of pure steps that may raise. *)
Definition and_then {A B} (r : result A) (k : A -> result B) : result B :=
  match r with
  | Ok a => k a
  | Raise e => Raise e
  end.

Notation "'let?' x := r 'in' k" := (and_then r (fun x => k))
  (at level 10, x name, r at level 100, k at level 200).
(** ** InputValidator *)

(** [re.match] against the pattern [^[A-Za-z0-9+/]*={0,2}$]; the final [$]
    also matches just before a newline that ends the string. *)
Definition is_b64_char (c : ascii) : bool :=
  in_range 65 90 c || in_range 97 122 c || in_range 48 57 c
  || (ord c =? 43) || (ord c =? 47).

Fixpoint str_drop_while (p : ascii -> bool) (s : string) : string :=
  match s with
  | EmptyString => EmptyString
  | String c s' => if p c then str_drop_while p s' else s
  end.

Definition drop_pad (s : string) : string :=
  match s with
  | String c s' => if ord c =? 61 then s' else s
  | EmptyString => s
  end.

Definition at_end (s : string) : bool :=
  match s with
  | EmptyString => true
  | String c EmptyString => ord c =? 10
  | _ => false
  end.

Definition match_base64 (s : string) : bool :=
  let after_data := str_drop_while is_b64_char s in
  at_end after_data || at_end (drop_pad after_data) || at_end (drop_pad (drop_pad after_data)).

Module InputValidator.

Definition validate_user_id (user_id : pyvalue) : result string :=
  match user_id with
  | PStr s =>
      if negb (truthy user_id) then Raise (SecurityError "Invalid user_id format")
      else
        let sanitized := sub_non_id (strip s) in
        if (len sanitized <? 3) || (len sanitized >? 50)
        then Raise (SecurityError "user_id must be 3-50 characters")
        else Ok sanitized
  | _ => Raise (SecurityError "Invalid user_id format")
  end.

Definition validate_image_data (X : Ext) (image_data : pyvalue) : result bytes :=
  match image_data with
  | PStr s =>
      if negb (truthy image_data) then Raise (SecurityError "Invalid image_data format")
      else if negb (match_base64 s) then Raise (SecurityError "Invalid base64 format")
      else
        match b64decode X s with
        | None => Raise (SecurityError "Invalid base64 data")
        | Some decoded =>
            if Z.of_nat (length decoded) >? MAX_IMAGE_SIZE
            then Raise (SecurityError
                          ("Image too large. Max size: " +:+ pretty MAX_IMAGE_SIZE +:+ " bytes"))
            else Ok decoded
        end
  | _ => Raise (SecurityError "Invalid image_data format")
  end.

Definition validate_text_field (text : pyvalue) (field_name : string) (max_length : Z)
  : result string :=
  match text with
  | PStr s =>
      let sanitized := sub_markup (strip s) in
      if len sanitized >? max_length
      then Raise (SecurityError (field_name +:+ " too long. Max length: " +:+ pretty max_length))
      else Ok sanitized
  | _ => Ok ""
  end.

(** The loop body of [validate_tags]: one entry appended, or skipped. *)
Definition clean_entry (tag : pyvalue) : list string :=
  match tag with
  | PStr s =>
      let clean_tag := sub_non_id (strip s) in
      if (len clean_tag >? 0) && (len clean_tag <=? 50) then [clean_tag] else []
  | _ => []
  end.

Fixpoint sanitize_entries (tags : list pyvalue) : list string :=
  match tags with
  | [] => []
  | tag :: rest => clean_entry tag ++ sanitize_entries rest
  end.

Definition validate_tags (tags : pyvalue) : result (list string) :=
  match tags with
  | PList l =>
      if Z.of_nat (length l) >? MAX_TAGS_COUNT
      then Raise (SecurityError ("Too many tags. Max count: " +:+ pretty MAX_TAGS_COUNT))
      else Ok (sanitize_entries l)
  | _ => Ok []
  end.

End InputValidator.

(** ** ImageProcessor *)

Module ImageProcessor.

Definition format_allowed (f : option string) : bool :=
  match f with
  | Some name => existsb (String.eqb name) ALLOWED_IMAGE_FORMATS
  | None => false
  end.

(** How an f-string renders [image.format]. *)
Definition format_str (f : option string) : string :=
  match f with Some name => name | None => "None" end.

(** [image.format or 'JPEG'] *)
Definition format_or_jpeg (f : option string) : string :=
  match f with
  | Some name => if String.eqb name "" then "JPEG" else name
  | None => "JPEG"
  end.

Definition needs_convert (mode : string) : bool :=
  existsb (String.eqb mode) ["RGBA"; "LA"; "P"].

(** The body of the [try] block. *)
Definition process_image_body (X : Ext) (image_bytes : bytes)
  : result (bytes * Z * Z * string) :=
  let? image := Image_open X image_bytes in
  if negb (format_allowed (img_format image))
  then Raise (SecurityError ("Unsupported image format: " +:+ format_str (img_format image)))
  else
    let width := fst (img_size image) in
    let height := snd (img_size image) in
    if (width >? 4096) || (height >? 4096)
    then Raise (SecurityError "Image dimensions too large")
    else
      let? image := (if needs_convert (img_mode image)
                     then Image_convert X image "RGB" else Ok image) in
      let? processed_bytes := Image_save_jpeg X image in
      Ok (processed_bytes, width, height, format_or_jpeg (img_format image)).

(** Every exception leaving the [try] block, the two raised inside it
    included, is caught by [except Exception] and raised anew. *)
Definition process_image (X : Ext) (image_bytes : bytes)
  : result (bytes * Z * Z * string) :=
  match process_image_body X image_bytes with
  | Ok r => Ok r
  | Raise e => Raise (SecurityError ("Invalid image data: " +:+ str_exn e))
  end.

End ImageProcessor.

(** ** SecureS3Manager *)

(** The slice [s[:n]]. *)
Fixpoint str_take (n : nat) (s : string) : string :=
  match n, s with
  | S n', String c s' => String c (str_take n' s')
  | _, _ => EmptyString
  end.

Module SecureS3Manager.

Definition generate_secure_key (user_id image_id : string) : string :=
  let safe_user_id := sub_non_id user_id in
  let safe_image_id := sub_non_id image_id in
  let user_hash := str_take 8 (Sha256.hexdigest (str_encode user_id)) in
  "images/" +:+ user_hash +:+ "/" +:+ safe_user_id +:+ "/" +:+ safe_image_id +:+ ".jpg".

Definition upload_image (X : Ext) (key : string) (image_bytes : bytes)
    (metadata : list (string * string)) : M unit :=
  do! put_object X key
        {| obj_body := image_bytes;
           obj_content_type := "image/jpeg";
           obj_metadata := metadata;
           obj_encryption := "AES256";
           obj_cache_control := "private, max-age=3600" |} in
  ret tt.

End SecureS3Manager.

(** ** SecureResponseFormatter *)

Record response := {
  statusCode : Z;
  headers : list (string * string);
  body : string
}.

Module SecureResponseFormatter.

(** [os.environ.get('ALLOWED_ORIGIN', 'https://yourdomain.com')] *)
Definition allowed_origin (X : Ext) : string :=
  match environ_ALLOWED_ORIGIN X with
  | Some origin => origin
  | None => "https://yourdomain.com"
  end.

Definition success_response (X : Ext) (data : pyvalue) (status_code : Z) : response :=
  {| statusCode := status_code;
     headers :=
       [("Content-Type", "application/json");
        ("Access-Control-Allow-Origin", allowed_origin X);
        ("Access-Control-Allow-Methods", "POST, OPTIONS");
        ("Access-Control-Allow-Headers", "Content-Type, Authorization");
        ("X-Content-Type-Options", "nosniff");
        ("X-Frame-Options", "DENY");
        ("X-XSS-Protection", "1; mode=block");
        ("Strict-Transport-Security", "max-age=31536000; includeSubDomains")];
     body := json_dumps X false data |}.

Definition generic_message (status_code : Z) : string :=
  if status_code =? 400 then "Invalid request"
  else if status_code =? 401 then "Unauthorized"
  else if status_code =? 403 then "Forbidden"
  else if status_code =? 413 then "Request too large"
  else "An error occurred processing your request".

Definition error_response (X : Ext) (error_message : string) (status_code : Z) : M response :=
  do! print ("Error " +:+ pretty status_code +:+ ": " +:+ error_message) in
  ret {| statusCode := status_code;
         headers :=
           [("Content-Type", "application/json");
            ("Access-Control-Allow-Origin", allowed_origin X);
            ("X-Content-Type-Options", "nosniff");
            ("X-Frame-Options", "DENY")];
         body := json_dumps X true (PDict [("error", PStr (generic_message status_code))]) |}.

End SecureResponseFormatter.

(** ** common.py: lazy creation of the table and the bucket *)

Definition create_table_if_not_exists (X : Ext) : M unit :=
  try_except
    (do! aws X TableLoad in ret tt)
    (fun e =>
       match e with
       | ClientError code _ =>
           if String.eqb code "ResourceNotFoundException"
           then do! aws X CreateTable in
                do! aws X WaitUntilExists in
                ret tt
           else raise e
       | _ => raise e
       end).

Definition create_bucket_if_not_exists (X : Ext) : M unit :=
  try_except
    (do! aws X HeadBucket in ret tt)
    (fun e =>
       match e with
       | ClientError code _ =>
           if String.eqb code "404"
           then do! aws X CreateBucket in ret tt
           else raise e
       | _ => raise e
       end).

(** The two statements under [# Initialize resources]. *)
Definition initialize_resources (X : Ext) : M unit :=
  do! create_table_if_not_exists X in
  create_bucket_if_not_exists X.

(** ** secure_upload_image.py: the handler *)

Definition validate_request_size (event : dict) : result unit :=
  match dict_get event "body" (PStr "") with
  | PStr s =>
      if len s >? MAX_IMAGE_SIZE * 2 then Raise (SecurityError "Request too large") else Ok tt
  | _ => Ok tt
  end.

(** The request body as the handler obtains it: a body string goes through
    [json.loads], any other body is taken as it is. *)
Definition request_body (X : Ext) (event : dict) : loaded :=
  match dict_get event "body" PNone with
  | PStr s => json_loads X s
  | _ => Loaded (dict_get event "body" (PDict []))
  end.

Record fields := {
  f_user_id : string;
  f_image_data : bytes;
  f_title : string;
  f_description : string;
  f_tags : list string
}.

(** The five validations, in the order the handler runs them. *)
Definition validate_inputs (X : Ext) (body : dict) : result fields :=
  let? user_id := InputValidator.validate_user_id (dict_get body "user_id" (PStr "")) in
  let? image_data := InputValidator.validate_image_data X (dict_get body "image_data" (PStr "")) in
  let? title :=
    InputValidator.validate_text_field (dict_get body "title" (PStr "")) "title" MAX_TITLE_LENGTH in
  let? description :=
    InputValidator.validate_text_field (dict_get body "description" (PStr ""))
      "description" MAX_DESCRIPTION_LENGTH in
  let? tags := InputValidator.validate_tags (dict_get body "tags" (PList [])) in
  Ok {| f_user_id := user_id; f_image_data := image_data; f_title := title;
        f_description := description; f_tags := tags |}.

Definition tags_value (tags : list string) : pyvalue := PList (map PStr tags).

Definition file_size (b : bytes) : pyvalue := PInt (Z.of_nat (length b)).

(** The item written to the table. *)
Definition metadata_item (f : fields) (image_id s3_key : string) (width height : Z)
    (format_type : string) (processed_bytes : bytes) (created_at updated_at : string) : dict :=
  [("image_id", PStr image_id);
   ("user_id", PStr (f_user_id f));
   ("title", PStr (f_title f));
   ("description", PStr (f_description f));
   ("tags", tags_value (f_tags f));
   ("s3_key", PStr s3_key);
   ("width", PInt width);
   ("height", PInt height);
   ("format", PStr format_type);
   ("file_size", file_size processed_bytes);
   ("created_at", PStr created_at);
   ("updated_at", PStr updated_at)].

Definition success_data (f : fields) (image_id : string) (width height : Z)
    (processed_bytes : bytes) (created_at : string) : pyvalue :=
  PDict
    [("message", PStr "Image uploaded successfully");
     ("image_id", PStr image_id);
     ("metadata",
      PDict
        [("image_id", PStr image_id);
         ("user_id", PStr (f_user_id f));
         ("title", PStr (f_title f));
         ("description", PStr (f_description f));
         ("tags", tags_value (f_tags f));
         ("width", PInt width);
         ("height", PInt height);
         ("file_size", file_size processed_bytes);
         ("created_at", PStr created_at)])].

(** The steps after validation and transcoding: identifiers, the blob
    write, the metadata write, the response. *)
Definition store_image (X : Ext) (f : fields) (processed_bytes : bytes) (width height : Z)
    (format_type : string) : M response :=
  let! image_id := draw (uuid4 X) in
  let s3_key := SecureS3Manager.generate_secure_key (f_user_id f) image_id in
  let! created_at := draw (utcnow_isoformat X) in
  let! updated_at := draw (utcnow_isoformat X) in
  let metadata :=
    metadata_item f image_id s3_key width height format_type processed_bytes
      created_at updated_at in
  do! SecureS3Manager.upload_image X s3_key processed_bytes
        [("user_id", f_user_id f);
         ("title", f_title f);
         ("description", f_description f);
         ("upload_time", created_at)] in
  do! aws X (PutItem metadata) in
  ret (SecureResponseFormatter.success_response X
         (success_data f image_id width height processed_bytes created_at) 201).

(** The body of the outer [try] block. *)
Definition secure_handler_body (X : Ext) (event : dict) : M response :=
  do! lift (validate_request_size event) in
  do! initialize_resources X in
  match request_body X event with
  | JSONDecodeError _ => SecureResponseFormatter.error_response X "Invalid JSON format" 400
  | LoadRaised cls msg => raise (LibraryError cls msg)
  | Loaded (PDict body) =>
      match validate_inputs X body with
      | Raise (SecurityError msg) => SecureResponseFormatter.error_response X msg 400
      | Raise e => raise e
      | Ok f =>
          match ImageProcessor.process_image X (f_image_data f) with
          | Raise (SecurityError msg) => SecureResponseFormatter.error_response X msg 400
          | Raise e => raise e
          | Ok (processed_bytes, width, height, format_type) =>
              store_image X f processed_bytes width height format_type
          end
      end
  | Loaded _ => SecureResponseFormatter.error_response X "Invalid request format" 400
  end.

Definition secure_lambda_handler (X : Ext) (event : dict) : M response :=
  try_except (secure_handler_body X event)
    (fun e =>
       match e with
       | SecurityError msg => SecureResponseFormatter.error_response X msg 400
       | _ =>
           do! print ("Unexpected error: " +:+ str_exn e) in
           SecureResponseFormatter.error_response X "Internal server error" 500
       end).

(** ** delete_image.py: the handler *)

(** [type(v).__name__] *)
Definition type_name (v : pyvalue) : string :=
  match v with
  | PNone => "NoneType"
  | PBool _ => "bool"
  | PInt _ => "int"
  | PFloat _ _ => "float"
  | PStr _ => "str"
  | PList _ => "list"
  | PDict _ => "dict"
  end.

Module DeleteImage.

Definition plain_headers : list (string * string) :=
  [("Content-Type", "application/json"); ("Access-Control-Allow-Origin", "*")].

Definition reply (X : Ext) (status_code : Z) (data : pyvalue) : response :=
  {| statusCode := status_code; headers := plain_headers; body := json_dumps X true data |}.

(** The steps once the row has been read: the blob deletion, whose failure
    is printed and otherwise ignored, then the row deletion. *)
Definition delete_stored (X : Ext) (image_id s3_key : pyvalue) : M response :=
  do! try_except
        (do! aws X (DeleteObject s3_key) in ret tt)
        (fun e => print ("Warning: Failed to delete from S3: " +:+ str_exn e)) in
  do! aws X (DeleteItem image_id) in
  ret (reply X 200 (PDict [("message", PStr "Image deleted successfully");
                           ("image_id", image_id)])).

Definition handler_body (X : Ext) (event : dict) : M response :=
  do! create_table_if_not_exists X in
  match dict_get event "pathParameters" (PDict []) with
  | PDict path_parameters =>
      let image_id := dict_get path_parameters "image_id" PNone in
      if negb (truthy image_id)
      then ret (reply X 400 (PDict [("error", PStr "image_id is required")]))
      else
        let! got := aws X (GetItem image_id) in
        match got with
        | PDict got =>
            match dict_lookup got "Item" with
            | None => ret (reply X 404 (PDict [("error", PStr "Image not found")]))
            | Some (PDict item) =>
                match dict_lookup item "s3_key" with
                | Some s3_key => delete_stored X image_id s3_key
                | None => raise (KeyError "s3_key")
                end
            | Some _ => raise (LibraryError "TypeError" "item is not subscriptable by name")
            end
        | _ => raise (LibraryError "TypeError" "response is not a mapping")
        end
  | v => raise (AttributeError ("'" +:+ type_name v +:+ "' object has no attribute 'get'"))
  end.

Definition lambda_handler (X : Ext) (event : dict) : M response :=
  try_except (handler_body X event)
    (fun e =>
       ret (reply X 500 (PDict [("error", PStr ("Internal server error: " +:+ str_exn e))]))).

End DeleteImage.

(** ** Vocabulary of the statements *)

(** The lowercase hexadecimal digits. *)
Definition is_hex (c : ascii) : bool := in_range 48 57 c || in_range 97 102 c.

(** [s.split(sep)] for a one-character separator. *)
Fixpoint split_on (sep : ascii) (s : string) : list string :=
  match s with
  | EmptyString => [EmptyString]
  | String c s' =>
      if Ascii.eqb c sep then EmptyString :: split_on sep s'
      else
        match split_on sep s' with
        | seg :: rest => String c seg :: rest
        | [] => [String c EmptyString]
        end
  end.


(** A stored tag: drawn from the identifier characters, 1 to 50 of them. *)
Definition valid_tag (t : string) : Prop :=
  str_forall is_id_char t = true /\ 1 <= len t <= 50.

Definition is_string (v : pyvalue) : bool :=
  match v with PStr _ => true | _ => false end.

Definition string_of (v : pyvalue) : option string :=
  match v with PStr s => Some s | _ => None end.

(** The tags as the specification words them: the string entries, each
    sanitized, those of 1 to 50 characters kept, in input order. *)
Definition spec_tags (l : list pyvalue) : list string :=
  List.filter (fun t => (1 <=? len t) && (len t <=? 50))
    (map sub_non_id (omap string_of l)).

Definition too_many_tags : exn := SecurityError "Too many tags. Max count: 10".

Definition is_security (e : exn) : bool :=
  match e with SecurityError _ => true | _ => false end.

(** The contents of the two stores; a store that does not exist holds
    nothing. *)
Definition rows (w : World) : gmap string dict :=
  match table w with Some t => t | None => ∅ end.
Definition blobs (w : World) : gmap string s3_object :=
  match bucket w with Some b => b | None => ∅ end.

(** Classes of effects. *)
Definition is_provisioning (ef : effect) : bool :=
  match ef with
  | Call TableLoad _ | Call CreateTable _ | Call WaitUntilExists _
  | Call HeadBucket _ | Call CreateBucket _ => true
  | _ => false
  end.
Definition is_put_object (ef : effect) : bool :=
  match ef with Call (PutObject _ _) _ => true | _ => false end.
Definition is_put_item (ef : effect) : bool :=
  match ef with Call (PutItem _) _ => true | _ => false end.
Definition is_delete (ef : effect) : bool :=
  match ef with Call (DeleteObject _) _ | Call (DeleteItem _) _ => true | _ => false end.
Definition is_failed_call (ef : effect) : bool :=
  match ef with Call _ (Some _) => true | _ => false end.

(** The response [error_response] returns, and the line it prints. *)
Definition error_reply (X : Ext) (status_code : Z) : response :=
  {| statusCode := status_code;
     headers :=
       [("Content-Type", "application/json");
        ("Access-Control-Allow-Origin", SecureResponseFormatter.allowed_origin X);
        ("X-Content-Type-Options", "nosniff");
        ("X-Frame-Options", "DENY")];
     body := json_dumps X true
               (PDict [("error", PStr (SecureResponseFormatter.generic_message status_code))]) |}.

Definition log_line (status_code : Z) (error_message : string) : string :=
  "Error " +:+ pretty status_code +:+ ": " +:+ error_message.

(** What the [except] clauses of the upload handler print for [e], and the
    status they answer with. *)
Definition status_of (e : exn) : Z := if is_security e then 400 else 500.
Definition handler_log (e : exn) : list effect :=
  match e with
  | SecurityError msg => [Print (log_line 400 msg)]
  | _ => [Print ("Unexpected error: " +:+ str_exn e);
          Print (log_line 500 "Internal server error")]
  end.

(** The pure part of the upload between provisioning and storing: the
    message of the rejection, the validated fields with the transcoded
    image, or the exception [json.loads] raised other than
    [JSONDecodeError]. *)
Inductive verdict :=
| Rejected (msg : string)
| Accepted (f : fields) (transcoded : bytes * Z * Z * string)
| Failed (e : exn).

Definition accept_request (X : Ext) (event : dict) : verdict :=
  match request_body X event with
  | JSONDecodeError _ => Rejected "Invalid JSON format"
  | LoadRaised cls msg => Failed (LibraryError cls msg)
  | Loaded (PDict body) =>
      match validate_inputs X body with
      | Raise e => Rejected (str_exn e)
      | Ok f =>
          match ImageProcessor.process_image X (f_image_data f) with
          | Raise e => Rejected (str_exn e)
          | Ok r => Accepted f r
          end
      end
  | Loaded _ => Rejected "Invalid request format"
  end.

(** The exception [put_object] raises in world [w], if any: the refusal of
    the metadata by the client, or else the fault of the backend. *)
Definition put_object_failure (X : Ext) (w : World) (key : string) (obj : s3_object)
  : option exn :=
  match validate_ascii_metadata (obj_metadata obj) with
  | Some e => Some e
  | None => option_map exn_of_fault (aws_fault X w (PutObject key obj))
  end.

(** Text of printable ASCII characters, from the space to the tilde: what
    an HTTP header can carry as it is. *)
Definition is_printable (s : string) : bool := str_forall (in_range 32 126) s.

(** [json.loads] raises something else than [JSONDecodeError] on the body
    of the event. *)
Definition load_raised (X : Ext) (event : dict) : Prop :=
  exists cls msg, request_body X event = LoadRaised cls msg.

Definition not_sep (sep c : ascii) : bool := negb (Ascii.eqb c sep).

(** The shape of a storage key. *)
Definition key_of (h u i : string) : string :=
  "images/" +:+ h +:+ "/" +:+ u +:+ "/" +:+ i +:+ ".jpg".

(** The identifier, the timestamp, the key, the blob and the item of an
    upload that reaches [store_image] in world [w]. *)
Section Stored.
Variables (X : Ext) (f : fields) (processed_bytes : bytes) (width height : Z)
          (format_type : string) (w : World).

Definition new_image_id : string := uuid4 X (ticks w).
Definition new_created_at : string := utcnow_isoformat X (N.succ (ticks w)).
Definition new_key : string :=
  SecureS3Manager.generate_secure_key (f_user_id f) new_image_id.
Definition new_object : s3_object :=
  {| obj_body := processed_bytes;
     obj_content_type := "image/jpeg";
     obj_metadata :=
       [("user_id", f_user_id f); ("title", f_title f);
        ("description", f_description f); ("upload_time", new_created_at)];
     obj_encryption := "AES256";
     obj_cache_control := "private, max-age=3600" |}.
Definition new_item : dict :=
  metadata_item f new_image_id new_key width height format_type processed_bytes
    new_created_at (utcnow_isoformat X (N.succ (N.succ (ticks w)))).
Definition new_response : response :=
  SecureResponseFormatter.success_response X
    (success_data f new_image_id width height processed_bytes new_created_at) 201.

(** The world after the three draws, and after the blob write. *)
Definition drawn : World := tick (tick (tick w)).
Definition blob_written (b : gmap string s3_object) : World :=
  set_bucket (Some (<[new_key := new_object]> b)) drawn.
End Stored.

(** What provisioning leaves behind: the stored rows and blobs and the
    counter are as they were, and only provisioning calls were issued. *)
Record provisioned (w w1 : World) (t1 : list effect) : Prop := {
  prov_rows : rows w1 = rows w;
  prov_blobs : blobs w1 = blobs w;
  prov_ticks : ticks w1 = ticks w;
  prov_calls : forallb is_provisioning t1 = true
}.

Definition is_failed_write (ef : effect) : bool :=
  match ef with
  | Call (PutObject _ _) (Some _) | Call (PutItem _) (Some _) => true
  | _ => false
  end.

(** The runs of the upload handler from world [w]: the result, the final
    world and the effects, by the stage at which the run ends. *)
Inductive upload_run (X : Ext) (event : dict) (w : World)
  : result response -> World -> list effect -> Prop :=
| run_too_large :
    validate_request_size event = Raise (SecurityError "Request too large") ->
    upload_run X event w (Ok (error_reply X 400)) w
      [Print (log_line 400 "Request too large")]
| run_unprovisioned e w1 t1 :
    validate_request_size event = Ok tt ->
    initialize_resources X w = (Raise e, w1, t1) ->
    is_security e = false ->
    upload_run X event w (Ok (error_reply X 500)) w1 (t1 ++ handler_log e)
| run_load_failed w1 t1 e :
    validate_request_size event = Ok tt ->
    initialize_resources X w = (Ok tt, w1, t1) ->
    accept_request X event = Failed e ->
    is_security e = false ->
    upload_run X event w (Ok (error_reply X 500)) w1 (t1 ++ handler_log e)
| run_rejected w1 t1 msg :
    validate_request_size event = Ok tt ->
    initialize_resources X w = (Ok tt, w1, t1) ->
    accept_request X event = Rejected msg ->
    upload_run X event w (Ok (error_reply X 400)) w1 (t1 ++ [Print (log_line 400 msg)])
| run_blob_failed w1 t1 f processed_bytes width height format_type tb b e :
    validate_request_size event = Ok tt ->
    initialize_resources X w = (Ok tt, w1, t1) ->
    accept_request X event = Accepted f (processed_bytes, width, height, format_type) ->
    table w1 = Some tb ->
    bucket w1 = Some b ->
    put_object_failure X (drawn w1) (new_key X f w1) (new_object X f processed_bytes w1)
    = Some e ->
    is_security e = false ->
    upload_run X event w (Ok (error_reply X 500)) (drawn w1)
      ((t1 ++ [Call (PutObject (new_key X f w1) (new_object X f processed_bytes w1)) (Some e)])
       ++ handler_log e)
| run_row_failed w1 t1 f processed_bytes width height format_type tb b fl :
    validate_request_size event = Ok tt ->
    initialize_resources X w = (Ok tt, w1, t1) ->
    accept_request X event = Accepted f (processed_bytes, width, height, format_type) ->
    table w1 = Some tb ->
    bucket w1 = Some b ->
    put_object_failure X (drawn w1) (new_key X f w1) (new_object X f processed_bytes w1)
    = None ->
    aws_fault X (blob_written X f processed_bytes w1 b)
      (PutItem (new_item X f processed_bytes width height format_type w1))
    = Some fl ->
    upload_run X event w (Ok (error_reply X 500)) (blob_written X f processed_bytes w1 b)
      ((t1 ++ [Call (PutObject (new_key X f w1) (new_object X f processed_bytes w1)) None;
               Call (PutItem (new_item X f processed_bytes width height format_type w1))
                 (Some (exn_of_fault fl))])
       ++ handler_log (exn_of_fault fl))
| run_stored w1 t1 f processed_bytes width height format_type tb b :
    validate_request_size event = Ok tt ->
    initialize_resources X w = (Ok tt, w1, t1) ->
    accept_request X event = Accepted f (processed_bytes, width, height, format_type) ->
    table w1 = Some tb ->
    bucket w1 = Some b ->
    put_object_failure X (drawn w1) (new_key X f w1) (new_object X f processed_bytes w1)
    = None ->
    aws_fault X (blob_written X f processed_bytes w1 b)
      (PutItem (new_item X f processed_bytes width height format_type w1))
    = None ->
    upload_run X event w (Ok (new_response X f processed_bytes width height w1))
      (set_table
         (Some (<[new_image_id X w1 :=
                    new_item X f processed_bytes width height format_type w1]> tb))
         (blob_written X f processed_bytes w1 b))
      (t1 ++ [Call (PutObject (new_key X f w1) (new_object X f processed_bytes w1)) None;
              Call (PutItem (new_item X f processed_bytes width height format_type w1)) None]).

(** A request the handler refuses between provisioning and storing: a body
    that is not JSON, a body that is not an object, a field that fails
    validation, an image that fails transcoding. *)
Inductive refused (X : Ext) (event : dict) : Prop :=
| refused_not_json msg :
    request_body X event = JSONDecodeError msg -> refused X event
| refused_not_object v :
    request_body X event = Loaded v -> (forall d, v <> PDict d) -> refused X event
| refused_invalid body e :
    request_body X event = Loaded (PDict body) ->
    validate_inputs X body = Raise e -> refused X event
| refused_image body f e :
    request_body X event = Loaded (PDict body) ->
    validate_inputs X body = Ok f ->
    ImageProcessor.process_image X (f_image_data f) = Raise e -> refused X event.


Definition is_failed_put_object (ef : effect) : bool :=
  match ef with Call (PutObject _ _) (Some _) => true | _ => false end.

(** The value of a response header. *)
Fixpoint header_get (hs : list (string * string)) (name : string) : option string :=
  match hs with
  | [] => None
  | (n, v) :: hs' => if String.eqb n name then Some v else header_get hs' name
  end.

(** The characters a base64 text may hold: the digits, the pad and the
    line feed. *)
Definition is_b64_text_char (c : ascii) : bool :=
  is_b64_char c || (ord c =? 61) || (ord c =? 10).

Definition no_markup (s : string) : bool :=
  str_forall (fun c => negb (is_markup_char c)) s.

Definition is_create (ef : effect) : bool :=
  match ef with Call CreateTable _ | Call CreateBucket _ => true | _ => false end.

(** The hash prefix of an owner in a storage key. *)
Definition user_hash (user_id : string) : string :=
  str_take 8 (Sha256.hexdigest (str_encode user_id)).

(** The response of the delete handler to an exception, and the event
    that names an image. *)
Definition delete_failure (X : Ext) (e : exn) : response :=
  DeleteImage.reply X 500
    (PDict [("error", PStr ("Internal server error: " +:+ str_exn e))]).

Definition delete_request (image_id : pyvalue) : dict :=
  [("pathParameters", PDict [("image_id", image_id)])].

(** The image identifier a delete event names, when its path parameters
    are an object. *)
Definition named_image (event : dict) : option pyvalue :=
  match dict_get event "pathParameters" (PDict []) with
  | PDict path_parameters => Some (dict_get path_parameters "image_id" PNone)
  | _ => None
  end.

(** The [try] block around the deletion of the blob. *)
Definition delete_blob (X : Ext) (s3_key : pyvalue) : M unit :=
  try_except
    (do! aws X (DeleteObject s3_key) in ret tt)
    (fun e => print ("Warning: Failed to delete from S3: " +:+ str_exn e)).

(** An owner identifier the validator refuses. *)
Definition rejected_owner (v : pyvalue) : Prop :=
  match v with
  | PStr s => s = "" \/ len (sub_non_id s) < 3 \/ 50 < len (sub_non_id s)
  | _ => True
  end.

(** ** A concrete environment

    Small stand-ins for the libraries, on which the handlers can be run:
    a JSON printer, a JSON reader of a few literals, a base64 decoder, and
    an image container of six header
    bytes (format, width, height, mode) followed by the pixel data. *)

Module Demo.

Definition quote : string := String "034"%char EmptyString.

Fixpoint escape (s : string) : string :=
  match s with
  | EmptyString => EmptyString
  | String c s' =>
      if (ord c =? 34) || (ord c =? 92)
      then String "092"%char (String c (escape s'))
      else String c (escape s')
  end.

Definition dumps_str (s : string) : string := quote +:+ escape s +:+ quote.

Fixpoint dumps (v : pyvalue) : string :=
  match v with
  | PNone => "null"
  | PBool b => if b then "true" else "false"
  | PInt n => pretty n
  | PFloat m e => pretty m +:+ "e" +:+ pretty e
  | PStr s => dumps_str s
  | PList l =>
      "[" +:+ (fix items (l : list pyvalue) : string :=
                 match l with
                 | [] => ""
                 | [x] => dumps x
                 | x :: rest => dumps x +:+ ", " +:+ items rest
                 end) l +:+ "]"
  | PDict d =>
      "{" +:+ (fix members (d : dict) : string :=
                 match d with
                 | [] => ""
                 | [(k, x)] => dumps_str k +:+ ": " +:+ dumps x
                 | (k, x) :: rest => dumps_str k +:+ ": " +:+ dumps x +:+ ", " +:+ members rest
                 end) d +:+ "}"
  end.

Definition is_digit (c : ascii) : bool := in_range 48 57 c.

Fixpoint digits_value (acc : Z) (s : string) : Z :=
  match s with
  | EmptyString => acc
  | String c s' => digits_value (10 * acc + (ord c - 48)) s'
  end.

(** An integer literal: digits, without a leading zero. *)
Definition is_int_literal (s : string) : bool :=
  match s with
  | EmptyString => false
  | String c s' => str_forall is_digit s && (negb (ord c =? 48) || String.eqb s' "")
  end.

(** The empty object, the empty array, [null] and the integer literals are
    read; a literal of more than 4300 digits is one [int] refuses to
    convert; any other text is taken not to be JSON. *)
Definition loads (s : string) : loaded :=
  if String.eqb s "{}" then Loaded (PDict [])
  else if String.eqb s "[]" then Loaded (PList [])
  else if String.eqb s "null" then Loaded PNone
  else if is_int_literal s
  then if len s >? 4300
       then LoadRaised "ValueError"
              ("Exceeds the limit (4300 digits) for integer string conversion: value has "
               +:+ pretty (len s)
               +:+ " digits; use sys.set_int_max_str_digits() to increase the limit")
       else Loaded (PInt (digits_value 0 s))
  else JSONDecodeError "Expecting value: line 1 column 1 (char 0)".

(** The six-bit value of a base64 digit. *)
Definition b64_value (c : ascii) : option Z :=
  if in_range 65 90 c then Some (ord c - 65)
  else if in_range 97 122 c then Some (ord c - 71)
  else if in_range 48 57 c then Some (ord c + 4)
  else if ord c =? 43 then Some 62
  else if ord c =? 47 then Some 63
  else None.

Fixpoint b64_digits (s : string) : list Z :=
  match s with
  | EmptyString => []
  | String c s' =>
      match b64_value c with
      | Some v => v :: b64_digits s'
      | None => []
      end
  end.

Fixpoint count_pad (s : string) : nat :=
  match s with
  | EmptyString => O
  | String c s' => if ord c =? 61 then S (count_pad s') else count_pad s'
  end.

Fixpoint b64_groups (ds : list Z) (pads : nat) : option bytes :=
  match ds with
  | [] => Some []
  | a :: b :: c :: d :: rest =>
      let n := ((a * 64 + b) * 64 + c) * 64 + d in
      option_map
        (fun tl => byte_of_Z (n / 65536) :: byte_of_Z (n / 256 mod 256) :: byte_of_Z (n mod 256) :: tl)
        (b64_groups rest pads)
  | [a; b; c] =>
      let n := (a * 64 + b) * 64 + c in
      if (1 <=? pads)%nat then Some [byte_of_Z (n / 1024); byte_of_Z (n / 4 mod 256)] else None
  | [a; b] =>
      if (2 <=? pads)%nat then Some [byte_of_Z ((a * 64 + b) / 16)] else None
  | [_] => None
  end.

Definition decode64 (s : string) : option bytes := b64_groups (b64_digits s) (count_pad s).

Definition format_of_tag (tag : Z) : option string :=
  if tag =? 0 then Some "JPEG"
  else if tag =? 1 then Some "PNG"
  else if tag =? 2 then Some "GIF"
  else if tag =? 3 then Some "WEBP"
  else if tag =? 4 then Some "BMP"
  else None.

Definition mode_of_tag (tag : Z) : string :=
  if tag =? 1 then "RGBA" else if tag =? 2 then "P" else if tag =? 3 then "F" else "RGB".

Definition open_image (b : bytes) : result Image :=
  match b with
  | f :: w1 :: w0 :: h1 :: h0 :: m :: px =>
      match format_of_tag (byte_val f) with
      | Some name =>
          Ok {| img_format := Some name;
                img_size := (byte_val w1 * 256 + byte_val w0, byte_val h1 * 256 + byte_val h0);
                img_mode := mode_of_tag (byte_val m);
                img_pixels := px |}
      | None => Raise (LibraryError "UnidentifiedImageError" "cannot identify image file")
      end
  | _ => Raise (LibraryError "UnidentifiedImageError" "cannot identify image file")
  end.

(** A converted image is a new image: it has no format. *)
Definition convert (i : Image) (mode : string) : result Image :=
  Ok {| img_format := None; img_size := img_size i; img_mode := mode; img_pixels := img_pixels i |}.

Definition save_jpeg (i : Image) : result bytes :=
  if String.eqb (img_mode i) "F"
  then Raise (LibraryError "OSError" "cannot write mode F as JPEG")
  else
    Ok (byte_of_Z 0 :: byte_of_Z (fst (img_size i) / 256) :: byte_of_Z (fst (img_size i) mod 256)
        :: byte_of_Z (snd (img_size i) / 256) :: byte_of_Z (snd (img_size i) mod 256)
        :: byte_of_Z 0 :: img_pixels i).

Definition ext : Ext :=
  {| json_loads := loads;
     json_dumps := fun _ => dumps;
     b64decode := decode64;
     Image_open := open_image;
     Image_convert := convert;
     Image_save_jpeg := save_jpeg;
     uuid4 := fun n => "00000000-0000-4000-8000-" +:+ pretty n;
     utcnow_isoformat := fun n => "2024-01-01T00:00:00." +:+ pretty n;
     environ_ALLOWED_ORIGIN := None;
     aws_fault := fun _ _ => None |}.

(** The same environment with another fault behaviour of the backends. *)
Definition with_faults (f : World -> aws_call -> option fault) : Ext :=
  {| json_loads := loads;
     json_dumps := fun _ => dumps;
     b64decode := decode64;
     Image_open := open_image;
     Image_convert := convert;
     Image_save_jpeg := save_jpeg;
     uuid4 := uuid4 ext;
     utcnow_isoformat := utcnow_isoformat ext;
     environ_ALLOWED_ORIGIN := None;
     aws_fault := f |}.

(** Backends that refuse every blob write, every metadata write, every
    blob deletion. *)
Definition denied : option fault := Some (FClient "AccessDenied" "Access Denied").
Definition blob_delete_down : Ext :=
  with_faults (fun _ c => match c with DeleteObject _ => denied | _ => None end).

(** Nothing provisioned yet. *)
Definition empty_world : World := {| table := None; bucket := None; ticks := 0 |}.

(** A 10x10 JPEG, a 10x10 BMP, a 5000x10 PNG and bytes that are no image,
    each as the base64 text a client sends. *)
Definition jpeg_10x10 : string := "AAAKAAoA/wAA".
Definition bmp_10x10 : string := "BAAKAAoA/wAA".
Definition png_5000x10 : string := "AROIAAoA/wAA".
Definition not_an_image : string := "VGhpcyBpcyBub3QgYW4gaW1hZ2U=".
(** A 10x10 PNG in mode RGBA. *)
Definition png_rgba_10x10 : string := "AQAKAAoB/wAAgA==".

(** A body of 20971521 characters, one more than the request size limit. *)
Definition huge_body : string := N.iter 20971521 (String "A") "".
Definition oversize_event : dict := [("body", PStr huge_body)].

(** A body that is one integer literal of 4301 digits. *)
Definition long_integer_event : dict := [("body", PStr (N.iter 4301 (String "7") ""))].

(** Ten well-formed tags followed by one with foreign characters; nine
    well-formed tags followed by one made of foreign characters only. *)
Definition ten_tags : list pyvalue :=
  [PStr "t1"; PStr "t2"; PStr "t3"; PStr "t4"; PStr "t5";
   PStr "t6"; PStr "t7"; PStr "t8"; PStr "t9"; PStr "t10"].
Definition eleven_tags : pyvalue := PList (ten_tags ++ [PStr "b@d t@g!"]).
Definition nine_and_one : list pyvalue :=
  [PStr "t1"; PStr "t2"; PStr "t3"; PStr "t4"; PStr "t5";
   PStr "t6"; PStr "t7"; PStr "t8"; PStr "t9"; PStr "@ @!"].

Definition decoded (s : string) : bytes :=
  match decode64 s with Some b => b | None => [] end.

Definition upload_event (user_id : string) (image_data : string) (tags : pyvalue) : dict :=
  [("body", PDict [("user_id", PStr user_id); ("image_data", PStr image_data);
                   ("title", PStr "Test Image"); ("tags", tags)])].

(** An upload whose title has a character outside ASCII, e with an acute
    accent. *)
Definition cafe : string := String "c" (String "a" (String "f" (String (ascii_of_N 233) ""))).
Definition accented_upload : dict :=
  [("body", PDict [("user_id", PStr "user123"); ("image_data", PStr jpeg_10x10);
                   ("title", PStr cafe); ("tags", PList [PStr "test"])])].

Definition valid_upload : dict :=
  upload_event "user123" jpeg_10x10 (PList [PStr "test"; PStr "sample"]).

(** The result, the final world and the effects of an upload in the empty
    world. *)
Definition upload_result (X : Ext) (event : dict) : result response :=
  fst (fst (secure_lambda_handler X event empty_world)).
Definition upload_world (X : Ext) (event : dict) : World :=
  snd (fst (secure_lambda_handler X event empty_world)).
Definition upload_effects (X : Ext) (event : dict) : list effect :=
  snd (secure_lambda_handler X event empty_world).

(** A table holding one row whose blob is not in the bucket, and the same
    table without any bucket. *)
Definition orphan_row : dict :=
  [("image_id", PStr "img-1"); ("user_id", PStr "user123");
   ("s3_key", PStr "images/e606e38b/user123/img-1.jpg")].
Definition orphan_world : World :=
  {| table := Some {[ "img-1" := orphan_row ]}; bucket := Some ∅; ticks := 0 |}.
Definition no_bucket_world : World :=
  {| table := Some {[ "img-1" := orphan_row ]}; bucket := None; ticks := 0 |}.
Definition delete_event : dict := [("pathParameters", PDict [("image_id", PStr "img-1")])].

(** A table whose one row records no key, and a metadata store that
    refuses every read. *)
Definition keyless_world : World :=
  {| table := Some {[ "img-1" := [("image_id", PStr "img-1")] ]};
     bucket := Some ∅; ticks := 0 |}.
Definition metadata_read_down : Ext :=
  with_faults (fun _ c => match c with GetItem _ => denied | _ => None end).

End Demo.

(** * Running the model on concrete inputs *)

Example sha256_abc :
  Sha256.hexdigest (str_encode "abc")
  = "ba7816bf8f01cfea414140de5dae2223b00361a396177a9cb410ff61f20015ad".
Proof. vm_compute. reflexivity. Qed.

Example sha256_empty :
  Sha256.hexdigest []
  = "e3b0c44298fc1c149afbf4c8996fb92427ae41e4649b934ca495991b7852b855".
Proof. vm_compute. reflexivity. Qed.

Example sha256_two_blocks :
  Sha256.hexdigest (str_encode "aaaaaaaaaaaaaaaaaaaaaaaaaaaaaaaaaaaaaaaaaaaaaaaaaaaaaaaa")
  = "b35439a4ac6f0948b6d6f9e3c6af0f5f590ce20f1bde7090ef7970686ec6738a".
Proof. vm_compute. reflexivity. Qed.

Example sha256_non_ascii :
  Sha256.hexdigest (str_encode (String "u" (String "s" (String (ascii_of_N 233) "r"))))
  = "28e0250e9d699d8dfc7ecbd5eabda229e2f0751074f8128f935aa7af4593d89c".
Proof. vm_compute. reflexivity. Qed.

Example validate_user_id_ex1 :
  InputValidator.validate_user_id (PStr "  user 123!  ") = Ok "user123".
Proof. reflexivity. Qed.

Example validate_tags_ex1 :
  InputValidator.validate_tags (PList [PStr "test"; PInt 4; PStr "<>"; PStr " a b "])
  = Ok ["test"; "ab"].
Proof. reflexivity. Qed.

Example validate_text_ex1 :
  InputValidator.validate_text_field (PStr (String.concat "" (repeat "abcdefghij" 11))) "title" MAX_TITLE_LENGTH
  = Raise (SecurityError "title too long. Max length: 100").
Proof. vm_compute. reflexivity. Qed.

Example match_base64_ex :
  map match_base64 ["QUJD"; "QUI="; "QQ=="; "QQ==="; "QUJD=x"; "This is not base64 data!!!"; ""]
  = [true; true; true; false; false; false; true].
Proof. reflexivity. Qed.

Example generate_secure_key_ex1 :
  SecureS3Manager.generate_secure_key "user123" "0b0e-12"
  = "images/e606e38b/user123/0b0e-12.jpg".
Proof. vm_compute. reflexivity. Qed.

Example generate_secure_key_ex2 :
  SecureS3Manager.generate_secure_key "../../etc" "/../x.y"
  = "images/74ccf3c5/etc/xy.jpg".
Proof. vm_compute. reflexivity. Qed.

Example demo_decode64 :
  Demo.decode64 Demo.not_an_image = Some (str_encode "This is not an image")
  /\ Demo.decode64 "QQ=" = None /\ Demo.decode64 "QUJDR" = None.
Proof. vm_compute. auto. Qed.

Example demo_upload_ok :
  let '(r, w, t) := secure_lambda_handler Demo.ext
                      (Demo.upload_event "user123" Demo.jpeg_10x10 (PList [PStr "test"; PStr "sample"]))
                      Demo.empty_world in
  option_map statusCode (match r with Ok x => Some x | Raise _ => None end) = Some 201
  /\ length t = 7%nat.
Proof. vm_compute. auto. Qed.

(** * Characters and sanitizing *)

Lemma space_not_id c : is_space c = true -> is_id_char c = false.
Proof. destruct c as [[] [] [] [] [] [] [] []]; vm_compute; congruence. Qed.

Lemma id_not_separator c :
  is_id_char c = true -> Ascii.eqb c "/" = false /\ Ascii.eqb c "." = false.
Proof. destruct c as [[] [] [] [] [] [] [] []]; vm_compute; intuition congruence. Qed.

Lemma hex_is_id c : is_hex c = true -> is_id_char c = true.
Proof. destruct c as [[] [] [] [] [] [] [] []]; vm_compute; congruence. Qed.

Section Filter.
Variable keep : ascii -> bool.
Hypothesis drops_space : forall c, is_space c = true -> keep c = false.

Lemma str_filter_lstrip s : str_filter keep (lstrip s) = str_filter keep s.
Proof.
  induction s as [|c s IH]; simpl; [reflexivity|].
  destruct (is_space c) eqn:Hc; [|reflexivity].
  now rewrite (drops_space c Hc).
Qed.

Lemma str_filter_rstrip s : str_filter keep (rstrip s) = str_filter keep s.
Proof.
  induction s as [|c s IH]; simpl; [reflexivity|].
  destruct (rstrip s) as [|d r] eqn:Hr.
  - simpl in IH. destruct (is_space c) eqn:Hc.
    + now rewrite (drops_space c Hc), <- IH.
    + simpl. now rewrite <- IH.
  - change (str_filter keep (String c (String d r)))
      with (if keep c then String c (str_filter keep (String d r))
            else str_filter keep (String d r)).
    now rewrite IH.
Qed.

Lemma str_filter_strip s : str_filter keep (strip s) = str_filter keep s.
Proof. unfold strip. now rewrite str_filter_rstrip, str_filter_lstrip. Qed.
End Filter.

Lemma sub_non_id_strip s : sub_non_id (strip s) = sub_non_id s.
Proof. apply str_filter_strip, space_not_id. Qed.

Lemma str_forall_filter p s : str_forall p (str_filter p s) = true.
Proof.
  induction s as [|c s IH]; simpl; [reflexivity|].
  destruct (p c) eqn:Hc; simpl; [now rewrite Hc|exact IH].
Qed.

Lemma str_forall_impl (p q : ascii -> bool) s :
  (forall c, p c = true -> q c = true) -> str_forall p s = true -> str_forall q s = true.
Proof.
  intros Hpq. induction s as [|c s IH]; simpl; [reflexivity|].
  intros [Hc Hs]%andb_prop. rewrite (Hpq c Hc). now apply IH.
Qed.

Lemma str_forall_app p a b :
  str_forall p (a +:+ b) = str_forall p a && str_forall p b.
Proof.
  induction a as [|c a IH]; simpl; [reflexivity|].
  now rewrite IH, andb_assoc.
Qed.


Lemma sub_non_id_chars s : str_forall is_id_char (sub_non_id s) = true.
Proof. apply str_forall_filter. Qed.

(** * InputValidator.validate_tags *)

Lemma clean_entry_spec v :
  InputValidator.clean_entry v
  = match v with
    | PStr s => if (1 <=? len (sub_non_id s)) && (len (sub_non_id s) <=? 50)
                then [sub_non_id s] else []
    | _ => []
    end.
Proof.
  destruct v; try reflexivity. unfold InputValidator.clean_entry.
  rewrite sub_non_id_strip.
  replace (len (sub_non_id s) >? 0) with (1 <=? len (sub_non_id s)); [reflexivity|].
  rewrite Z.gtb_ltb. destruct (Z.leb_spec 1 (len (sub_non_id s))), (Z.ltb_spec 0 (len (sub_non_id s))); lia.
Qed.

Lemma sanitize_entries_spec l : InputValidator.sanitize_entries l = spec_tags l.
Proof.
  unfold spec_tags. induction l as [|v l IH]; [reflexivity|].
  cbn [InputValidator.sanitize_entries]. rewrite clean_entry_spec, IH.
  destruct v; try reflexivity.
  cbn [omap list_omap string_of map List.filter].
  now destruct ((1 <=? len (sub_non_id s)) && (len (sub_non_id s) <=? 50)).
Qed.

Lemma spec_tags_valid l : Forall valid_tag (spec_tags l).
Proof.
  unfold spec_tags. apply List.Forall_forall. intros t [Hin Hlen]%List.filter_In.
  apply List.in_map_iff in Hin as (s & <- & _).
  split; [apply sub_non_id_chars|]. lia.
Qed.

Lemma spec_tags_strings_only l : spec_tags (List.filter is_string l) = spec_tags l.
Proof.
  unfold spec_tags. do 2 f_equal.
  induction l as [|v l IH]; [reflexivity|].
  destruct v; cbn [List.filter is_string omap list_omap string_of]; try exact IH.
  cbn in IH |- *. now rewrite IH.
Qed.

Lemma validate_tags_list l :
  InputValidator.validate_tags (PList l)
  = if Z.of_nat (length l) >? 10 then Raise too_many_tags else Ok (spec_tags l).
Proof.
  unfold InputValidator.validate_tags. rewrite sanitize_entries_spec.
  change MAX_TAGS_COUNT with 10.
  destruct (Z.of_nat (length l) >? 10); [|reflexivity].
  f_equal.
Qed.

(** C4: tag validation never rejects on the content of an entry.  A value
    that is not a list yields the empty list; a list is rejected exactly
    when it has more than ten entries, whatever they are; otherwise the
    result is the list of the sanitized string entries whose sanitized
    length is between 1 and 50, in input order, each of them made of
    characters of [[A-Za-z0-9_-]] only.  (The length bound is checked on the
    sanitized entry, as the code does.) *)
Theorem C4_validate_tags_drops_invalid_entries (tags : pyvalue) :
  match tags with
  | PList l =>
      InputValidator.validate_tags tags
      = (if Z.of_nat (length l) >? 10 then Raise too_many_tags else Ok (spec_tags l))
      /\ Forall valid_tag (spec_tags l)
  | _ => InputValidator.validate_tags tags = Ok []
  end.
Proof.
  destruct tags; try reflexivity.
  split; [apply validate_tags_list|apply spec_tags_valid].
Qed.

(** C10: entries of the tags list that are not strings are skipped without
    an error, and yet they count toward the limit of ten entries, which is
    checked on the list as submitted: the outcome is the rejection when the
    submitted list has more than ten entries, and otherwise the sanitized
    tags of its string entries alone. *)
Theorem C10_non_string_tags_dropped_but_counted (l : list pyvalue) :
  InputValidator.validate_tags (PList l)
  = if Z.of_nat (length l) >? MAX_TAGS_COUNT
    then Raise too_many_tags
    else Ok (InputValidator.sanitize_entries (List.filter is_string l)).
Proof.
  rewrite validate_tags_list, sanitize_entries_spec, spec_tags_strings_only.
  reflexivity.
Qed.

(** * SecureS3Manager.generate_secure_key *)

Lemma round_length st kw : length st = 8%nat -> length (Sha256.round st kw) = 8%nat.
Proof.
  intros H. do 9 (destruct st as [|? st]; try discriminate H). reflexivity.
Qed.

Lemma rounds_length kws st :
  length st = 8%nat -> length (fold_left Sha256.round kws st) = 8%nat.
Proof.
  revert st. induction kws as [|kw kws IH]; intros st H; simpl; [exact H|].
  apply IH, round_length, H.
Qed.

Lemma compress_length h block : length h = 8%nat -> length (Sha256.compress h block) = 8%nat.
Proof.
  intros H. unfold Sha256.compress.
  rewrite length_zip_with, rounds_length by exact H. rewrite H. reflexivity.
Qed.

Lemma digest_words_length msg : length (Sha256.digest_words msg) = 8%nat.
Proof.
  unfold Sha256.digest_words.
  generalize (Sha256.chunks (length (Sha256.pad msg)) 64 (Sha256.pad msg)).
  assert (H : length Sha256.H0 = 8%nat) by (vm_compute; reflexivity).
  revert H. generalize Sha256.H0.
  intros h H blocks. revert h H.
  induction blocks as [|b blocks IH]; intros h H; simpl; [exact H|].
  apply IH, compress_length, H.
Qed.

Lemma hexdigit_hex n : is_hex (Sha256.hexdigit n) = true.
Proof.
  unfold Sha256.hexdigit.
  assert (H : (Z.to_nat (n mod 16) < 16)%nat) by (pose proof (Z.mod_pos_bound n 16); lia).
  remember (Z.to_nat (n mod 16)) as k eqn:Hk. clear Hk.
  do 16 (destruct k as [|k]; [reflexivity|]). lia.
Qed.

(** The first eight characters of a digest are eight hexadecimal digits. *)
Lemma user_hash_hex msg :
  let h := str_take 8 (Sha256.hexdigest msg) in
  String.length h = 8%nat /\ str_forall is_hex h = true.
Proof.
  unfold Sha256.hexdigest.
  pose proof (digest_words_length (map byte_val msg)) as H.
  destruct (Sha256.digest_words (map byte_val msg)) as [|w ws]; [discriminate H|].
  cbn [fold_right Sha256.hex_word str_take String.length str_forall].
  split; [reflexivity|].
  now rewrite !hexdigit_hex.
Qed.

Lemma split_on_whole sep a :
  str_forall (not_sep sep) a = true -> split_on sep a = [a].
Proof.
  induction a as [|c a IH]; simpl; [reflexivity|].
  unfold not_sep at 1. intros [Hc Ha]%andb_prop.
  destruct (Ascii.eqb c sep); [discriminate Hc|].
  now rewrite IH.
Qed.

Lemma split_on_app sep a b :
  str_forall (not_sep sep) a = true ->
  split_on sep (a +:+ String sep b) = a :: split_on sep b.
Proof.
  induction a as [|c a IH]; simpl.
  - now rewrite Ascii.eqb_refl.
  - unfold not_sep at 1. intros [Hc Ha]%andb_prop.
    destruct (Ascii.eqb c sep); [discriminate Hc|].
    now rewrite IH.
Qed.


Lemma id_chars_no_sep sep s :
  sep = "/"%char \/ sep = "."%char ->
  str_forall is_id_char s = true -> str_forall (not_sep sep) s = true.
Proof.
  intros Hsep. apply str_forall_impl. intros c [H1 H2]%id_not_separator.
  unfold not_sep. destruct Hsep; subst; [now rewrite H1|now rewrite H2].
Qed.

Section KeyShape.
Variables h u i : string.
Hypothesis h_id : str_forall is_id_char h = true.
Hypothesis u_id : str_forall is_id_char u = true.
Hypothesis i_id : str_forall is_id_char i = true.

Local Abbreviation key := (key_of h u i).

Lemma key_segments : split_on "/" key = ["images"; h; u; i +:+ ".jpg"].
Proof.
  change (key_of h u i) with ("images" +:+ String "/" (h +:+ String "/" (u +:+ String "/" (i +:+ ".jpg")))).
  rewrite split_on_app by reflexivity.
  rewrite split_on_app by (apply id_chars_no_sep; auto).
  rewrite split_on_app by (apply id_chars_no_sep; auto).
  rewrite split_on_whole; [reflexivity|].
  rewrite str_forall_app, (id_chars_no_sep "/") by auto. reflexivity.
Qed.



End KeyShape.


(** * ImageProcessor.process_image *)

(** Whatever leaves the [try] block leaves [process_image] as a
    [SecurityError] whose message begins with [Invalid image data: ]. *)
Lemma process_image_raises X b e :
  ImageProcessor.process_image X b = Raise e ->
  exists e0, ImageProcessor.process_image_body X b = Raise e0
             /\ e = SecurityError ("Invalid image data: " +:+ str_exn e0).
Proof.
  unfold ImageProcessor.process_image.
  destruct (ImageProcessor.process_image_body X b) as [r|e0]; [discriminate|].
  intros [= <-]. now exists e0.
Qed.

Lemma process_image_security X b e :
  ImageProcessor.process_image X b = Raise e -> class_of e = CSecurityError.
Proof. intros (e0 & _ & ->)%process_image_raises. reflexivity. Qed.

(** C5, as the code has it: a decodable payload whose declared format is
    not one of JPEG, PNG, GIF, WEBP, or whose width or height exceeds 4096,
    makes the transcoder fail, the format being checked first; but the
    failure is a [SecurityError], the very class of the error raised for
    bytes that cannot be decoded, and all three differ in their message
    only, after the common prefix [Invalid image data: ]. *)
Theorem C5_transcoder_failures_share_one_class (X : Ext) (b : bytes) (img : Image) :
  Image_open X b = Ok img ->
  ImageProcessor.format_allowed (img_format img) = false
  \/ 4096 < fst (img_size img) \/ 4096 < snd (img_size img) ->
  ImageProcessor.process_image X b
  = Raise (SecurityError
             ("Invalid image data: " +:+
              (if ImageProcessor.format_allowed (img_format img)
               then "Image dimensions too large"
               else "Unsupported image format: "
                    +:+ ImageProcessor.format_str (img_format img))))
  /\ forall b' e',
       Image_open X b' = Raise e' ->
       ImageProcessor.process_image X b'
       = Raise (SecurityError ("Invalid image data: " +:+ str_exn e'))
       /\ forall e1 e2,
            ImageProcessor.process_image X b = Raise e1 ->
            ImageProcessor.process_image X b' = Raise e2 ->
            class_of e1 = class_of e2.
Proof.
  intros Hopen Hbad. split.
  - unfold ImageProcessor.process_image, ImageProcessor.process_image_body.
    rewrite Hopen. cbn [and_then].
    destruct (ImageProcessor.format_allowed (img_format img)); [|reflexivity].
    cbn [negb].
    assert (Hdim : (fst (img_size img) >? 4096) || (snd (img_size img) >? 4096) = true).
    { destruct Hbad as [Hf|[Hw|Hh]]; [discriminate Hf| |].
      - apply orb_true_iff. left. lia.
      - apply orb_true_iff. right. lia. }
    now rewrite Hdim.
  - intros b' e' Hopen'. split.
    + unfold ImageProcessor.process_image, ImageProcessor.process_image_body.
      now rewrite Hopen'.
    + intros e1 e2 H1%process_image_security H2%process_image_security. congruence.
Qed.

Lemma C5_transcoder_failures_share_one_class_witness :
  ImageProcessor.process_image Demo.ext (Demo.decoded Demo.bmp_10x10)
  = Raise (SecurityError "Invalid image data: Unsupported image format: BMP")
  /\ ImageProcessor.process_image Demo.ext (Demo.decoded Demo.png_5000x10)
     = Raise (SecurityError "Invalid image data: Image dimensions too large").
Proof.
  split.
  - refine (proj1 (C5_transcoder_failures_share_one_class Demo.ext
                     (Demo.decoded Demo.bmp_10x10) _ eq_refl _)).
    left. reflexivity.
  - refine (proj1 (C5_transcoder_failures_share_one_class Demo.ext
                     (Demo.decoded Demo.png_5000x10) _ eq_refl _)).
    right. left. vm_compute. reflexivity.
Defined.

(** C5 as stated fails: a BMP (decodable, format not allowed), an oversized
    PNG and bytes that are no image are all refused with an exception of
    one and the same class, [SecurityError]. *)
Lemma C5_counterexample :
  (exists img,
      Image_open Demo.ext (Demo.decoded Demo.bmp_10x10) = Ok img
      /\ ImageProcessor.format_allowed (img_format img) = false)
  /\ Image_open Demo.ext (Demo.decoded Demo.not_an_image)
     = Raise (LibraryError "UnidentifiedImageError" "cannot identify image file")
  /\ exists e_format e_size e_decode,
       ImageProcessor.process_image Demo.ext (Demo.decoded Demo.bmp_10x10) = Raise e_format
       /\ ImageProcessor.process_image Demo.ext (Demo.decoded Demo.png_5000x10) = Raise e_size
       /\ ImageProcessor.process_image Demo.ext (Demo.decoded Demo.not_an_image)
          = Raise e_decode
       /\ e_format = SecurityError "Invalid image data: Unsupported image format: BMP"
       /\ e_size = SecurityError "Invalid image data: Image dimensions too large"
       /\ e_decode = SecurityError "Invalid image data: cannot identify image file"
       /\ class_of e_format = class_of e_decode
       /\ class_of e_size = class_of e_decode.
Proof.
  split; [eexists; split; [vm_compute; reflexivity|reflexivity]|].
  split; [reflexivity|].
  eexists _, _, _. repeat split; vm_compute; reflexivity.
Qed.

(** * Runs of the backends' provisioning *)

Lemma fault_not_security f : is_security (exn_of_fault f) = false.
Proof. now destruct f. Qed.

Lemma service_not_security c w e w1 : service c w = (Raise e, w1) -> is_security e = false.
Proof.
  destruct c; simpl; repeat case_match; intros [= <- <-]; reflexivity.
Qed.

Lemma create_table_run X w :
  match create_table_if_not_exists X w with
  | (r, w1, t1) =>
      provisioned w w1 t1 /\ bucket w1 = bucket w
      /\ match r with
         | Ok _ => is_Some (table w1)
         | Raise e => is_security e = false /\ existsb is_failed_call t1 = true
         end
  end.
Proof.
  unfold create_table_if_not_exists, try_except, bind, aws, ret, raise.
  destruct (aws_fault X w TableLoad) as [[code msg|cls msg]|] eqn:F1; cbn.
  - destruct (String.eqb code "ResourceNotFoundException") eqn:Hcode.
    + destruct (aws_fault X w CreateTable) as [f2|] eqn:F2; cbn.
      * repeat split; auto using fault_not_security.
      * destruct (table w) as [tb|] eqn:Ht; cbn.
        { repeat split; auto. }
        destruct (aws_fault X (set_table (Some ∅) w) WaitUntilExists) as [f3|] eqn:F3; cbn.
        { repeat split; auto using fault_not_security. unfold rows. cbn. now rewrite Ht. }
        repeat split; eauto. unfold rows. cbn. now rewrite Ht.
    + repeat split; auto.
  - repeat split; auto.
  - destruct (table w) as [tb|] eqn:Ht; cbn.
    + repeat split; eauto.
    + destruct (aws_fault X w CreateTable) as [f2|] eqn:F2; cbn.
      * repeat split; auto using fault_not_security.
      * rewrite Ht. cbn.
        destruct (aws_fault X (set_table (Some ∅) w) WaitUntilExists) as [f3|] eqn:F3; cbn.
        { repeat split; auto using fault_not_security. unfold rows. cbn. now rewrite Ht. }
        repeat split; eauto. unfold rows. cbn. now rewrite Ht.
Qed.

Lemma create_bucket_run X w :
  match create_bucket_if_not_exists X w with
  | (r, w1, t1) =>
      provisioned w w1 t1 /\ table w1 = table w
      /\ match r with
         | Ok _ => is_Some (bucket w1)
         | Raise e => is_security e = false /\ existsb is_failed_call t1 = true
         end
  end.
Proof.
  unfold create_bucket_if_not_exists, try_except, bind, aws, ret, raise.
  destruct (aws_fault X w HeadBucket) as [[code msg|cls msg]|] eqn:F1; cbn.
  - destruct (String.eqb code "404") eqn:Hcode.
    + destruct (aws_fault X w CreateBucket) as [f2|] eqn:F2; cbn.
      * repeat split; auto using fault_not_security.
      * destruct (bucket w) as [b|] eqn:Hb; cbn.
        { repeat split; auto. }
        repeat split; eauto. unfold blobs. cbn. now rewrite Hb.
    + repeat split; auto.
  - repeat split; auto.
  - destruct (bucket w) as [b|] eqn:Hb; cbn.
    + repeat split; eauto.
    + destruct (aws_fault X w CreateBucket) as [f2|] eqn:F2; cbn.
      * repeat split; auto using fault_not_security.
      * rewrite Hb. cbn. repeat split; eauto. unfold blobs. cbn. now rewrite Hb.
Qed.

Lemma provisioned_trans w w1 w2 t1 t2 :
  provisioned w w1 t1 -> provisioned w1 w2 t2 -> provisioned w w2 (t1 ++ t2).
Proof.
  intros [] []. split; try congruence.
  rewrite forallb_app. now apply andb_true_intro.
Qed.

Lemma initialize_run X w :
  match initialize_resources X w with
  | (r, w1, t1) =>
      provisioned w w1 t1
      /\ match r with
         | Ok _ => is_Some (table w1) /\ is_Some (bucket w1)
         | Raise e => is_security e = false /\ existsb is_failed_call t1 = true
         end
  end.
Proof.
  unfold initialize_resources, bind.
  pose proof (create_table_run X w) as H1.
  destruct (create_table_if_not_exists X w) as [[[[]|e] w1] t1].
  - pose proof (create_bucket_run X w1) as H2.
    destruct (create_bucket_if_not_exists X w1) as [[r w2] t2].
    destruct H1 as (P1 & _ & T1), H2 as (P2 & T2 & B2).
    split; [eapply provisioned_trans; eauto|].
    destruct r as [[]|e].
    + split; [now rewrite T2|exact B2].
    + destruct B2 as [S2 F2]. split; [exact S2|].
      rewrite existsb_app, F2. apply orb_true_r.
  - destruct H1 as (P1 & _ & S1 & F1). split; [exact P1|]. split; assumption.
Qed.

(** * Runs of the upload handler *)

Lemma error_response_run X msg status w :
  SecureResponseFormatter.error_response X msg status w
  = (Ok (error_reply X status), w, [Print (log_line status msg)]).
Proof. reflexivity. Qed.

Lemma and_then_raises {A B} (r : result A) (k : A -> result B) e :
  and_then r k = Raise e -> r = Raise e \/ exists a, r = Ok a /\ k a = Raise e.
Proof. destruct r as [a|e0]; cbn; [right; eauto|left; congruence]. Qed.

Lemma validate_inputs_security X body e :
  validate_inputs X body = Raise e -> is_security e = true.
Proof.
  unfold validate_inputs.
  intros [H|(user & _ & [H|(data & _ & [H|(title & _ & [H|(descr & _ & [H|(tags & _ & H)]
    %and_then_raises)]%and_then_raises)]%and_then_raises)]%and_then_raises)]%and_then_raises.
  - revert H. unfold InputValidator.validate_user_id. repeat case_match; intros Heq; inversion Heq; reflexivity.
  - revert H. unfold InputValidator.validate_image_data. repeat case_match; intros Heq; inversion Heq; reflexivity.
  - revert H. unfold InputValidator.validate_text_field. repeat case_match; intros Heq; inversion Heq; reflexivity.
  - revert H. unfold InputValidator.validate_text_field. repeat case_match; intros Heq; inversion Heq; reflexivity.
  - revert H. unfold InputValidator.validate_tags. repeat case_match; intros Heq; inversion Heq; reflexivity.
  - discriminate H.
Qed.

Section StoreRun.
Variables (X : Ext) (f : fields) (processed_bytes : bytes) (width height : Z)
          (format_type : string) (w : World).
Variables (tb : gmap string dict) (b : gmap string s3_object).
Hypothesis has_table : table w = Some tb.
Hypothesis has_bucket : bucket w = Some b.

Local Abbreviation key := (new_key X f w).
Local Abbreviation object := (new_object X f processed_bytes w).
Local Abbreviation item := (new_item X f processed_bytes width height format_type w).
Local Abbreviation w3 := (drawn w).
Local Abbreviation w4 := (blob_written X f processed_bytes w b).

Lemma store_image_run :
  store_image X f processed_bytes width height format_type w
  = match put_object_failure X w3 key object with
    | Some e => (Raise e, w3, [Call (PutObject key object) (Some e)])
    | None =>
        match aws_fault X w4 (PutItem item) with
        | Some fl =>
            (Raise (exn_of_fault fl), w4,
             [Call (PutObject key object) None; Call (PutItem item) (Some (exn_of_fault fl))])
        | None =>
            (Ok (new_response X f processed_bytes width height w),
             set_table (Some (<[new_image_id X w := item]> tb)) w4,
             [Call (PutObject key object) None; Call (PutItem item) None])
        end
    end.
Proof.
  unfold store_image, SecureS3Manager.upload_image, bind, draw, put_object,
    put_object_failure, aws, ret.
  cbn [ticks tick].
  change (uuid4 X (ticks w)) with (new_image_id X w).
  change (utcnow_isoformat X (N.succ (ticks w))) with (new_created_at X w).
  change (SecureS3Manager.generate_secure_key (f_user_id f) (new_image_id X w)) with key.
  change (tick (tick (tick w))) with w3.
  fold object.
  destruct (validate_ascii_metadata (obj_metadata object)) as [e|]; [reflexivity|].
  destruct (aws_fault X w3 _) as [fl|]; [reflexivity|].
  cbn [option_map].
  cbn [service]. replace (bucket w3) with (Some b) by (symmetry; exact has_bucket).
  cbn -[new_key new_image_id new_created_at].
  destruct (aws_fault X _ _) as [fl|]; [reflexivity|].
  rewrite has_table.
  reflexivity.
Qed.
End StoreRun.

Lemma handler_clause_run X e w :
  (match e with
   | SecurityError msg => SecureResponseFormatter.error_response X msg 400
   | _ =>
       do! print ("Unexpected error: " +:+ str_exn e) in
       SecureResponseFormatter.error_response X "Internal server error" 500
   end) w
  = (Ok (error_reply X (status_of e)), w, handler_log e).
Proof. destruct e; reflexivity. Qed.

(** The handler, stage by stage: the size check, provisioning, the pure
    validation and transcoding, the two writes. *)
Lemma secure_lambda_handler_run X event w :
  secure_lambda_handler X event w
  = match validate_request_size event with
    | Raise e => (Ok (error_reply X (status_of e)), w, handler_log e)
    | Ok _ =>
        match initialize_resources X w with
        | (Raise e, w1, t1) => (Ok (error_reply X (status_of e)), w1, t1 ++ handler_log e)
        | (Ok _, w1, t1) =>
            match accept_request X event with
            | Failed e => (Ok (error_reply X (status_of e)), w1, t1 ++ handler_log e)
            | Rejected msg => (Ok (error_reply X 400), w1, t1 ++ [Print (log_line 400 msg)])
            | Accepted f (processed_bytes, width, height, format_type) =>
                match store_image X f processed_bytes width height format_type w1 with
                | (Ok resp, w2, t2) => (Ok resp, w2, t1 ++ t2)
                | (Raise e, w2, t2) =>
                    (Ok (error_reply X (status_of e)), w2, (t1 ++ t2) ++ handler_log e)
                end
            end
        end
    end.
Proof.
  unfold secure_lambda_handler, try_except, secure_handler_body.
  unfold bind at 1. unfold lift.
  destruct (validate_request_size event) as [[]|e].
  2: { rewrite handler_clause_run. reflexivity. }
  unfold bind at 1.
  destruct (initialize_resources X w) as [[[[]|e] w1] t1].
  2: { rewrite handler_clause_run. reflexivity. }
  unfold accept_request.
  destruct (request_body X event) as [[]|msg|cls msg];
    try (rewrite error_response_run; reflexivity).
  2: { unfold raise. cbv beta iota. rewrite app_nil_r. reflexivity. }
  destruct (validate_inputs X d) as [f|e] eqn:Hv.
  - destruct (ImageProcessor.process_image X (f_image_data f))
      as [[[[processed_bytes width] height] format_type]|e] eqn:Hp.
    + destruct (store_image X f processed_bytes width height format_type w1)
        as [[[resp|e] w2] t2]; [reflexivity|].
      rewrite handler_clause_run. reflexivity.
    + apply process_image_raises in Hp as (e0 & _ & ->).
      rewrite error_response_run. reflexivity.
  - apply validate_inputs_security in Hv.
    destruct e; try discriminate Hv.
    rewrite error_response_run. reflexivity.
Qed.

Lemma provisioning_quiet t :
  forallb is_provisioning t = true ->
  existsb is_put_object t = false /\ existsb is_put_item t = false
  /\ existsb is_delete t = false /\ existsb is_failed_write t = false.
Proof.
  induction t as [|ef t IH]; [auto|].
  cbn [forallb existsb]. intros [Hef Ht]%andb_prop.
  destruct (IH Ht) as (-> & -> & -> & ->).
  destruct ef as [line|c fl]; [discriminate Hef|].
  destruct c; try discriminate Hef; auto.
Qed.

Lemma handler_log_quiet e :
  existsb is_put_object (handler_log e) = false
  /\ existsb is_put_item (handler_log e) = false
  /\ existsb is_delete (handler_log e) = false.
Proof. destruct e; auto. Qed.

Lemma validate_request_size_raises event e :
  validate_request_size event = Raise e -> e = SecurityError "Request too large".
Proof.
  unfold validate_request_size. repeat case_match; congruence.
Qed.

(** [validate_user_id] refuses exactly the rejected owners, and otherwise
    returns the identifier with every foreign character removed. *)
Lemma validate_user_id_spec v :
  match InputValidator.validate_user_id v with
  | Raise e => rejected_owner v /\ is_security e = true
  | Ok sanitized =>
      exists s, v = PStr s /\ s <> "" /\ sanitized = sub_non_id s
                /\ 3 <= len sanitized <= 50
  end.
Proof.
  destruct v; cbn; auto.
  destruct (String.eqb_spec s "") as [->|Hs]; cbn; [auto|].
  rewrite sub_non_id_strip.
  destruct (Z.ltb_spec (len (sub_non_id s)) 3); cbn; [auto|].
  rewrite Z.gtb_ltb.
  destruct (Z.ltb_spec 50 (len (sub_non_id s))); cbn; [auto|].
  exists s. repeat split; auto; lia.
Qed.

Lemma validate_user_id_rejects v :
  rejected_owner v -> exists msg, InputValidator.validate_user_id v = Raise (SecurityError msg).
Proof.
  intros Hv. pose proof (validate_user_id_spec v) as H.
  destruct (InputValidator.validate_user_id v) as [sanitized|e].
  - destruct H as (s & -> & Hs & -> & Hlen). cbn in Hv. exfalso.
    destruct Hv as [?|[?|?]]; [congruence|lia|lia].
  - destruct H as [_ He]. destruct e; try discriminate He. eauto.
Qed.

Lemma rejected_owner_not_accepted X event body :
  request_body X event = Loaded (PDict body) ->
  rejected_owner (dict_get body "user_id" (PStr "")) ->
  exists msg, accept_request X event = Rejected msg.
Proof.
  intros Hbody (msg & Hmsg)%validate_user_id_rejects.
  unfold accept_request, validate_inputs. rewrite Hbody, Hmsg. cbn. eauto.
Qed.

(** C1: an upload whose owner identifier is not a non-empty string, or has
    fewer than 3 or more than 50 characters once the characters outside
    [[A-Za-z0-9_-]] are removed, is answered with an error and neither
    [put_object] nor [put_item] is called; no row and no blob is added.
    The error is the 400 of a validation error whenever the provisioning of
    the table and the bucket, which runs before the validation, does not
    itself raise (then the answer is the 500 of an internal error). *)
Theorem C1_invalid_owner_rejected_without_writes
    (X : Ext) (event : dict) (w : World) (body : dict) :
  request_body X event = Loaded (PDict body) ->
  rejected_owner (dict_get body "user_id" (PStr "")) ->
  match secure_lambda_handler X event w with
  | (r, w', t) =>
      (exists status,
          r = Ok (error_reply X status)
          /\ (status = 400 \/ status = 500)
          /\ (forall w1 t1, initialize_resources X w = (Ok tt, w1, t1) -> status = 400))
      /\ existsb is_put_object t = false
      /\ existsb is_put_item t = false
      /\ rows w' = rows w
      /\ blobs w' = blobs w
  end.
Proof.
  intros Hbody Howner.
  destruct (rejected_owner_not_accepted X event body Hbody Howner) as [msg Hmsg].
  rewrite secure_lambda_handler_run, Hmsg.
  destruct (validate_request_size event) as [[]|e] eqn:Hsize.
  - pose proof (initialize_run X w) as Hinit.
    destruct (initialize_resources X w) as [[[[]|e] w1] t1].
    + destruct Hinit as [[Hr Hb _ Hq] _].
      apply provisioning_quiet in Hq as (Hq1 & Hq2 & _).
      rewrite !existsb_app, Hq1, Hq2. repeat split; auto.
      exists 400. auto.
    + destruct Hinit as [[Hr Hb _ Hq] [He _]].
      apply provisioning_quiet in Hq as (Hq1 & Hq2 & _).
      destruct (handler_log_quiet e) as (Hl1 & Hl2 & _).
      rewrite !existsb_app, Hq1, Hq2, Hl1, Hl2. repeat split; auto.
      exists 500. unfold status_of. rewrite He. repeat split; auto.
      intros w2 t2 [=].
  - apply validate_request_size_raises in Hsize as ->.
    repeat split; auto. exists 400. auto.
Qed.

Lemma C1_invalid_owner_rejected_without_writes_witness :
  match secure_lambda_handler Demo.ext
          (Demo.upload_event "a!" Demo.jpeg_10x10 (PList [])) Demo.empty_world with
  | (r, w', t) =>
      (exists status,
          r = Ok (error_reply Demo.ext status)
          /\ (status = 400 \/ status = 500)
          /\ (forall w1 t1,
                 initialize_resources Demo.ext Demo.empty_world = (Ok tt, w1, t1) ->
                 status = 400))
      /\ existsb is_put_object t = false
      /\ existsb is_put_item t = false
      /\ rows w' = rows Demo.empty_world
      /\ blobs w' = blobs Demo.empty_world
  end.
Proof.
  refine (C1_invalid_owner_rejected_without_writes Demo.ext
            (Demo.upload_event "a!" Demo.jpeg_10x10 (PList [])) Demo.empty_world _ eq_refl _).
  right. left. vm_compute. reflexivity.
Defined.

Lemma status_of_fault fl : status_of (exn_of_fault fl) = 500.
Proof. unfold status_of. now rewrite fault_not_security. Qed.

Lemma validate_ascii_metadata_raises metadata e :
  validate_ascii_metadata metadata = Some e -> is_security e = false.
Proof.
  induction metadata as [|[k v] rest IH]; [discriminate|].
  cbn. destruct (is_ascii k && is_ascii v); [exact IH|]. now intros [= <-].
Qed.

Lemma put_object_failure_raises X w key obj e :
  put_object_failure X w key obj = Some e -> is_security e = false.
Proof.
  unfold put_object_failure.
  destruct (validate_ascii_metadata (obj_metadata obj)) as [e0|] eqn:Hv.
  - intros [= <-]. eapply validate_ascii_metadata_raises, Hv.
  - destruct (aws_fault X w _) as [fl|]; [|discriminate].
    intros [= <-]. apply fault_not_security.
Qed.

Lemma accept_request_failed X event e :
  accept_request X event = Failed e ->
  is_security e = false /\ load_raised X event.
Proof.
  unfold accept_request, load_raised.
  destruct (request_body X event) as [[]|msg|cls msg]; try discriminate;
    try (intros [= <-]; eauto).
  destruct (validate_inputs X d) as [f|e0]; [|discriminate].
  destruct (ImageProcessor.process_image X (f_image_data f)); discriminate.
Qed.

(** Every run of the handler is one of the kinds of [upload_run]; in
    particular the handler always returns a response. *)
Lemma secure_lambda_handler_cases X event w r w' t :
  secure_lambda_handler X event w = (r, w', t) -> upload_run X event w r w' t.
Proof.
  rewrite secure_lambda_handler_run.
  destruct (validate_request_size event) as [[]|e] eqn:Hsize.
  2: { apply validate_request_size_raises in Hsize as He. subst e.
       intros [= <- <- <-]. now constructor. }
  pose proof (initialize_run X w) as Hinit.
  destruct (initialize_resources X w) as [[[[]|e] w1] t1] eqn:Hrun.
  2: { destruct Hinit as [_ [He _]]. unfold status_of. rewrite He.
       intros [= <- <- <-]. now constructor. }
  destruct Hinit as [_ [[tb Htb] [b Hb]]].
  destruct (accept_request X event)
    as [msg|f [[[processed_bytes width] height] format_type]|e] eqn:Hacc.
  { intros [= <- <- <-]. now constructor. }
  2: { destruct (accept_request_failed X event e Hacc) as [He _].
       unfold status_of. rewrite He. intros [= <- <- <-]. now constructor. }
  rewrite (store_image_run X f processed_bytes width height format_type w1 tb b Htb Hb).
  destruct (put_object_failure X (drawn w1) _ _) as [e|] eqn:F1.
  { pose proof (put_object_failure_raises _ _ _ _ _ F1) as He.
    unfold status_of. rewrite He. intros [= <- <- <-]. eapply run_blob_failed; eauto. }
  destruct (aws_fault X (blob_written X f processed_bytes w1 b) _) as [fl|] eqn:F2.
  { rewrite status_of_fault. intros [= <- <- <-]. eapply run_row_failed; eauto. }
  intros [= <- <- <-]. eapply run_stored; eauto.
Qed.

Lemma initialize_provisioned X w r w1 t1 :
  initialize_resources X w = (r, w1, t1) ->
  provisioned w w1 t1
  /\ (forall e, r = Raise e -> existsb is_failed_call t1 = true).
Proof.
  intros H. pose proof (initialize_run X w) as Hinit. rewrite H in Hinit.
  destruct Hinit as [P Hr]. split; [exact P|].
  intros e ->. apply Hr.
Qed.

(** * Status and body of the failures *)



Lemma len_iter n c s : len (N.iter n (String c) s) = Z.of_N n + len s.
Proof.
  induction n as [|n IH] using N.peano_ind; [reflexivity|].
  rewrite N.iter_succ. unfold len in *. cbn [String.length]. lia.
Qed.

Lemma validate_request_size_too_large event s :
  dict_get event "body" (PStr "") = PStr s ->
  MAX_IMAGE_SIZE * 2 < len s ->
  validate_request_size event = Raise (SecurityError "Request too large").
Proof.
  intros Hbody Hlen. unfold validate_request_size. rewrite Hbody.
  destruct (Z.gtb_spec (len s) (MAX_IMAGE_SIZE * 2)); [reflexivity|lia].
Qed.

Lemma validate_image_data_too_large X s decoded :
  s <> "" -> match_base64 s = true -> b64decode X s = Some decoded ->
  MAX_IMAGE_SIZE < Z.of_nat (length decoded) ->
  InputValidator.validate_image_data X (PStr s)
  = Raise (SecurityError "Image too large. Max size: 10485760 bytes").
Proof.
  intros Hs Hm Hd Hlen. unfold InputValidator.validate_image_data. cbn [truthy].
  destruct (String.eqb_spec s ""); [contradiction|]. cbn [negb].
  rewrite Hm, Hd. cbn [negb].
  destruct (Z.gtb_spec (Z.of_nat (length decoded)) MAX_IMAGE_SIZE); [|lia].
  f_equal.
Qed.

Lemma oversize_image_refused X event body user s decoded :
  request_body X event = Loaded (PDict body) ->
  InputValidator.validate_user_id (dict_get body "user_id" (PStr "")) = Ok user ->
  dict_get body "image_data" (PStr "") = PStr s ->
  s <> "" -> match_base64 s = true -> b64decode X s = Some decoded ->
  MAX_IMAGE_SIZE < Z.of_nat (length decoded) ->
  refused X event.
Proof.
  intros Hbody Huser Hdata Hs Hm Hd Hlen.
  eapply refused_invalid; [exact Hbody|].
  unfold validate_inputs. rewrite Huser, Hdata. cbn [and_then].
  now rewrite (validate_image_data_too_large X s decoded Hs Hm Hd Hlen).
Qed.



(** A body that is one integer literal of 4301 digits makes [json.loads]
    raise a [ValueError]: the answer is 500 although every backend call
    succeeded. *)
Example demo_upload_long_integer :
  let '(r, w', t) :=
    secure_lambda_handler Demo.ext Demo.long_integer_event
      {| table := Some ∅; bucket := Some ∅; ticks := 0 |} in
  r = Ok (error_reply Demo.ext 500)
  /\ existsb is_failed_call t = false
  /\ last t = Some (Print (log_line 500 "Internal server error")).
Proof. vm_compute. auto. Qed.

(** * Uploads with tags *)

Lemma initialize_healthy X w :
  (forall w0 c, aws_fault X w0 c = None) ->
  exists w1 t1, initialize_resources X w = (Ok tt, w1, t1).
Proof.
  intros H.
  unfold initialize_resources, create_table_if_not_exists, create_bucket_if_not_exists,
    bind, try_except, aws, ret, raise.
  rewrite H. cbn [service].
  destruct (table w) as [tb|] eqn:Ht; cbn.
  - rewrite H. cbn [service].
    destruct (bucket w) as [b|] eqn:Hb; cbn; [eauto|].
    rewrite H. cbn [service]. rewrite Hb. cbn. eauto.
  - rewrite H. cbn [service]. rewrite Ht. cbn.
    rewrite H. cbn [service table set_table]. cbn.
    rewrite H. cbn [service bucket set_table].
    destruct (bucket w) as [b|] eqn:Hb; cbn; [eauto|].
    rewrite H. cbn [service bucket set_table]. rewrite Hb. cbn. eauto.
Qed.

Lemma id_char_ascii c : is_id_char c = true -> (ord c <? 128) = true.
Proof. destruct c as [[] [] [] [] [] [] [] []]; vm_compute; congruence. Qed.

Lemma id_chars_ascii s : str_forall is_id_char s = true -> is_ascii s = true.
Proof.
  unfold is_ascii. induction s as [|c s IH]; cbn [str_forall]; [auto|].
  intros [Hc Hs]%andb_prop. now rewrite (id_char_ascii c Hc), (IH Hs).
Qed.

Lemma printable_ascii s : is_printable s = true -> is_ascii s = true.
Proof.
  unfold is_printable, is_ascii. induction s as [|c s IH]; cbn [str_forall]; [auto|].
  intros [Hc Hs]%andb_prop. rewrite (IH Hs), andb_true_r.
  unfold in_range in Hc. apply andb_prop in Hc as [_ Hc].
  apply Z.leb_le in Hc. apply Z.ltb_lt. lia.
Qed.

Lemma validated_user_ascii v user :
  InputValidator.validate_user_id v = Ok user -> is_ascii user = true.
Proof.
  intros H. pose proof (validate_user_id_spec v) as Hs. rewrite H in Hs.
  destruct Hs as (s & _ & _ & -> & _). apply id_chars_ascii, sub_non_id_chars.
Qed.

(** The blob write of an upload goes through when the backend raises no
    fault and title, description and timestamp are within ASCII; the owner
    identifier always is. *)
Lemma put_object_answered X w f processed_bytes :
  aws_fault X (drawn w) (PutObject (new_key X f w) (new_object X f processed_bytes w)) = None ->
  is_ascii (f_user_id f) = true ->
  is_ascii (f_title f) = true ->
  is_ascii (f_description f) = true ->
  is_ascii (new_created_at X w) = true ->
  put_object_failure X (drawn w) (new_key X f w) (new_object X f processed_bytes w) = None.
Proof.
  intros Hfault Hu Ht Hd Hc. unfold put_object_failure.
  cbn [obj_metadata new_object validate_ascii_metadata].
  rewrite Hu, Ht, Hd, Hc, Hfault. reflexivity.
Qed.

Section ValidUpload.
Variables (X : Ext) (event body : dict) (l : list pyvalue).
Variables (user title descr : string) (data processed_bytes : bytes).
Variables (width height : Z) (format_type : string).
Hypothesis body_ok : request_body X event = Loaded (PDict body).
Hypothesis user_ok :
  InputValidator.validate_user_id (dict_get body "user_id" (PStr "")) = Ok user.
Hypothesis data_ok :
  InputValidator.validate_image_data X (dict_get body "image_data" (PStr "")) = Ok data.
Hypothesis title_ok :
  InputValidator.validate_text_field (dict_get body "title" (PStr "")) "title"
    MAX_TITLE_LENGTH = Ok title.
Hypothesis descr_ok :
  InputValidator.validate_text_field (dict_get body "description" (PStr "")) "description"
    MAX_DESCRIPTION_LENGTH = Ok descr.
Hypothesis tags_are : dict_get body "tags" (PList []) = PList l.
Hypothesis image_ok :
  ImageProcessor.process_image X data = Ok (processed_bytes, width, height, format_type).

Lemma accept_request_valid :
  accept_request X event
  = if Z.of_nat (length l) >? 10
    then Rejected "Too many tags. Max count: 10"
    else Accepted {| f_user_id := user; f_image_data := data; f_title := title;
                     f_description := descr; f_tags := spec_tags l |}
           (processed_bytes, width, height, format_type).
Proof.
  unfold accept_request, validate_inputs.
  rewrite body_ok, user_ok, data_ok, title_ok, descr_ok, tags_are. cbn [and_then].
  rewrite validate_tags_list.
  destruct (Z.of_nat (length l) >? 10); [reflexivity|].
  cbn [and_then f_image_data]. now rewrite image_ok.
Qed.
End ValidUpload.

(** C3, as the code has it: with the other fields valid, title and
    description of printable ASCII characters (they become metadata of the
    blob, and the client of the blob store refuses metadata outside
    ASCII), the image decodable and the backends answering, an upload
    succeeds with 201 when its tags list has at most ten entries, and the
    stored row holds the sanitized tags: the string entries with their
    foreign characters removed, those left empty or longer than 50 omitted,
    so that no stored tag has a character outside [[A-Za-z0-9_-]].  A list
    of more than ten entries, such as ten valid tags and an invalid
    eleventh, is refused with 400 and nothing is stored. *)
Theorem C3_tags_sanitized_up_to_ten_entries
    (X : Ext) (event body : dict) (w : World) (l : list pyvalue)
    (user title descr : string) (data processed_bytes : bytes)
    (width height : Z) (format_type : string) :
  (forall w0 c, aws_fault X w0 c = None) ->
  (forall n, is_printable (utcnow_isoformat X n) = true) ->
  validate_request_size event = Ok tt ->
  request_body X event = Loaded (PDict body) ->
  InputValidator.validate_user_id (dict_get body "user_id" (PStr "")) = Ok user ->
  InputValidator.validate_image_data X (dict_get body "image_data" (PStr "")) = Ok data ->
  InputValidator.validate_text_field (dict_get body "title" (PStr "")) "title"
    MAX_TITLE_LENGTH = Ok title ->
  is_printable title = true ->
  InputValidator.validate_text_field (dict_get body "description" (PStr "")) "description"
    MAX_DESCRIPTION_LENGTH = Ok descr ->
  is_printable descr = true ->
  dict_get body "tags" (PList []) = PList l ->
  ImageProcessor.process_image X data = Ok (processed_bytes, width, height, format_type) ->
  match secure_lambda_handler X event w with
  | (r, w', t) =>
      if Z.of_nat (length l) >? 10
      then r = Ok (error_reply X 400)
           /\ rows w' = rows w /\ blobs w' = blobs w
           /\ existsb is_put_object t = false /\ existsb is_put_item t = false
      else exists resp image_id item,
             r = Ok resp /\ statusCode resp = 201
             /\ rows w' !! image_id = Some item
             /\ dict_lookup item "tags" = Some (tags_value (spec_tags l))
             /\ Forall valid_tag (spec_tags l)
  end.
Proof.
  intros Hhealthy Hclock Hsize Hbody Huser Hdata Htitle Hta Hdescr Hda Htags Himage.
  pose proof (accept_request_valid X event body l user title descr data processed_bytes
                width height format_type Hbody Huser Hdata Htitle Hdescr Htags Himage) as Hacc.
  destruct (initialize_healthy X w Hhealthy) as (w1 & t1 & Hinit).
  destruct (secure_lambda_handler X event w) as [[r w'] t] eqn:Hrun.
  apply secure_lambda_handler_cases in Hrun.
  assert (Hput : forall w0 pb,
             put_object_failure X (drawn w0)
               (new_key X {| f_user_id := user; f_image_data := data; f_title := title;
                             f_description := descr; f_tags := spec_tags l |} w0)
               (new_object X {| f_user_id := user; f_image_data := data; f_title := title;
                                f_description := descr; f_tags := spec_tags l |} pb w0)
             = None).
  { intros w0 pb. apply put_object_answered; cbn [f_user_id f_title f_description];
      [apply Hhealthy|eapply validated_user_ascii; eassumption
      |apply printable_ascii; assumption..|apply printable_ascii, Hclock]. }
  destruct Hrun as [Hsize'|e w1' t1' _ Hinit' He|w1' t1' e _ Hinit' Hacc' He
                   |w1' t1' msg _ Hinit' Hacc'
                   |w1' t1' f pb wd ht fmt tb b e _ Hinit' Hacc' Htb Hb F1 He
                   |w1' t1' f pb wd ht fmt tb b fl _ Hinit' Hacc' Htb Hb F1 F2
                   |w1' t1' f pb wd ht fmt tb b _ Hinit' Hacc' Htb Hb F1 F2];
    try congruence.
  - (* json.loads raised *)
    rewrite Hacc in Hacc'. destruct (Z.of_nat (length l) >? 10); discriminate Hacc'.
  - (* refused *)
    rewrite Hacc in Hacc'.
    destruct (Z.of_nat (length l) >? 10); [|discriminate Hacc'].
    apply initialize_provisioned in Hinit' as [[Hr Hb _ Hq] _].
    apply provisioning_quiet in Hq as (Hq1 & Hq2 & _).
    rewrite !existsb_app, Hq1, Hq2. auto.
  - (* the blob write cannot fail *)
    exfalso. rewrite Hacc in Hacc'.
    destruct (Z.of_nat (length l) >? 10); [discriminate Hacc'|].
    injection Hacc' as <- <- <- <- <-. rewrite Hput in F1. discriminate F1.
  - (* stored *)
    rewrite Hacc in Hacc'.
    destruct (Z.of_nat (length l) >? 10); [discriminate Hacc'|].
    injection Hacc' as <- <- <- <- <-.
    eexists _, (new_image_id X w1'), _. split; [reflexivity|]. split; [reflexivity|].
    split; [unfold rows; cbn [table set_table]; apply lookup_insert_eq|].
    split; [reflexivity|apply spec_tags_valid].
Qed.

Lemma is_printable_app a b : is_printable (a +:+ b) = is_printable a && is_printable b.
Proof.
  unfold is_printable. induction a as [|c a IH]; [reflexivity|].
  change (String c a +:+ b) with (String c (a +:+ b)).
  cbn [str_forall]. now rewrite IH, andb_assoc.
Qed.

Lemma pretty_N_go_printable x s :
  is_printable s = true -> is_printable (pretty_N_go x s) = true.
Proof.
  revert s. induction (N.lt_wf_0 x) as [x _ IH]. intros s Hs.
  destruct (decide (0 < x)%N) as [Hx|Hx].
  - rewrite pretty_N_go_step by exact Hx.
    apply IH; [apply N.div_lt; lia|].
    unfold is_printable in *. cbn [str_forall]. rewrite Hs, andb_true_r.
    unfold pretty_N_char. repeat case_match; reflexivity.
  - replace x with 0%N by lia. now rewrite pretty_N_go_0.
Qed.

Lemma pretty_N_printable (n : N) : is_printable (pretty n) = true.
Proof.
  unfold pretty, pretty_N. destruct (decide (n = 0%N)); [reflexivity|].
  now apply pretty_N_go_printable.
Qed.

Lemma demo_clock_printable n : is_printable (utcnow_isoformat Demo.ext n) = true.
Proof.
  cbn [utcnow_isoformat Demo.ext]. rewrite is_printable_app, pretty_N_printable. reflexivity.
Qed.

Lemma C3_tags_sanitized_up_to_ten_entries_witness :
  match secure_lambda_handler Demo.ext
          (Demo.upload_event "user123" Demo.jpeg_10x10 (PList Demo.nine_and_one))
          Demo.empty_world with
  | (r, w', t) =>
      if Z.of_nat (length Demo.nine_and_one) >? 10
      then r = Ok (error_reply Demo.ext 400)
           /\ rows w' = rows Demo.empty_world /\ blobs w' = blobs Demo.empty_world
           /\ existsb is_put_object t = false /\ existsb is_put_item t = false
      else exists resp image_id item,
             r = Ok resp /\ statusCode resp = 201
             /\ rows w' !! image_id = Some item
             /\ dict_lookup item "tags" = Some (tags_value (spec_tags Demo.nine_and_one))
             /\ Forall valid_tag (spec_tags Demo.nine_and_one)
  end
  /\ spec_tags Demo.nine_and_one = ["t1"; "t2"; "t3"; "t4"; "t5"; "t6"; "t7"; "t8"; "t9"].
Proof.
  split; [|reflexivity].
  eapply (C3_tags_sanitized_up_to_ten_entries Demo.ext
            (Demo.upload_event "user123" Demo.jpeg_10x10 (PList Demo.nine_and_one))
            _ Demo.empty_world Demo.nine_and_one);
    [intros; reflexivity|exact demo_clock_printable|reflexivity..].
Defined.

(** C3 as stated fails: ten valid tags and an eleventh with foreign
    characters are refused with 400, and no row is written. *)
Lemma C3_counterexample :
  InputValidator.validate_tags Demo.eleven_tags = Raise too_many_tags
  /\ exists w' t,
       secure_lambda_handler Demo.ext
         (Demo.upload_event "user123" Demo.jpeg_10x10 Demo.eleven_tags) Demo.empty_world
       = (Ok (error_reply Demo.ext 400), w', t)
       /\ statusCode (error_reply Demo.ext 400) = 400
       /\ rows w' = ∅
       /\ existsb is_put_object t = false /\ existsb is_put_item t = false.
Proof.
  split; [reflexivity|].
  eexists _, _. split; [vm_compute; reflexivity|].
  repeat split.
Qed.

(** A title with a character outside ASCII passes validation, and the
    upload then fails at the blob write, which the client refuses: the
    answer is 500 and nothing is stored. *)
Example demo_upload_accented_title :
  InputValidator.validate_text_field (PStr Demo.cafe) "title" MAX_TITLE_LENGTH = Ok Demo.cafe
  /\ Demo.upload_result Demo.ext Demo.accented_upload = Ok (error_reply Demo.ext 500)
  /\ rows (Demo.upload_world Demo.ext Demo.accented_upload) = ∅
  /\ blobs (Demo.upload_world Demo.ext Demo.accented_upload) = ∅
  /\ existsb is_failed_put_object (Demo.upload_effects Demo.ext Demo.accented_upload) = true
  /\ existsb is_put_item (Demo.upload_effects Demo.ext Demo.accented_upload) = false.
Proof. vm_compute. auto 10. Qed.

(** * Ordering of the two writes *)



(** * Response headers *)

(** The headers of every response of the upload handler: the content type,
    the configured origin, the two content-protection headers on all of
    them; the transport-security header on the 201 alone. *)
Lemma upload_response_headers (X : Ext) (event : dict) (w : World) :
  match secure_lambda_handler X event w with
  | (r, w', t) =>
      exists resp,
        r = Ok resp
        /\ header_get (headers resp) "Content-Type" = Some "application/json"
        /\ header_get (headers resp) "Access-Control-Allow-Origin"
           = Some (SecureResponseFormatter.allowed_origin X)
        /\ header_get (headers resp) "X-Content-Type-Options" = Some "nosniff"
        /\ header_get (headers resp) "X-Frame-Options" = Some "DENY"
        /\ header_get (headers resp) "Strict-Transport-Security"
           = if statusCode resp =? 201
             then Some "max-age=31536000; includeSubDomains"
             else None
  end.
Proof.
  destruct (secure_lambda_handler X event w) as [[r w'] t] eqn:Hrun.
  apply secure_lambda_handler_cases in Hrun.
  destruct Hrun; eexists; (split; [reflexivity|]); repeat split.
Qed.

(** C8 at a failing request: the empty request is answered with a 400 that
    carries the content type, the origin and the two content-protection
    headers but no [Strict-Transport-Security] header, which the 201 of a
    successful upload does carry. *)
Theorem C8_error_response_without_transport_security :
  (exists resp,
      Demo.upload_result Demo.ext [] = Ok resp
      /\ statusCode resp = 400
      /\ header_get (headers resp) "X-Frame-Options" = Some "DENY"
      /\ header_get (headers resp) "Strict-Transport-Security" = None)
  /\ (exists resp,
         Demo.upload_result Demo.ext Demo.valid_upload = Ok resp
         /\ statusCode resp = 201
         /\ header_get (headers resp) "Strict-Transport-Security"
            = Some "max-age=31536000; includeSubDomains").
Proof.
  split; eexists; (split; [vm_compute; reflexivity|]); repeat split.
Qed.

(** * Deleting an image *)

(** Membership of a failed call in an explicit list of effects. *)
Ltac trace_in :=
  let e := fresh "e" in
  let H := fresh "H" in
  cbn [In app failure_of]; intros e H;
  repeat (destruct H as [H|H];
          [first [discriminate H | injection H as <-; cbn; auto 10]|]);
  destruct H.

Lemma delete_object_keeps_table k w r w2 :
  service (DeleteObject k) w = (r, w2) -> table w2 = table w.
Proof.
  cbn. repeat case_match; intros [= <- <-]; reflexivity.
Qed.

(** C9: when the row of the named image exists (and records its key) and
    the metadata store answers, the delete handler removes the row and
    answers 200, whatever the blob store does with the deletion of the
    blob: the blob may be absent, the bucket may be missing, the call may
    be refused.  A failed blob deletion is printed as a warning. *)
Theorem C9_delete_is_lenient_toward_the_blob_store
    (X : Ext) (event path_parameters : dict) (w : World) (id : string)
    (tb : gmap string dict) (item : dict) (s3_key : pyvalue) :
  dict_get event "pathParameters" (PDict []) = PDict path_parameters ->
  dict_get path_parameters "image_id" PNone = PStr id ->
  id <> "" ->
  table w = Some tb ->
  tb !! id = Some item ->
  dict_lookup item "s3_key" = Some s3_key ->
  (forall w0, aws_fault X w0 TableLoad = None
              /\ aws_fault X w0 (GetItem (PStr id)) = None
              /\ aws_fault X w0 (DeleteItem (PStr id)) = None) ->
  match DeleteImage.lambda_handler X event w with
  | (r, w', t) =>
      exists resp,
        r = Ok resp
        /\ statusCode resp = 200
        /\ table w' = Some (delete id tb)
        /\ rows w' !! id = None
        /\ (forall e, In (Call (DeleteObject s3_key) (Some e)) t ->
                      In (Print ("Warning: Failed to delete from S3: " +:+ str_exn e)) t)
  end.
Proof.
  intros Hpath Hid Hne Htable Hrow Hkey Hmeta.
  unfold DeleteImage.lambda_handler, DeleteImage.handler_body, try_except.
  unfold bind at 1.
  unfold create_table_if_not_exists, try_except, bind at 1, aws at 1, ret at 1.
  rewrite (proj1 (Hmeta w)). cbn [service]. rewrite Htable.
  rewrite Hpath, Hid. cbn [truthy negb].
  destruct (String.eqb_spec id "") as [|_]; [contradiction|]. cbn [negb].
  unfold bind at 1. unfold aws at 1.
  rewrite (proj1 (proj2 (Hmeta w))). cbn [service]. rewrite Htable, Hrow.
  cbn [dict_lookup String.eqb Ascii.eqb Bool.eqb]. rewrite Hkey.
  unfold DeleteImage.delete_stored, bind, try_except, aws, ret, print.
  destruct (aws_fault X w (DeleteObject s3_key)) as [fl|].
  - rewrite (proj2 (proj2 (Hmeta w))). cbn [service]. rewrite Htable.
    eexists. split; [reflexivity|]. split; [reflexivity|].
    split; [reflexivity|]. split; [unfold rows; cbn; apply lookup_delete_eq|].
    trace_in.
  - destruct (service (DeleteObject s3_key) w) as [[v|e0] w2] eqn:Hs.
    + assert (Htable2 : table w2 = Some tb).
      { rewrite (delete_object_keeps_table _ _ _ _ Hs). exact Htable. }
      rewrite (proj2 (proj2 (Hmeta w2))). cbn [service]. rewrite Htable2.
      eexists. split; [reflexivity|]. split; [reflexivity|].
      split; [reflexivity|]. split; [unfold rows; cbn; apply lookup_delete_eq|].
      trace_in.
    + assert (Htable2 : table w2 = Some tb).
      { rewrite (delete_object_keeps_table _ _ _ _ Hs). exact Htable. }
      rewrite (proj2 (proj2 (Hmeta w2))). cbn [service]. rewrite Htable2.
      eexists. split; [reflexivity|]. split; [reflexivity|].
      split; [reflexivity|]. split; [unfold rows; cbn; apply lookup_delete_eq|].
      trace_in.
Qed.

Lemma C9_delete_is_lenient_toward_the_blob_store_witness :
  match DeleteImage.lambda_handler Demo.ext Demo.delete_event Demo.orphan_world with
  | (r, w', t) =>
      exists resp,
        r = Ok resp
        /\ statusCode resp = 200
        /\ table w' = Some (delete "img-1" {[ "img-1" := Demo.orphan_row ]})
        /\ rows w' !! "img-1" = None
        /\ (forall e,
               In (Call (DeleteObject (PStr "images/e606e38b/user123/img-1.jpg")) (Some e)) t ->
               In (Print ("Warning: Failed to delete from S3: " +:+ str_exn e)) t)
  end
  /\ match DeleteImage.lambda_handler Demo.blob_delete_down Demo.delete_event
             Demo.no_bucket_world with
     | (r, w', t) =>
         exists resp,
           r = Ok resp
           /\ statusCode resp = 200
           /\ table w' = Some (delete "img-1" {[ "img-1" := Demo.orphan_row ]})
           /\ rows w' !! "img-1" = None
           /\ (forall e,
                  In (Call (DeleteObject (PStr "images/e606e38b/user123/img-1.jpg")) (Some e)) t ->
                  In (Print ("Warning: Failed to delete from S3: " +:+ str_exn e)) t)
     end.
Proof.
  split.
  - refine (C9_delete_is_lenient_toward_the_blob_store Demo.ext Demo.delete_event
              _ Demo.orphan_world "img-1" _ Demo.orphan_row _
              eq_refl eq_refl _ eq_refl _ eq_refl _).
    + discriminate.
    + vm_compute. reflexivity.
    + intros w0. repeat split.
  - refine (C9_delete_is_lenient_toward_the_blob_store Demo.blob_delete_down
              Demo.delete_event _ Demo.no_bucket_world "img-1" _ Demo.orphan_row _
              eq_refl eq_refl _ eq_refl _ eq_refl _).
    + discriminate.
    + vm_compute. reflexivity.
    + intros w0. repeat split.
Defined.

Example demo_delete_orphan :
  DeleteImage.lambda_handler Demo.ext Demo.delete_event Demo.orphan_world
  = (Ok (DeleteImage.reply Demo.ext 200
           (PDict [("message", PStr "Image deleted successfully");
                   ("image_id", PStr "img-1")])),
     {| table := Some (delete "img-1" {[ "img-1" := Demo.orphan_row ]});
        bucket := Some (delete "images/e606e38b/user123/img-1.jpg" ∅);
        ticks := 0 |},
     [Call TableLoad None;
      Call (GetItem (PStr "img-1")) None;
      Call (DeleteObject (PStr "images/e606e38b/user123/img-1.jpg")) None;
      Call (DeleteItem (PStr "img-1")) None]).
Proof. reflexivity. Qed.

Example demo_delete_without_bucket :
  snd (DeleteImage.lambda_handler Demo.ext Demo.delete_event Demo.no_bucket_world)
  = [Call TableLoad None;
     Call (GetItem (PStr "img-1")) None;
     Call (DeleteObject (PStr "images/e606e38b/user123/img-1.jpg"))
       (Some (ClientError "NoSuchBucket" "The specified bucket does not exist"));
     Print "Warning: Failed to delete from S3: The specified bucket does not exist";
     Call (DeleteItem (PStr "img-1")) None].
Proof. vm_compute. reflexivity. Qed.

(** The bound of 50 is on the sanitized entry: sixty characters of which
    forty remain are kept. *)
Example long_entry_kept_once_sanitized :
  len (String.concat "" (repeat "a b" 20)) = 60
  /\ InputValidator.validate_tags (PList [PStr (String.concat "" (repeat "a b" 20))])
     = Ok [String.concat "" (repeat "ab" 20)].
Proof. vm_compute. split; reflexivity. Qed.

Example demo_upload_not_an_image :
  Demo.upload_result Demo.ext (Demo.upload_event "user123" Demo.not_an_image (PList []))
  = Ok (error_reply Demo.ext 400)
  /\ body (error_reply Demo.ext 400)
     = Demo.dumps (PDict [("error", PStr "Invalid request")])
  /\ last (Demo.upload_effects Demo.ext
             (Demo.upload_event "user123" Demo.not_an_image (PList [])))
     = Some (Print "Error 400: Invalid image data: cannot identify image file").
Proof. vm_compute. repeat split; reflexivity. Qed.

Example demo_upload_body_not_json :
  Demo.upload_result Demo.ext [("body", PStr "not json")] = Ok (error_reply Demo.ext 400)
  /\ last (Demo.upload_effects Demo.ext [("body", PStr "not json")])
     = Some (Print "Error 400: Invalid JSON format").
Proof. vm_compute. split; reflexivity. Qed.

(** * Further properties of the validators *)

Lemma str_filter_fixed p s : str_forall p s = true -> str_filter p s = s.
Proof.
  induction s as [|c s IH]; [reflexivity|]. cbn.
  intros [Hc Hs]%andb_prop. now rewrite Hc, IH.
Qed.

Lemma len_cons c s : len (String c s) = 1 + len s.
Proof. unfold len. cbn [String.length]. lia. Qed.

Lemma len_nonneg s : 0 <= len s.
Proof. unfold len. lia. Qed.

Lemma len_filter_le p s : len (str_filter p s) <= len s.
Proof.
  induction s as [|c s IH]; [reflexivity|]. cbn [str_filter].
  destruct (p c); rewrite ?len_cons; lia.
Qed.

Lemma len_lstrip_le s : len (lstrip s) <= len s.
Proof.
  induction s as [|c s IH]; [reflexivity|]. cbn [lstrip].
  destruct (is_space c); [rewrite len_cons; lia|lia].
Qed.

Lemma len_rstrip_le s : len (rstrip s) <= len s.
Proof.
  induction s as [|c s IH]; [reflexivity|]. cbn [rstrip].
  destruct (rstrip s) as [|d r].
  - pose proof (len_nonneg s).
    destruct (is_space c); rewrite ?len_cons; change (len "") with 0; lia.
  - rewrite !len_cons in *. lia.
Qed.

Lemma len_strip_le s : len (strip s) <= len s.
Proof.
  unfold strip. pose proof (len_rstrip_le (lstrip s)). pose proof (len_lstrip_le s). lia.
Qed.

(** X1: an owner identifier that passes validation consists of 3 to 50
    characters of [[A-Za-z0-9_-]]; validating it again, or sanitizing it
    again as [generate_secure_key] does, leaves it unchanged, so the key of
    a validated owner names the owner verbatim. *)
Theorem validated_owner_is_stable (v : pyvalue) (user_id : string) :
  InputValidator.validate_user_id v = Ok user_id ->
  str_forall is_id_char user_id = true
  /\ 3 <= len user_id <= 50
  /\ InputValidator.validate_user_id (PStr user_id) = Ok user_id
  /\ forall image_id,
       SecureS3Manager.generate_secure_key user_id image_id
       = key_of (str_take 8 (Sha256.hexdigest (str_encode user_id))) user_id
           (sub_non_id image_id).
Proof.
  intros Hv. pose proof (validate_user_id_spec v) as H. rewrite Hv in H.
  destruct H as (s & -> & Hs & -> & Hlen).
  pose proof (sub_non_id_chars s) as Hchars.
  assert (Hfix : sub_non_id (sub_non_id s) = sub_non_id s)
    by (apply str_filter_fixed, Hchars).
  repeat split; try assumption; try lia.
  - pose proof (validate_user_id_spec (PStr (sub_non_id s))) as H.
    destruct (InputValidator.validate_user_id (PStr (sub_non_id s))) as [u|e].
    + destruct H as (s' & [= <-] & _ & -> & _). now rewrite Hfix.
    + exfalso. destruct H as [[H|H] _].
      * rewrite H in Hlen. change (len "") with 0 in Hlen. lia.
      * rewrite Hfix in H. lia.
  - intros image_id. unfold SecureS3Manager.generate_secure_key, key_of.
    now rewrite Hfix.
Qed.

Lemma validated_owner_is_stable_witness :
  str_forall is_id_char "user123" = true
  /\ 3 <= len "user123" <= 50
  /\ InputValidator.validate_user_id (PStr "user123") = Ok "user123"
  /\ forall image_id,
       SecureS3Manager.generate_secure_key "user123" image_id
       = key_of (str_take 8 (Sha256.hexdigest (str_encode "user123"))) "user123"
           (sub_non_id image_id).
Proof.
  apply (validated_owner_is_stable (PStr " user 123! ") "user123").
  reflexivity.
Defined.

(** X2: a title or description that is no longer than its limit is never
    refused: sanitizing only removes characters.  The accepted text is the
    input without its surrounding white space and without the four markup
    characters. *)
Theorem text_within_limit_is_accepted (s field_name : string) (max_length : Z) :
  len s <= max_length ->
  InputValidator.validate_text_field (PStr s) field_name max_length
  = Ok (sub_markup (strip s))
  /\ no_markup (sub_markup (strip s)) = true
  /\ len (sub_markup (strip s)) <= len s.
Proof.
  intros Hlen.
  assert (Hle : len (sub_markup (strip s)) <= len s).
  { unfold sub_markup. pose proof (len_filter_le (fun c => negb (is_markup_char c)) (strip s)).
    pose proof (len_strip_le s). lia. }
  split; [|split; [apply str_forall_filter|exact Hle]].
  unfold InputValidator.validate_text_field.
  destruct (Z.gtb_spec (len (sub_markup (strip s))) max_length); [lia|reflexivity].
Qed.

Lemma text_within_limit_is_accepted_witness :
  InputValidator.validate_text_field (PStr " <b>Test</b> ") "title" 100
  = Ok (sub_markup (strip " <b>Test</b> "))
  /\ no_markup (sub_markup (strip " <b>Test</b> ")) = true
  /\ len (sub_markup (strip " <b>Test</b> ")) <= len " <b>Test</b> ".
Proof.
  apply (text_within_limit_is_accepted " <b>Test</b> " "title" 100).
  vm_compute. discriminate.
Defined.

(** X3: whatever [validate_text_field] returns holds none of the four
    markup characters; for a string it is within the limit, for any other
    value it is the empty string, whatever the limit. *)
Theorem accepted_text_is_clean_and_bounded
    (text : pyvalue) (field_name : string) (max_length : Z) (out : string) :
  InputValidator.validate_text_field text field_name max_length = Ok out ->
  no_markup out = true
  /\ if is_string text then len out <= max_length else out = "".
Proof.
  unfold InputValidator.validate_text_field.
  destruct text; try (intros [= <-]; split; reflexivity).
  destruct (Z.gtb_spec (len (sub_markup (strip s))) max_length); [discriminate|].
  intros [= <-]. split; [apply str_forall_filter|exact H].
Qed.

Lemma accepted_text_is_clean_and_bounded_witness :
  no_markup "bTest/b" = true
  /\ if is_string (PStr " <b>Test</b> ") then len "bTest/b" <= 100 else "bTest/b" = "".
Proof.
  apply (accepted_text_is_clean_and_bounded (PStr " <b>Test</b> ") "title" 100 "bTest/b").
  reflexivity.
Defined.

Lemma at_end_chars s : at_end s = true -> str_forall is_b64_text_char s = true.
Proof.
  destruct s as [|c [|d s]]; cbn; try discriminate; [reflexivity|].
  intros H. unfold is_b64_text_char. rewrite H. now rewrite !orb_true_r.
Qed.

Lemma pad_then_end_chars s :
  at_end s || at_end (drop_pad s) || at_end (drop_pad (drop_pad s)) = true ->
  str_forall is_b64_text_char s = true.
Proof.
  assert (Hpad : forall c, (ord c =? 61) = true -> is_b64_text_char c = true).
  { intros c H. unfold is_b64_text_char. rewrite H. now rewrite orb_true_r. }
  intros [[H|H]%orb_prop|H]%orb_prop.
  - now apply at_end_chars.
  - destruct s as [|c s]; [reflexivity|]. cbn [drop_pad] in H.
    destruct (ord c =? 61) eqn:Hc; [|now apply at_end_chars].
    cbn [str_forall]. rewrite (Hpad c Hc). now apply at_end_chars.
  - destruct s as [|c s]; [reflexivity|]. cbn [drop_pad] in H.
    destruct (ord c =? 61) eqn:Hc.
    + cbn [str_forall]. rewrite (Hpad c Hc). cbn [andb].
      destruct s as [|d s]; [reflexivity|]. cbn [drop_pad] in H.
      destruct (ord d =? 61) eqn:Hd; [|now apply at_end_chars].
      cbn [str_forall]. rewrite (Hpad d Hd). now apply at_end_chars.
    + cbn [drop_pad] in H. rewrite Hc in H. now apply at_end_chars.
Qed.

Lemma match_base64_chars s :
  match_base64 s = true -> str_forall is_b64_text_char s = true.
Proof.
  unfold match_base64. induction s as [|c s IH]; [reflexivity|].
  cbn [str_drop_while]. destruct (is_b64_char c) eqn:Hc.
  - intros H. cbn [str_forall]. unfold is_b64_text_char at 1. rewrite Hc. now apply IH.
  - apply pad_then_end_chars.
Qed.

(** X4: image data that passes validation is a non-empty string made of
    base64 digits, pads and line feeds only, the decoder accepted it, and
    the bytes returned are its decoding, at most 10 MiB of them. *)
Theorem accepted_image_data_is_bounded (X : Ext) (v : pyvalue) (decoded : bytes) :
  InputValidator.validate_image_data X v = Ok decoded ->
  exists s,
    v = PStr s /\ s <> ""
    /\ str_forall is_b64_text_char s = true
    /\ b64decode X s = Some decoded
    /\ Z.of_nat (length decoded) <= MAX_IMAGE_SIZE.
Proof.
  unfold InputValidator.validate_image_data.
  destruct v; try discriminate. cbn [truthy].
  destruct (String.eqb_spec s "") as [|Hs]; [discriminate|]. cbn [negb].
  destruct (match_base64 s) eqn:Hm; [|discriminate]. cbn [negb].
  destruct (b64decode X s) as [d|] eqn:Hd; [|discriminate].
  destruct (Z.gtb_spec (Z.of_nat (length d)) MAX_IMAGE_SIZE); [discriminate|].
  intros [= <-]. exists s. repeat split; auto using match_base64_chars.
Qed.

Lemma accepted_image_data_is_bounded_witness :
  exists s,
    PStr Demo.jpeg_10x10 = PStr s /\ s <> ""
    /\ str_forall is_b64_text_char s = true
    /\ b64decode Demo.ext s = Some (Demo.decoded Demo.jpeg_10x10)
    /\ Z.of_nat (length (Demo.decoded Demo.jpeg_10x10)) <= MAX_IMAGE_SIZE.
Proof.
  apply (accepted_image_data_is_bounded Demo.ext (PStr Demo.jpeg_10x10)).
  reflexivity.
Defined.

(** X5: a successful transcoding reports the size of the image as it was
    opened, with width and height at most 4096, of an image whose declared
    format is one of the allowed four, and never an empty format name; when
    the mode needs no conversion the bytes are that image saved as JPEG and
    the format reported is the declared one. *)
Theorem transcoded_image_is_within_bounds
    (X : Ext) (image_bytes processed_bytes : bytes) (width height : Z)
    (format_type : string) :
  ImageProcessor.process_image X image_bytes
  = Ok (processed_bytes, width, height, format_type) ->
  exists image,
    Image_open X image_bytes = Ok image
    /\ ImageProcessor.format_allowed (img_format image) = true
    /\ img_size image = (width, height)
    /\ width <= 4096 /\ height <= 4096
    /\ format_type <> ""
    /\ (ImageProcessor.needs_convert (img_mode image) = false ->
        Image_save_jpeg X image = Ok processed_bytes
        /\ img_format image = Some format_type
        /\ In format_type ALLOWED_IMAGE_FORMATS).
Proof.
  unfold ImageProcessor.process_image, ImageProcessor.process_image_body.
  destruct (Image_open X image_bytes) as [image|e]; cbn [and_then]; [|discriminate].
  destruct (ImageProcessor.format_allowed (img_format image)) eqn:Hf; cbn [negb];
    [|discriminate].
  destruct (Z.gtb_spec (fst (img_size image)) 4096) as [|Hw]; cbn [orb]; [discriminate|].
  destruct (Z.gtb_spec (snd (img_size image)) 4096) as [|Hh]; [discriminate|].
  assert (Hname : forall f, ImageProcessor.format_or_jpeg f <> "").
  { intros [name|]; cbn; [|discriminate].
    destruct (String.eqb_spec name ""); [discriminate|assumption]. }
  destruct (ImageProcessor.needs_convert (img_mode image)) eqn:Hm.
  - destruct (Image_convert X image "RGB") as [image'|e]; cbn [and_then]; [|discriminate].
    destruct (Image_save_jpeg X image') as [saved|e]; cbn [and_then]; [|discriminate].
    intros [= <- <- <- <-]. exists image.
    split; [reflexivity|]. split; [exact Hf|].
    split; [apply surjective_pairing|]. split; [exact Hw|]. split; [exact Hh|].
    split; [apply Hname|]. intros Hno. rewrite Hno in Hm. discriminate Hm.
  - cbn [and_then].
    destruct (Image_save_jpeg X image) as [saved|e] eqn:Hs; cbn [and_then]; [|discriminate].
    intros [= <- <- <- <-]. exists image.
    split; [reflexivity|]. split; [exact Hf|].
    split; [apply surjective_pairing|]. split; [exact Hw|]. split; [exact Hh|].
    split; [apply Hname|]. intros _. split; [exact Hs|].
    destruct (img_format image) as [name|]; [|discriminate Hf].
    unfold ImageProcessor.format_allowed in Hf.
    apply existsb_exists in Hf as (x & Hx & Heq).
    apply String.eqb_eq in Heq. subst x.
    unfold ImageProcessor.format_or_jpeg.
    destruct (String.eqb_spec name "") as [->|_]; [|split; [reflexivity|exact Hx]].
    exfalso. cbn in Hx. intuition discriminate.
Qed.

Lemma transcoded_image_is_within_bounds_witness :
  exists image,
    Image_open Demo.ext (Demo.decoded Demo.jpeg_10x10) = Ok image
    /\ ImageProcessor.format_allowed (img_format image) = true
    /\ img_size image = (10, 10)
    /\ 10 <= 4096 /\ 10 <= 4096
    /\ "JPEG" <> ""
    /\ (ImageProcessor.needs_convert (img_mode image) = false ->
        Image_save_jpeg Demo.ext image = Ok (Demo.decoded Demo.jpeg_10x10)
        /\ img_format image = Some "JPEG"
        /\ In "JPEG" ALLOWED_IMAGE_FORMATS).
Proof.
  apply (transcoded_image_is_within_bounds Demo.ext (Demo.decoded Demo.jpeg_10x10)
           (Demo.decoded Demo.jpeg_10x10) 10 10 "JPEG").
  vm_compute. reflexivity.
Defined.

(** * Further properties of the storage key *)

Lemma user_hash_id_chars user_id : str_forall is_id_char (user_hash user_id) = true.
Proof.
  destruct (user_hash_hex (str_encode user_id)) as [_ H].
  revert H. apply str_forall_impl, hex_is_id.
Qed.

Lemma generate_secure_key_shape user_id image_id :
  SecureS3Manager.generate_secure_key user_id image_id
  = key_of (user_hash user_id) (sub_non_id user_id) (sub_non_id image_id).
Proof. reflexivity. Qed.

Lemma jpg_suffix_cancel a b :
  str_forall is_id_char a = true -> str_forall is_id_char b = true ->
  a +:+ ".jpg" = b +:+ ".jpg" -> a = b.
Proof.
  intros Ha Hb H. apply (f_equal (split_on ".")) in H.
  change (a +:+ ".jpg") with (a +:+ String "." "jpg") in H.
  change (b +:+ ".jpg") with (b +:+ String "." "jpg") in H.
  rewrite !split_on_app in H by (apply id_chars_no_sep; auto).
  now injection H.
Qed.

(** X6: two storage keys are equal exactly when the hash prefixes of the
    two owners, the sanitized owners and the sanitized image identifiers are
    equal: for one owner, image identifiers that differ after sanitizing
    never share a key. *)
Theorem storage_keys_collide_only_on_equal_parts (user1 image1 user2 image2 : string) :
  SecureS3Manager.generate_secure_key user1 image1
  = SecureS3Manager.generate_secure_key user2 image2
  <-> user_hash user1 = user_hash user2
      /\ sub_non_id user1 = sub_non_id user2
      /\ sub_non_id image1 = sub_non_id image2.
Proof.
  rewrite !generate_secure_key_shape. split.
  - intros H. apply (f_equal (split_on "/")) in H.
    rewrite !key_segments in H
      by auto using user_hash_id_chars, sub_non_id_chars.
    injection H as H1 H2 H3. repeat split; try assumption.
    apply jpg_suffix_cancel; auto using sub_non_id_chars.
  - now intros (-> & -> & ->).
Qed.

(** * Further properties of the tags *)

Lemma spec_tags_length l : (length (spec_tags l) <= length l)%nat.
Proof.
  unfold spec_tags.
  etransitivity; [apply List.filter_length_le|]. rewrite length_map.
  induction l as [|v l IH]; [reflexivity|].
  destruct v; cbn; lia.
Qed.

(** X7: [validate_tags] never returns more than ten tags, nor more tags
    than the list submitted has entries. *)
Theorem accepted_tags_are_at_most_ten (tags : pyvalue) (out : list string) :
  InputValidator.validate_tags tags = Ok out ->
  (length out <= 10)%nat
  /\ match tags with
     | PList l => (length out <= length l)%nat
     | _ => out = []
     end.
Proof.
  destruct tags; try (intros [= <-]; split; [cbn; lia|reflexivity]).
  rewrite validate_tags_list.
  destruct (Z.gtb_spec (Z.of_nat (length l)) 10); [discriminate|].
  intros [= <-]. pose proof (spec_tags_length l). split; lia.
Qed.

Lemma accepted_tags_are_at_most_ten_witness :
  (length ["t1"; "t2"; "t3"; "t4"; "t5"; "t6"; "t7"; "t8"; "t9"] <= 10)%nat
  /\ (length ["t1"; "t2"; "t3"; "t4"; "t5"; "t6"; "t7"; "t8"; "t9"]
      <= length Demo.nine_and_one)%nat.
Proof.
  apply (accepted_tags_are_at_most_ten (PList Demo.nine_and_one)).
  reflexivity.
Defined.

(** * Further properties of the provisioning *)

(** One conjunct of a statement about a provisioning run, after the run has
    been evaluated. *)
Ltac prov_goal :=
  first
    [ reflexivity
    | discriminate
    | solve [eauto]
    | solve [let e := fresh in let H := fresh in
             intros e H;
             first [discriminate H
                   | injection H as <-; first [apply fault_not_security | reflexivity]]]
    | solve [let H := fresh in intros [? H]; discriminate H]
    | solve [let H := fresh in intros ? H; discriminate H]
    | solve [intros; repeat split; reflexivity]
    | solve [intros; eexists; reflexivity]
    | solve [exfalso;
             match goal with H : is_Some None |- _ => destruct H as [? H]; discriminate H end]
    | solve [unfold rows, blobs; cbn;
             match goal with H : _ = None |- _ => rewrite H end; reflexivity] ].

(** X8: [create_table_if_not_exists] never changes the rows of an existing
    table, the bucket or the counter; when it returns there is a table; an
    existing table that answers costs one [load] call and nothing else; an
    exception it raises is never a [SecurityError]; and it calls
    [create_table] only after the [load] answered with
    [ResourceNotFoundException]. *)
Theorem create_table_only_when_missing (X : Ext) (w : World) :
  match create_table_if_not_exists X w with
  | (r, w1, t1) =>
      rows w1 = rows w /\ bucket w1 = bucket w /\ ticks w1 = ticks w
      /\ (r = Ok tt -> is_Some (table w1))
      /\ (is_Some (table w) -> aws_fault X w TableLoad = None ->
          r = Ok tt /\ w1 = w /\ t1 = [Call TableLoad None])
      /\ (forall e, r = Raise e -> is_security e = false)
      /\ (existsb is_create t1 = true ->
          exists msg,
            head t1 = Some (Call TableLoad
                              (Some (ClientError "ResourceNotFoundException" msg))))
  end.
Proof.
  unfold create_table_if_not_exists, try_except, bind, aws, ret, raise.
  destruct (aws_fault X w TableLoad) as [[code msg|cls msg]|] eqn:F1; cbn;
    [destruct (String.eqb_spec code "ResourceNotFoundException") as [->|Hcode]| |];
    destruct (table w) as [tb|] eqn:Ht; cbn;
    try (destruct (aws_fault X w CreateTable) as [f2|] eqn:F2; cbn;
         rewrite ?Ht; cbn);
    try (destruct (aws_fault X (set_table (Some ∅) w) WaitUntilExists) as [f3|] eqn:F3; cbn);
    repeat split; prov_goal.
Qed.

(** X9: [create_bucket_if_not_exists] never changes the blobs of an
    existing bucket, the table or the counter; when it returns there is a
    bucket; an existing bucket that answers costs one [head_bucket] call and
    nothing else; an exception it raises is never a [SecurityError]; and it
    calls [create_bucket] only after [head_bucket] answered with the code
    [404]. *)
Theorem create_bucket_only_when_missing (X : Ext) (w : World) :
  match create_bucket_if_not_exists X w with
  | (r, w1, t1) =>
      blobs w1 = blobs w /\ table w1 = table w /\ ticks w1 = ticks w
      /\ (r = Ok tt -> is_Some (bucket w1))
      /\ (is_Some (bucket w) -> aws_fault X w HeadBucket = None ->
          r = Ok tt /\ w1 = w /\ t1 = [Call HeadBucket None])
      /\ (forall e, r = Raise e -> is_security e = false)
      /\ (existsb is_create t1 = true ->
          exists msg, head t1 = Some (Call HeadBucket (Some (ClientError "404" msg))))
  end.
Proof.
  unfold create_bucket_if_not_exists, try_except, bind, aws, ret, raise.
  destruct (aws_fault X w HeadBucket) as [[code msg|cls msg]|] eqn:F1; cbn;
    [destruct (String.eqb_spec code "404") as [->|Hcode]| |];
    destruct (bucket w) as [b|] eqn:Hb; cbn;
    try (destruct (aws_fault X w CreateBucket) as [f2|] eqn:F2; cbn;
         rewrite ?Hb; cbn);
    repeat split; prov_goal.
Qed.

(** * Further properties of the upload handler *)

(** X10: a request whose body is a string of more than 20971520 characters
    is answered with 400 before anything else happens: no backend is
    called, not even for provisioning, and the world is left as it was. *)
Theorem oversize_request_touches_no_backend (X : Ext) (event : dict) (w : World) (s : string) :
  dict_get event "body" (PStr "") = PStr s ->
  20971520 < len s ->
  secure_lambda_handler X event w
  = (Ok (error_reply X 400), w, [Print (log_line 400 "Request too large")]).
Proof.
  intros Hbody Hlen. rewrite secure_lambda_handler_run.
  now rewrite (validate_request_size_too_large event s Hbody) by exact Hlen.
Qed.

Lemma oversize_request_touches_no_backend_witness :
  secure_lambda_handler Demo.ext Demo.oversize_event Demo.empty_world
  = (Ok (error_reply Demo.ext 400), Demo.empty_world,
     [Print (log_line 400 "Request too large")]).
Proof.
  apply (oversize_request_touches_no_backend Demo.ext Demo.oversize_event Demo.empty_world
           Demo.huge_body).
  - reflexivity.
  - unfold Demo.huge_body. rewrite len_iter. reflexivity.
Defined.

Lemma text_field_ok text field_name max_length out :
  InputValidator.validate_text_field text field_name max_length = Ok out ->
  no_markup out = true /\ (len out <= max_length \/ out = "").
Proof.
  unfold InputValidator.validate_text_field.
  destruct text; try (intros [= <-]; split; [reflexivity|now right]).
  destruct (Z.gtb_spec (len (sub_markup (strip s))) max_length); [discriminate|].
  intros [= <-]. split; [apply str_forall_filter|now left].
Qed.

Lemma process_image_dims X b processed_bytes width height format_type :
  ImageProcessor.process_image X b = Ok (processed_bytes, width, height, format_type) ->
  width <= 4096 /\ height <= 4096.
Proof.
  unfold ImageProcessor.process_image, ImageProcessor.process_image_body.
  destruct (Image_open X b) as [image|e]; cbn [and_then]; [|discriminate].
  destruct (ImageProcessor.format_allowed (img_format image)); cbn [negb]; [|discriminate].
  destruct (Z.gtb_spec (fst (img_size image)) 4096) as [|Hw]; cbn [orb]; [discriminate|].
  destruct (Z.gtb_spec (snd (img_size image)) 4096) as [|Hh]; [discriminate|].
  destruct (if ImageProcessor.needs_convert (img_mode image)
            then Image_convert X image "RGB" else Ok image) as [image'|e];
    cbn [and_then]; [|discriminate].
  destruct (Image_save_jpeg X image') as [saved|e]; cbn [and_then]; [|discriminate].
  intros [= <- <- <- <-]. split; assumption.
Qed.

Lemma validate_inputs_ok X body f :
  validate_inputs X body = Ok f ->
  InputValidator.validate_user_id (dict_get body "user_id" (PStr "")) = Ok (f_user_id f)
  /\ InputValidator.validate_image_data X (dict_get body "image_data" (PStr ""))
     = Ok (f_image_data f)
  /\ InputValidator.validate_text_field (dict_get body "title" (PStr "")) "title"
       MAX_TITLE_LENGTH = Ok (f_title f)
  /\ InputValidator.validate_text_field (dict_get body "description" (PStr ""))
       "description" MAX_DESCRIPTION_LENGTH = Ok (f_description f)
  /\ InputValidator.validate_tags (dict_get body "tags" (PList [])) = Ok (f_tags f).
Proof.
  unfold validate_inputs.
  destruct (InputValidator.validate_user_id _) as [user|e]; cbn [and_then]; [|discriminate].
  destruct (InputValidator.validate_image_data X _) as [data|e]; cbn [and_then];
    [|discriminate].
  destruct (InputValidator.validate_text_field (dict_get body "title" _) _ _) as [title|e];
    cbn [and_then]; [|discriminate].
  destruct (InputValidator.validate_text_field (dict_get body "description" _) _ _)
    as [descr|e]; cbn [and_then]; [|discriminate].
  destruct (InputValidator.validate_tags _) as [tags|e]; cbn [and_then]; [|discriminate].
  intros [= <-]. repeat split.
Qed.

Lemma accept_request_ok X event f processed_bytes width height format_type :
  accept_request X event = Accepted f (processed_bytes, width, height, format_type) ->
  exists body,
    request_body X event = Loaded (PDict body)
    /\ validate_inputs X body = Ok f
    /\ ImageProcessor.process_image X (f_image_data f)
       = Ok (processed_bytes, width, height, format_type).
Proof.
  unfold accept_request.
  destruct (request_body X event) as [[]|msg|cls msg]; try discriminate.
  destruct (validate_inputs X d) as [f'|e] eqn:Hv; [|discriminate].
  destruct (ImageProcessor.process_image X (f_image_data f')) as [r|e] eqn:Hp;
    [|discriminate].
  intros [= <- ->]. eauto.
Qed.

(** The fields of an accepted request satisfy the constraints of a stored
    record. *)
Lemma accepted_fields_well_formed X body f :
  validate_inputs X body = Ok f ->
  str_forall is_id_char (f_user_id f) = true
  /\ 3 <= len (f_user_id f) <= 50
  /\ no_markup (f_title f) = true /\ len (f_title f) <= 100
  /\ no_markup (f_description f) = true /\ len (f_description f) <= 500
  /\ Forall valid_tag (f_tags f) /\ (length (f_tags f) <= 10)%nat
  /\ Z.of_nat (length (f_image_data f)) <= MAX_IMAGE_SIZE.
Proof.
  intros (Hu & Hd & Ht & Hde & Hta)%validate_inputs_ok.
  pose proof (validate_user_id_spec (dict_get body "user_id" (PStr ""))) as Hus.
  rewrite Hu in Hus. destruct Hus as (s & _ & _ & Heq & Hlen).
  apply text_field_ok in Ht as [Ht1 Ht2], Hde as [Hd1 Hd2].
  split; [rewrite Heq; apply sub_non_id_chars|]. split; [exact Hlen|].
  split; [exact Ht1|]. split.
  { destruct Ht2 as [H|H]; [exact H|rewrite H; change (len "") with 0; lia]. }
  split; [exact Hd1|]. split.
  { destruct Hd2 as [H|H]; [exact H|rewrite H; change (len "") with 0; lia]. }
  assert (Htags : Forall valid_tag (f_tags f) /\ (length (f_tags f) <= 10)%nat).
  { destruct (dict_get body "tags" (PList [])); try (injection Hta as <-; split;
      [constructor|cbn; lia]).
    rewrite validate_tags_list in Hta.
    destruct (Z.gtb_spec (Z.of_nat (length l)) 10); [discriminate|].
    injection Hta as <-. pose proof (spec_tags_length l).
    split; [apply spec_tags_valid|lia]. }
  destruct Htags. repeat split; try assumption.
  revert Hd. unfold InputValidator.validate_image_data. repeat case_match; try discriminate.
  intros [= <-]. lia.
Qed.

(** X11: after a 201 the two stores hold the record of the request.  The
    body of the event is an object whose five fields pass validation; the
    blob holds the bytes [process_image] returns for the decoded
    [image_data] of that body, with content type [image/jpeg], [AES256]
    encryption requested and owner, title, description and timestamp as
    its metadata; the new row is stored under the image identifier drawn
    for the request, holds the validated fields with the width, height and
    format [process_image] returned and the number of bytes of the blob as
    its file size, and records the key under which the blob is stored; the
    key is the one derived from the validated owner and the image
    identifier; the response reports the same record.  The owner has 3 to
    50 identifier characters, title and description hold no markup
    character and at most 100 and 500 characters, there are at most ten
    tags, all valid, and width and height are at most 4096.  The blob was
    written first, the row second, after provisioning calls only. *)
Theorem stored_record_is_well_formed
    (X : Ext) (event : dict) (w w' : World) (resp : response) (t : list effect) :
  secure_lambda_handler X event w = (Ok resp, w', t) ->
  statusCode resp = 201 ->
  exists body f image_id key obj width height format_type created_at updated_at t1,
    request_body X event = Loaded (PDict body)
    /\ validate_inputs X body = Ok f
    /\ InputValidator.validate_image_data X (dict_get body "image_data" (PStr ""))
       = Ok (f_image_data f)
    /\ ImageProcessor.process_image X (f_image_data f)
       = Ok (obj_body obj, width, height, format_type)
    /\ image_id = uuid4 X (ticks w)
    /\ resp = SecureResponseFormatter.success_response X
                (success_data f image_id width height (obj_body obj) created_at) 201
    /\ rows w' !! image_id = Some
         (metadata_item f image_id key width height format_type (obj_body obj)
            created_at updated_at)
    /\ blobs w' !! key = Some obj
    /\ key = SecureS3Manager.generate_secure_key (f_user_id f) image_id
    /\ obj_content_type obj = "image/jpeg" /\ obj_encryption obj = "AES256"
    /\ obj_metadata obj
       = [("user_id", f_user_id f); ("title", f_title f);
          ("description", f_description f); ("upload_time", created_at)]
    /\ str_forall is_id_char (f_user_id f) = true /\ 3 <= len (f_user_id f) <= 50
    /\ no_markup (f_title f) = true /\ len (f_title f) <= 100
    /\ no_markup (f_description f) = true /\ len (f_description f) <= 500
    /\ Forall valid_tag (f_tags f) /\ (length (f_tags f) <= 10)%nat
    /\ width <= 4096 /\ height <= 4096
    /\ t = t1 ++ [Call (PutObject key obj) None;
                  Call (PutItem (metadata_item f image_id key width height format_type
                                   (obj_body obj) created_at updated_at)) None]
    /\ forallb is_provisioning t1 = true.
Proof.
  intros Hrun Hstatus. apply secure_lambda_handler_cases in Hrun.
  inversion Hrun as [Hsize Hr|e w1 t1 Hsize Hinit He Hr|w1 t1 e Hsize Hinit Hacc He Hr
                   |w1 t1 msg Hsize Hinit Hacc Hr
                   |w1 t1 f pb wd ht fmt tb b e Hsize Hinit Hacc Htb Hb F1 He Hr
                   |w1 t1 f pb wd ht fmt tb b fl Hsize Hinit Hacc Htb Hb F1 F2 Hr
                   |w1 t1 f pb wd ht fmt tb b Hsize Hinit Hacc Htb Hb F1 F2 Hr];
    subst; try discriminate Hstatus.
  apply accept_request_ok in Hacc as (body & Hbody & Hv & Hp).
  pose proof (validate_inputs_ok X body f Hv) as (_ & Hdata & _).
  apply accepted_fields_well_formed in Hv as Hwf.
  destruct Hwf as (H1 & H2 & H3 & H4 & H5 & H6 & H7 & H8 & _).
  apply process_image_dims in Hp as Hdims. destruct Hdims as [Hw Hh].
  apply initialize_provisioned in Hinit as [[_ _ Hticks Hq] _].
  exists body, f, (new_image_id X w1), (new_key X f w1), (new_object X f pb w1), wd, ht, fmt,
    (new_created_at X w1), (utcnow_isoformat X (N.succ (N.succ (ticks w1)))), t1.
  split; [exact Hbody|]. split; [exact Hv|]. split; [exact Hdata|]. split; [exact Hp|].
  split; [unfold new_image_id; now rewrite Hticks|]. split; [reflexivity|].
  split; [unfold rows; cbn [table set_table]; apply lookup_insert_eq|].
  split; [unfold blobs, blob_written; cbn [bucket set_bucket set_table];
          apply lookup_insert_eq|].
  repeat split; assumption || reflexivity || lia.
Qed.

Lemma stored_record_is_well_formed_witness :
  exists body f image_id key obj width height format_type created_at updated_at t1,
    request_body Demo.ext Demo.valid_upload = Loaded (PDict body)
    /\ validate_inputs Demo.ext body = Ok f
    /\ InputValidator.validate_image_data Demo.ext (dict_get body "image_data" (PStr ""))
       = Ok (f_image_data f)
    /\ ImageProcessor.process_image Demo.ext (f_image_data f)
       = Ok (obj_body obj, width, height, format_type)
    /\ image_id = uuid4 Demo.ext (ticks Demo.empty_world)
    /\ new_response Demo.ext
         {| f_user_id := "user123"; f_image_data := Demo.decoded Demo.jpeg_10x10;
            f_title := "Test Image"; f_description := "";
            f_tags := ["test"; "sample"] |}
         (Demo.decoded Demo.jpeg_10x10) 10 10
         {| table := Some ∅; bucket := Some ∅; ticks := 0 |}
       = SecureResponseFormatter.success_response Demo.ext
           (success_data f image_id width height (obj_body obj) created_at) 201
    /\ rows (Demo.upload_world Demo.ext Demo.valid_upload) !! image_id = Some
         (metadata_item f image_id key width height format_type (obj_body obj)
            created_at updated_at)
    /\ blobs (Demo.upload_world Demo.ext Demo.valid_upload) !! key = Some obj
    /\ key = SecureS3Manager.generate_secure_key (f_user_id f) image_id
    /\ obj_content_type obj = "image/jpeg" /\ obj_encryption obj = "AES256"
    /\ obj_metadata obj
       = [("user_id", f_user_id f); ("title", f_title f);
          ("description", f_description f); ("upload_time", created_at)]
    /\ str_forall is_id_char (f_user_id f) = true /\ 3 <= len (f_user_id f) <= 50
    /\ no_markup (f_title f) = true /\ len (f_title f) <= 100
    /\ no_markup (f_description f) = true /\ len (f_description f) <= 500
    /\ Forall valid_tag (f_tags f) /\ (length (f_tags f) <= 10)%nat
    /\ width <= 4096 /\ height <= 4096
    /\ Demo.upload_effects Demo.ext Demo.valid_upload
       = t1 ++ [Call (PutObject key obj) None;
                Call (PutItem (metadata_item f image_id key width height format_type
                                 (obj_body obj) created_at updated_at)) None]
    /\ forallb is_provisioning t1 = true.
Proof.
  apply (stored_record_is_well_formed Demo.ext Demo.valid_upload Demo.empty_world
           (Demo.upload_world Demo.ext Demo.valid_upload)
           (new_response Demo.ext
              {| f_user_id := "user123"; f_image_data := Demo.decoded Demo.jpeg_10x10;
                 f_title := "Test Image"; f_description := "";
                 f_tags := ["test"; "sample"] |}
              (Demo.decoded Demo.jpeg_10x10) 10 10
              {| table := Some ∅; bucket := Some ∅; ticks := 0 |})).
  - vm_compute. reflexivity.
  - reflexivity.
Defined.

(** X12: an upload changes at most one row and at most one blob, whatever
    its outcome, deletes nothing, and changes no row at all unless it
    answers 201. *)
Theorem upload_changes_at_most_one_row_and_one_blob (X : Ext) (event : dict) (w : World) :
  match secure_lambda_handler X event w with
  | (r, w', t) =>
      (exists image_id key,
          (forall id, id <> image_id -> rows w' !! id = rows w !! id)
          /\ (forall k, k <> key -> blobs w' !! k = blobs w !! k))
      /\ existsb is_delete t = false
      /\ (forall resp, r = Ok resp -> statusCode resp <> 201 -> rows w' = rows w)
  end.
Proof.
  destruct (secure_lambda_handler X event w) as [[r w'] t] eqn:Hrun.
  apply secure_lambda_handler_cases in Hrun.
  destruct Hrun as [Hsize|e w1 t1 Hsize Hinit He|w1 t1 e Hsize Hinit Hacc He
                   |w1 t1 msg Hsize Hinit Hacc
                   |w1 t1 f pb wd ht fmt tb b e Hsize Hinit Hacc Htb Hb F1 He
                   |w1 t1 f pb wd ht fmt tb b fl Hsize Hinit Hacc Htb Hb F1 F2
                   |w1 t1 f pb wd ht fmt tb b Hsize Hinit Hacc Htb Hb F1 F2];
    try (apply initialize_provisioned in Hinit as [[Hrows Hblobs _ Hq] _];
         pose proof (provisioning_quiet _ Hq) as (_ & _ & Hq3 & _)).
  - split; [exists "", ""; auto|]. split; [reflexivity|auto].
  - destruct (handler_log_quiet e) as (_ & _ & Hl).
    split; [exists "", ""; split; intros; [rewrite <- Hrows|rewrite <- Hblobs]; reflexivity|].
    split; [now rewrite existsb_app, Hq3, Hl|auto].
  - destruct (handler_log_quiet e) as (_ & _ & Hl).
    split; [exists "", ""; split; intros; [rewrite <- Hrows|rewrite <- Hblobs]; reflexivity|].
    split; [now rewrite existsb_app, Hq3, Hl|auto].
  - split; [exists "", ""; split; intros; [rewrite <- Hrows|rewrite <- Hblobs]; reflexivity|].
    split; [now rewrite existsb_app, Hq3|auto].
  - destruct (handler_log_quiet e) as (_ & _ & Hl).
    split; [exists "", ""; split; intros; [rewrite <- Hrows|rewrite <- Hblobs]; reflexivity|].
    split; [now rewrite !existsb_app, Hq3, Hl|auto].
  - destruct (handler_log_quiet (exn_of_fault fl)) as (_ & _ & Hl).
    split; [|split; [now rewrite !existsb_app, Hq3, Hl|auto]].
    exists "", (new_key X f w1). split; [intros; rewrite <- Hrows; reflexivity|].
    intros k Hk. unfold blobs at 1. cbn [blob_written bucket set_bucket].
    rewrite lookup_insert_ne by congruence.
    rewrite <- Hblobs. unfold blobs. now rewrite Hb.
  - split; [|split; [now rewrite !existsb_app, Hq3|]].
    + exists (new_image_id X w1), (new_key X f w1). split.
      * intros id Hid. unfold rows at 1. cbn [table set_table].
        rewrite lookup_insert_ne by congruence.
        rewrite <- Hrows. unfold rows. now rewrite Htb.
      * intros k Hk. unfold blobs at 1. cbn [blob_written bucket set_bucket set_table].
        rewrite lookup_insert_ne by congruence.
        rewrite <- Hblobs. unfold blobs. now rewrite Hb.
    + intros resp [= <-] H. now destruct H.
Qed.


(** * Further properties of the delete handler *)

Lemma get_item_run X k w r w2 t2 :
  aws X (GetItem k) w = (r, w2, t2) ->
  w2 = w /\ t2 = [Call (GetItem k) (failure_of r)]
  /\ forall got, r = Ok got ->
       exists tb id,
         table w = Some tb /\ k = PStr id
         /\ got = match tb !! id with
                  | Some item => PDict [("Item", PDict item)]
                  | None => PDict []
                  end.
Proof.
  unfold aws. destruct (aws_fault X w (GetItem k)) as [fl|].
  - intros [= <- <- <-]. repeat split. intros got [=].
  - cbn [service]. destruct (table w) as [tb|]; [destruct k|];
      try (intros [= <- <- <-]; repeat split; intros got [=]).
    destruct (tb !! s) as [item|] eqn:Hrow; intros [= <- <- <-]; repeat split;
      intros got [= <-]; exists tb, s; rewrite Hrow; auto.
Qed.

Lemma delete_object_frame k w r w0 :
  service (DeleteObject k) w = (r, w0) ->
  table w0 = table w /\ ticks w0 = ticks w
  /\ forall k', k <> PStr k' -> blobs w0 !! k' = blobs w !! k'.
Proof.
  cbn [service]. unfold blobs.
  destruct (bucket w) as [b|] eqn:Hb; [destruct k|];
    intros [= <- <-]; cbn [bucket set_bucket table ticks]; rewrite ?Hb; repeat split; auto.
  intros k' Hk. apply lookup_delete_ne. congruence.
Qed.

Lemma delete_item_run X image_id w r w1 t1 :
  aws X (DeleteItem image_id) w = (r, w1, t1) ->
  t1 = [Call (DeleteItem image_id) (failure_of r)]
  /\ ticks w1 = ticks w /\ bucket w1 = bucket w
  /\ match r with
     | Raise e => w1 = w
     | Ok _ => exists id tb, image_id = PStr id /\ table w = Some tb
                             /\ table w1 = Some (delete id tb)
     end.
Proof.
  unfold aws. destruct (aws_fault X w (DeleteItem image_id)) as [fl|].
  - intros [= <- <- <-]. auto.
  - cbn [service].
    destruct (table w) as [tb|] eqn:Htb; [destruct image_id|];
      intros [= <- <- <-]; repeat split; eauto.
Qed.

(** The deletion of the blob always returns: its failure is only printed. *)
Lemma delete_blob_run X s3_key w r w0 t0 :
  delete_blob X s3_key w = (r, w0, t0) ->
  r = Ok tt /\ table w0 = table w /\ ticks w0 = ticks w
  /\ (forall k, s3_key <> PStr k -> blobs w0 !! k = blobs w !! k)
  /\ existsb is_put_object t0 = false /\ existsb is_put_item t0 = false
  /\ existsb is_create t0 = false
  /\ (forall e, In (Call (DeleteObject s3_key) (Some e)) t0 ->
                In (Print ("Warning: Failed to delete from S3: " +:+ str_exn e)) t0)
  /\ (aws_fault X w (DeleteObject s3_key) = None ->
      forall b k, bucket w = Some b -> s3_key = PStr k -> bucket w0 = Some (delete k b)).
Proof.
  unfold delete_blob, try_except, bind, aws, ret, print.
  destruct (aws_fault X w (DeleteObject s3_key)) as [fl|].
  - intros [= <- <- <-]. do 7 (split; [auto|]). split; [trace_in|discriminate].
  - destruct (service (DeleteObject s3_key) w) as [r0 w1] eqn:Hs.
    destruct (delete_object_frame _ _ _ _ Hs) as (Ht & Hk & Hb).
    destruct r0 as [v|e0]; intros [= <- <- <-]; do 7 (split; [auto|]);
      (split; [trace_in|]); intros _ b k Hbk ->; revert Hs; cbn [service]; rewrite Hbk.
    + intros [= <- <-]. reflexivity.
    + discriminate.
Qed.

(** The two deletions: the blob first, then the row. *)
Lemma delete_stored_run X image_id s3_key w r w3 t3 :
  DeleteImage.delete_stored X image_id s3_key w = (r, w3, t3) ->
  existsb is_put_object t3 = false /\ existsb is_put_item t3 = false
  /\ existsb is_create t3 = false
  /\ ticks w3 = ticks w
  /\ (forall k, s3_key <> PStr k -> blobs w3 !! k = blobs w !! k)
  /\ match r with
     | Raise e => rows w3 = rows w
     | Ok resp =>
         exists id tb,
           image_id = PStr id /\ table w = Some tb
           /\ table w3 = Some (delete id tb)
           /\ resp = DeleteImage.reply X 200
                       (PDict [("message", PStr "Image deleted successfully");
                               ("image_id", image_id)])
           /\ (aws_fault X w (DeleteObject s3_key) = None ->
               forall b k, bucket w = Some b -> s3_key = PStr k ->
                           bucket w3 = Some (delete k b))
     end.
Proof.
  change (DeleteImage.delete_stored X image_id s3_key)
    with (bind (delete_blob X s3_key)
            (fun _ => bind (aws X (DeleteItem image_id))
                        (fun _ => ret (DeleteImage.reply X 200
                                         (PDict [("message", PStr "Image deleted successfully");
                                                 ("image_id", image_id)]))))).
  unfold bind, ret.
  destruct (delete_blob X s3_key w) as [[r0 w0] t0] eqn:Hblob.
  apply delete_blob_run in Hblob as (-> & Ht & Hk & Hb & Hq1 & Hq2 & Hq3 & _ & Hdel).
  destruct (aws X (DeleteItem image_id) w0) as [[r1 w1] t1] eqn:Hitem.
  apply delete_item_run in Hitem as (-> & Hk1 & Hb1 & Hres).
  assert (Hblobs : forall k, s3_key <> PStr k -> blobs w1 !! k = blobs w !! k).
  { intros k Hne. rewrite <- (Hb k Hne). unfold blobs. now rewrite Hb1. }
  destruct r1 as [v|e]; intros [= <- <- <-]; rewrite !existsb_app, Hq1, Hq2, Hq3;
    (split; [reflexivity|]); (split; [reflexivity|]); (split; [reflexivity|]);
    (split; [lia|]); (split; [rewrite ?app_nil_r; exact Hblobs|]).
  - destruct Hres as (id & tb & -> & Htb & Htb').
    exists id, tb. rewrite <- Ht. repeat split; auto.
    intros Hf b k Hbk Hkey. rewrite Hb1. eauto.
  - subst w1. unfold rows. now rewrite Ht.
Qed.

Lemma truthy_string id : truthy (PStr id) = true -> id <> "".
Proof. cbn. destruct (String.eqb_spec id ""); [discriminate|auto]. Qed.

(** X14: the delete handler always answers; it never writes a blob or a
    row and never draws an identifier; unless it answers 200 the rows are
    as before; and when it answers 200 the event named a non-empty string
    identifier whose row existed, and the rows are the former rows without
    that one: no other row is removed. *)
Theorem delete_removes_only_the_named_row (X : Ext) (event : dict) (w : World) :
  match DeleteImage.lambda_handler X event w with
  | (r, w', t) =>
      exists resp,
        r = Ok resp
        /\ existsb is_put_object t = false /\ existsb is_put_item t = false
        /\ ticks w' = ticks w
        /\ (statusCode resp <> 200 -> rows w' = rows w)
        /\ (statusCode resp = 200 ->
            exists id,
              named_image event = Some (PStr id) /\ id <> ""
              /\ is_Some (rows w !! id)
              /\ rows w' = delete id (rows w))
  end.
Proof.
  unfold DeleteImage.lambda_handler, try_except, DeleteImage.handler_body, named_image.
  unfold bind at 1.
  pose proof (create_table_run X w) as Hcreate.
  destruct (create_table_if_not_exists X w) as [[[[]|e] w1] t1].
  2: { destruct Hcreate as ([Hrows _ Hticks Hq] & _ & _).
       apply provisioning_quiet in Hq as (Hq1 & Hq2 & _).
       eexists. split; [reflexivity|]. cbn [ret statusCode DeleteImage.reply].
       rewrite !existsb_app, Hq1, Hq2. repeat split; auto. discriminate. }
  destruct Hcreate as ([Hrows _ Hticks Hq] & _ & _).
  apply provisioning_quiet in Hq as (Hq1 & Hq2 & _).
  destruct (dict_get event "pathParameters" (PDict [])) as [| | | | | |path_parameters];
    try (eexists; split; [reflexivity|]; cbn [ret statusCode DeleteImage.reply];
         rewrite !existsb_app, Hq1, Hq2; repeat split; auto; discriminate).
  destruct (truthy (dict_get path_parameters "image_id" PNone)) eqn:Htruthy; cbn [negb].
  2: { eexists. split; [reflexivity|]. cbn [ret statusCode DeleteImage.reply].
       rewrite !existsb_app, Hq1, Hq2. repeat split; auto. discriminate. }
  unfold bind at 1.
  destruct (aws X (GetItem (dict_get path_parameters "image_id" PNone)) w1)
    as [[r2 w2] t2] eqn:Hget.
  apply get_item_run in Hget as (-> & -> & Hgot).
  destruct r2 as [got|e].
  2: { eexists. split; [reflexivity|]. cbn [ret statusCode DeleteImage.reply].
       rewrite !existsb_app, Hq1, Hq2. repeat split; auto. discriminate. }
  destruct (Hgot got eq_refl) as (tb & id & Htb & Hid & ->). rewrite Hid in *.
  destruct (tb !! id) as [item|] eqn:Hrow;
    cbn [dict_lookup String.eqb Ascii.eqb Bool.eqb].
  2: { eexists. split; [reflexivity|]. cbn [ret statusCode DeleteImage.reply].
       rewrite !existsb_app, Hq1, Hq2. repeat split; auto. discriminate. }
  destruct (dict_lookup item "s3_key") as [s3_key|].
  2: { eexists. split; [reflexivity|]. cbn [ret statusCode DeleteImage.reply].
       rewrite !existsb_app, Hq1, Hq2. repeat split; auto. discriminate. }
  destruct (DeleteImage.delete_stored X (PStr id) s3_key w1) as [[r3 w3] t3] eqn:Hdel.
  apply delete_stored_run in Hdel as (Hd1 & Hd2 & _ & Hd4 & _ & Hres).
  destruct r3 as [resp|e].
  - destruct Hres as (id' & tb' & [= <-] & Htb' & Htb3 & -> & _).
    eexists. split; [reflexivity|]. cbn [statusCode DeleteImage.reply].
    rewrite !existsb_app, Hq1, Hq2, Hd1, Hd2.
    split; [reflexivity|]. split; [reflexivity|]. split; [lia|].
    split; [intros H; now destruct H|]. intros _.
    exists id. split; [reflexivity|]. split; [now apply truthy_string|].
    rewrite <- Hrows. unfold rows. rewrite Htb3, Htb.
    split; [now rewrite Hrow|]. congruence.
  - eexists. split; [reflexivity|]. cbn [ret statusCode DeleteImage.reply].
    rewrite !existsb_app, Hq1, Hq2, Hd1, Hd2.
    repeat split; auto; try lia; try discriminate. intros _. congruence.
Qed.

Section DeleteEdges.
Variables (X : Ext) (event : dict) (w w1 : World) (t1 : list effect).
Hypothesis created : create_table_if_not_exists X w = (Ok tt, w1, t1).

Lemma delete_handler_after_create :
  DeleteImage.lambda_handler X event w
  = match named_image event with
    | None =>
        (Ok (delete_failure X
               (AttributeError
                  ("'" +:+ type_name (dict_get event "pathParameters" (PDict []))
                   +:+ "' object has no attribute 'get'"))), w1, t1)
    | Some image_id =>
        if truthy image_id
        then
          match aws X (GetItem image_id) w1 with
          | (Ok (PDict got), w2, t2) =>
              match dict_lookup got "Item" with
              | None =>
                  (Ok (DeleteImage.reply X 404 (PDict [("error", PStr "Image not found")])),
                   w2, t1 ++ t2)
              | Some (PDict item) =>
                  match dict_lookup item "s3_key" with
                  | Some s3_key =>
                      match DeleteImage.delete_stored X image_id s3_key w2 with
                      | (Ok resp, w3, t3) => (Ok resp, w3, t1 ++ t2 ++ t3)
                      | (Raise e, w3, t3) => (Ok (delete_failure X e), w3, t1 ++ t2 ++ t3)
                      end
                  | None => (Ok (delete_failure X (KeyError "s3_key")), w2, t1 ++ t2)
                  end
              | Some _ =>
                  (Ok (delete_failure X
                         (LibraryError "TypeError" "item is not subscriptable by name")),
                   w2, t1 ++ t2)
              end
          | (Ok _, w2, t2) =>
              (Ok (delete_failure X (LibraryError "TypeError" "response is not a mapping")),
               w2, t1 ++ t2)
          | (Raise e, w2, t2) => (Ok (delete_failure X e), w2, t1 ++ t2)
          end
        else (Ok (DeleteImage.reply X 400 (PDict [("error", PStr "image_id is required")])),
              w1, t1)
    end.
Proof.
  unfold DeleteImage.lambda_handler, try_except, DeleteImage.handler_body, named_image.
  unfold bind at 1. rewrite created.
  destruct (dict_get event "pathParameters" (PDict []))
    as [|flag|n|mantissa exponent|s|l|path_parameters];
    try (cbn; now rewrite !app_nil_r).
  destruct (truthy (dict_get path_parameters "image_id" PNone)); cbn [negb];
    [|cbn; now rewrite !app_nil_r].
  unfold bind at 1.
  destruct (aws X (GetItem (dict_get path_parameters "image_id" PNone)) w1)
    as [[[got|e] w2] t2]; [|cbn; now rewrite !app_nil_r].
  destruct got as [| | | | | |got]; try (cbn; now rewrite !app_nil_r).
  destruct (dict_lookup got "Item") as [[| | | | | |item]|];
    try (cbn; now rewrite !app_nil_r).
  destruct (dict_lookup item "s3_key") as [s3_key|]; [|cbn; now rewrite !app_nil_r].
  destruct (DeleteImage.delete_stored X _ s3_key w2) as [[[resp|e] w3] t3];
    cbn; now rewrite ?app_nil_r.
Qed.
End DeleteEdges.

(** X15: a delete event that names no image (no path parameters, no
    [image_id], or an empty, null or zero one) is answered with 400 and
    [image_id is required] once the table is there; nothing is looked up
    and nothing is deleted. *)
Theorem delete_without_identifier_is_refused
    (X : Ext) (event : dict) (w w1 : World) (t1 : list effect) (image_id : pyvalue) :
  create_table_if_not_exists X w = (Ok tt, w1, t1) ->
  named_image event = Some image_id ->
  truthy image_id = false ->
  DeleteImage.lambda_handler X event w
  = (Ok (DeleteImage.reply X 400 (PDict [("error", PStr "image_id is required")])), w1, t1)
  /\ rows w1 = rows w /\ blobs w1 = blobs w
  /\ forallb is_provisioning t1 = true.
Proof.
  intros Hcreate Hnamed Hfalsy.
  rewrite (delete_handler_after_create X event w w1 t1 Hcreate), Hnamed, Hfalsy.
  split; [reflexivity|].
  pose proof (create_table_run X w) as H. rewrite Hcreate in H.
  destruct H as ([Hrows Hblobs _ Hq] & _). auto.
Qed.

Lemma delete_without_identifier_is_refused_witness :
  DeleteImage.lambda_handler Demo.ext [] Demo.orphan_world
  = (Ok (DeleteImage.reply Demo.ext 400 (PDict [("error", PStr "image_id is required")])),
     Demo.orphan_world, [Call TableLoad None])
  /\ rows Demo.orphan_world = rows Demo.orphan_world
  /\ blobs Demo.orphan_world = blobs Demo.orphan_world
  /\ forallb is_provisioning [Call TableLoad None] = true.
Proof.
  apply (delete_without_identifier_is_refused Demo.ext [] Demo.orphan_world
           Demo.orphan_world [Call TableLoad None] PNone); reflexivity.
Defined.

(** X16: a delete event naming an identifier that has no row is answered
    with 404 and [Image not found] after one [get_item] call; no deletion
    is attempted on either store and the world is left as provisioning left
    it. *)
Theorem delete_of_unknown_image_is_not_found
    (X : Ext) (event : dict) (w w1 : World) (t1 : list effect)
    (id : string) (tb : gmap string dict) :
  create_table_if_not_exists X w = (Ok tt, w1, t1) ->
  named_image event = Some (PStr id) ->
  id <> "" ->
  aws_fault X w1 (GetItem (PStr id)) = None ->
  table w1 = Some tb ->
  tb !! id = None ->
  DeleteImage.lambda_handler X event w
  = (Ok (DeleteImage.reply X 404 (PDict [("error", PStr "Image not found")])),
     w1, t1 ++ [Call (GetItem (PStr id)) None]).
Proof.
  intros Hcreate Hnamed Hid Hfault Htb Hrow.
  rewrite (delete_handler_after_create X event w w1 t1 Hcreate), Hnamed.
  cbn [truthy]. destruct (String.eqb_spec id ""); [contradiction|]. cbn [negb].
  unfold aws. rewrite Hfault. cbn [service]. rewrite Htb, Hrow. reflexivity.
Qed.

Lemma delete_of_unknown_image_is_not_found_witness :
  DeleteImage.lambda_handler Demo.ext (delete_request (PStr "img-2")) Demo.orphan_world
  = (Ok (DeleteImage.reply Demo.ext 404 (PDict [("error", PStr "Image not found")])),
     Demo.orphan_world, [Call TableLoad None] ++ [Call (GetItem (PStr "img-2")) None]).
Proof.
  apply (delete_of_unknown_image_is_not_found Demo.ext (delete_request (PStr "img-2"))
           Demo.orphan_world Demo.orphan_world [Call TableLoad None] "img-2"
           {[ "img-1" := Demo.orphan_row ]}); try reflexivity.
  discriminate.
Defined.

(** X17: when the delete handler fails it answers 500 with the text of
    the exception in the body: the message of the backend when [get_item]
    is refused, and ['s3_key'] when the row it found records no key, in
    which case the row is left in place and no deletion is attempted. *)
Theorem delete_failure_reports_the_exception_text
    (X : Ext) (event : dict) (w w1 : World) (t1 : list effect) (id : string) :
  create_table_if_not_exists X w = (Ok tt, w1, t1) ->
  named_image event = Some (PStr id) ->
  id <> "" ->
  (forall fl, aws_fault X w1 (GetItem (PStr id)) = Some fl ->
     DeleteImage.lambda_handler X event w
     = (Ok (delete_failure X (exn_of_fault fl)), w1,
        t1 ++ [Call (GetItem (PStr id)) (Some (exn_of_fault fl))]))
  /\ (forall tb item,
        aws_fault X w1 (GetItem (PStr id)) = None ->
        table w1 = Some tb -> tb !! id = Some item ->
        dict_lookup item "s3_key" = None ->
        DeleteImage.lambda_handler X event w
        = (Ok (delete_failure X (KeyError "s3_key")), w1,
           t1 ++ [Call (GetItem (PStr id)) None])
        /\ body (delete_failure X (KeyError "s3_key"))
           = json_dumps X true (PDict [("error", PStr "Internal server error: 's3_key'")])).
Proof.
  intros Hcreate Hnamed Hid.
  rewrite (delete_handler_after_create X event w w1 t1 Hcreate), Hnamed.
  cbn [truthy]. destruct (String.eqb_spec id ""); [contradiction|]. cbn [negb].
  unfold aws. split.
  - intros fl ->. reflexivity.
  - intros tb item -> Htb Hrow Hkey. cbn [service]. rewrite Htb, Hrow.
    cbn [dict_lookup String.eqb Ascii.eqb Bool.eqb]. rewrite Hkey. split; reflexivity.
Qed.

Lemma delete_failure_reports_the_exception_text_witness :
  DeleteImage.lambda_handler Demo.metadata_read_down Demo.delete_event Demo.keyless_world
  = (Ok (delete_failure Demo.metadata_read_down (ClientError "AccessDenied" "Access Denied")),
     Demo.keyless_world,
     [Call TableLoad None]
     ++ [Call (GetItem (PStr "img-1")) (Some (ClientError "AccessDenied" "Access Denied"))])
  /\ DeleteImage.lambda_handler Demo.ext Demo.delete_event Demo.keyless_world
     = (Ok (delete_failure Demo.ext (KeyError "s3_key")), Demo.keyless_world,
        [Call TableLoad None] ++ [Call (GetItem (PStr "img-1")) None]).
Proof.
  split.
  - refine (proj1 (delete_failure_reports_the_exception_text Demo.metadata_read_down
                     Demo.delete_event Demo.keyless_world Demo.keyless_world
                     [Call TableLoad None] "img-1" eq_refl eq_refl _)
              (FClient "AccessDenied" "Access Denied") eq_refl).
    discriminate.
  - refine (proj1 (proj2 (delete_failure_reports_the_exception_text Demo.ext
                            Demo.delete_event Demo.keyless_world Demo.keyless_world
                            [Call TableLoad None] "img-1" eq_refl eq_refl _)
                     {[ "img-1" := [("image_id", PStr "img-1")] ]}
                     [("image_id", PStr "img-1")] eq_refl eq_refl _ eq_refl)).
    + discriminate.
    + vm_compute. reflexivity.
Defined.

(** * Upload, then delete *)

Lemma create_table_present X w tb :
  aws_fault X w TableLoad = None -> table w = Some tb ->
  create_table_if_not_exists X w = (Ok tt, w, [Call TableLoad None]).
Proof.
  intros Hf Ht. unfold create_table_if_not_exists, try_except, bind, aws, ret.
  rewrite Hf. cbn [service]. now rewrite Ht.
Qed.

(** X18: with backends that answer, deleting the image a successful upload
    has just stored is answered with 200 and removes both what the upload
    wrote: the row under the new identifier and the blob under its key.
    The identifier must not be the empty string, which the delete handler
    takes for a missing one.  If identifier and key were unused before the
    upload, the two stores are back to what they held. *)
Theorem upload_then_delete_removes_row_and_blob
    (X : Ext) (event : dict) (w w' : World) (resp : response) (t : list effect) :
  (forall w0 c, aws_fault X w0 c = None) ->
  uuid4 X (ticks w) <> "" ->
  secure_lambda_handler X event w = (Ok resp, w', t) ->
  statusCode resp = 201 ->
  exists key,
    is_Some (rows w' !! uuid4 X (ticks w))
    /\ is_Some (blobs w' !! key)
    /\ match DeleteImage.lambda_handler X (delete_request (PStr (uuid4 X (ticks w)))) w' with
       | (r2, w'', t2) =>
           exists resp2,
             r2 = Ok resp2 /\ statusCode resp2 = 200
             /\ rows w'' = delete (uuid4 X (ticks w)) (rows w)
             /\ blobs w'' = delete key (blobs w)
             /\ (rows w !! uuid4 X (ticks w) = None -> rows w'' = rows w)
             /\ (blobs w !! key = None -> blobs w'' = blobs w)
       end.
Proof.
  intros Hhealthy Hid Hrun Hstatus. apply secure_lambda_handler_cases in Hrun.
  inversion Hrun as [Hsize Hr|e w1 t1 Hsize Hinit He Hr|w1 t1 e Hsize Hinit Hacc He Hr
                   |w1 t1 msg Hsize Hinit Hacc Hr
                   |w1 t1 f pb wd ht fmt tb b e Hsize Hinit Hacc Htb Hb F1 He Hr
                   |w1 t1 f pb wd ht fmt tb b fl Hsize Hinit Hacc Htb Hb F1 F2 Hr
                   |w1 t1 f pb wd ht fmt tb b Hsize Hinit Hacc Htb Hb F1 F2 Hr];
    subst; try discriminate Hstatus.
  apply initialize_provisioned in Hinit as [[Hrows Hblobs Hticks _] _].
  assert (Hrw : rows w = tb) by (rewrite <- Hrows; unfold rows; now rewrite Htb).
  assert (Hbw : blobs w = b) by (rewrite <- Hblobs; unfold blobs; now rewrite Hb).
  assert (Hnew : new_image_id X w1 = uuid4 X (ticks w))
    by (unfold new_image_id; now rewrite Hticks).
  rewrite <- Hnew in *.
  set (id := new_image_id X w1) in *.
  set (key := new_key X f w1).
  set (item := new_item X f pb wd ht fmt w1).
  set (obj := new_object X f pb w1).
  set (w' := set_table (Some (<[id := item]> tb)) (blob_written X f pb w1 b)).
  exists key.
  split; [unfold rows, w'; cbn [table set_table]; rewrite lookup_insert_eq; eauto|].
  split; [unfold blobs, w', blob_written; cbn [bucket set_bucket set_table];
          rewrite lookup_insert_eq; eauto|].
  rewrite (delete_handler_after_create X _ w' w' [Call TableLoad None])
    by (eapply create_table_present; [apply Hhealthy|reflexivity]).
  cbn [named_image delete_request dict_get String.eqb Ascii.eqb Bool.eqb truthy].
  destruct (String.eqb_spec id ""); [contradiction|]. cbn [negb].
  unfold aws at 1. rewrite Hhealthy. unfold w'. cbn [service table set_table].
  rewrite lookup_insert_eq.
  cbn [dict_lookup String.eqb Ascii.eqb Bool.eqb].
  change (dict_lookup item "s3_key") with (Some (PStr key)). cbn iota.
  unfold DeleteImage.delete_stored, bind, try_except, aws, ret.
  rewrite !Hhealthy.
  cbn [service bucket table set_table set_bucket blob_written].
  rewrite !Hhealthy.
  cbn [service bucket table set_table set_bucket].
  eexists. split; [reflexivity|]. split; [reflexivity|].
  rewrite Hrw, Hbw. unfold rows, blobs, key. cbn [bucket table set_table set_bucket].
  rewrite !delete_insert_eq.
  repeat split; apply delete_id.
Qed.

Lemma upload_then_delete_removes_row_and_blob_witness :
  exists key,
    is_Some (rows (Demo.upload_world Demo.ext Demo.valid_upload)
               !! uuid4 Demo.ext (ticks Demo.empty_world))
    /\ is_Some (blobs (Demo.upload_world Demo.ext Demo.valid_upload) !! key)
    /\ match DeleteImage.lambda_handler Demo.ext
               (delete_request (PStr (uuid4 Demo.ext (ticks Demo.empty_world))))
               (Demo.upload_world Demo.ext Demo.valid_upload) with
       | (r2, w'', t2) =>
           exists resp2,
             r2 = Ok resp2 /\ statusCode resp2 = 200
             /\ rows w'' = delete (uuid4 Demo.ext (ticks Demo.empty_world))
                             (rows Demo.empty_world)
             /\ blobs w'' = delete key (blobs Demo.empty_world)
             /\ (rows Demo.empty_world !! uuid4 Demo.ext (ticks Demo.empty_world) = None ->
                 rows w'' = rows Demo.empty_world)
             /\ (blobs Demo.empty_world !! key = None -> blobs w'' = blobs Demo.empty_world)
       end.
Proof.
  apply (upload_then_delete_removes_row_and_blob Demo.ext Demo.valid_upload
           Demo.empty_world (Demo.upload_world Demo.ext Demo.valid_upload)
           (new_response Demo.ext
              {| f_user_id := "user123"; f_image_data := Demo.decoded Demo.jpeg_10x10;
                 f_title := "Test Image"; f_description := "";
                 f_tags := ["test"; "sample"] |}
              (Demo.decoded Demo.jpeg_10x10) 10 10
              {| table := Some ∅; bucket := Some ∅; ticks := 0 |})
           (Demo.upload_effects Demo.ext Demo.valid_upload)).
  - intros w0 c. reflexivity.
  - vm_compute. discriminate.
  - vm_compute. reflexivity.
  - reflexivity.
Defined.

Example demo_upload_then_delete :
  let w' := Demo.upload_world Demo.ext Demo.valid_upload in
  let '(r, w'', t) :=
    DeleteImage.lambda_handler Demo.ext (delete_request (PStr "00000000-0000-4000-8000-0")) w' in
  rows w' <> ∅ /\ rows w'' = ∅ /\ blobs w'' = ∅
  /\ t = [Call TableLoad None;
          Call (GetItem (PStr "00000000-0000-4000-8000-0")) None;
          Call (DeleteObject
                  (PStr "images/e606e38b/user123/00000000-0000-4000-8000-0.jpg")) None;
          Call (DeleteItem (PStr "00000000-0000-4000-8000-0")) None].
Proof. vm_compute. repeat split. discriminate. Qed.

(** * Further properties of the stages' order and of the log *)

(** X19: provisioning comes before the request is looked at: once the size
    check has passed and provisioning has returned, its calls are the first
    effects of the run and the table and the bucket exist at the end,
    whether the request is then stored, refused or fails at a write. *)
Theorem provisioning_precedes_validation
    (X : Ext) (event : dict) (w w1 : World) (t1 : list effect) :
  validate_request_size event = Ok tt ->
  initialize_resources X w = (Ok tt, w1, t1) ->
  match secure_lambda_handler X event w with
  | (r, w', t) =>
      (exists rest, t = t1 ++ rest /\ existsb is_create rest = false)
      /\ is_Some (table w') /\ is_Some (bucket w')
  end.
Proof.
  intros Hsize Hinit.
  pose proof (initialize_run X w) as Hrun. rewrite Hinit in Hrun.
  destruct Hrun as [_ [[tb Htb] [b Hb]]].
  rewrite secure_lambda_handler_run, Hsize, Hinit.
  destruct (accept_request X event) as [msg|f [[[pb wd] ht] fmt]|e].
  { split; [eexists; split; [reflexivity|reflexivity]|]. split; eauto. }
  2: { split; [eexists; split; [reflexivity|now destruct e]|]. split; eauto. }
  rewrite (store_image_run X f pb wd ht fmt w1 tb b Htb Hb).
  destruct (put_object_failure X (drawn w1) _ _) as [e|].
  { cbv beta iota. split.
    - eexists. rewrite <- app_assoc. split; [reflexivity|].
      rewrite existsb_app. cbn. now destruct e.
    - split; cbn; eauto. }
  destruct (aws_fault X (blob_written X f pb w1 b) _) as [fl|].
  { cbv beta iota. split.
    - eexists. rewrite <- app_assoc. split; [reflexivity|].
      rewrite existsb_app. cbn. now destruct (exn_of_fault fl).
    - split; cbn; eauto. }
  cbv beta iota. split; [eexists; split; reflexivity|]. split; cbn; eauto.
Qed.

Lemma provisioning_precedes_validation_witness :
  match secure_lambda_handler Demo.ext
          (Demo.upload_event "a!" Demo.jpeg_10x10 (PList [])) Demo.empty_world with
  | (r, w', t) =>
      (exists rest,
          t = [Call TableLoad
                 (Some (ClientError "ResourceNotFoundException" "Requested resource not found"));
               Call CreateTable None; Call WaitUntilExists None;
               Call HeadBucket (Some (ClientError "404" "Not Found"));
               Call CreateBucket None] ++ rest
          /\ existsb is_create rest = false)
      /\ is_Some (table w') /\ is_Some (bucket w')
  end.
Proof.
  apply (provisioning_precedes_validation Demo.ext
           (Demo.upload_event "a!" Demo.jpeg_10x10 (PList [])) Demo.empty_world
           {| table := Some ∅; bucket := Some ∅; ticks := 0 |}); reflexivity.
Defined.

(** X20: when the mode of the image is RGBA, LA or P the format reported is
    that of the converted image; a converted image that carries no format,
    as [convert] returns it, is reported as [JPEG], whatever format the
    container declared. *)
Theorem converted_image_is_reported_as_jpeg
    (X : Ext) (image_bytes saved : bytes) (image converted : Image) :
  Image_open X image_bytes = Ok image ->
  ImageProcessor.format_allowed (img_format image) = true ->
  fst (img_size image) <= 4096 -> snd (img_size image) <= 4096 ->
  ImageProcessor.needs_convert (img_mode image) = true ->
  Image_convert X image "RGB" = Ok converted ->
  img_format converted = None ->
  Image_save_jpeg X converted = Ok saved ->
  ImageProcessor.process_image X image_bytes
  = Ok (saved, fst (img_size image), snd (img_size image), "JPEG").
Proof.
  intros Hopen Hfmt Hw Hh Hmode Hconv Hnone Hsave.
  unfold ImageProcessor.process_image, ImageProcessor.process_image_body.
  rewrite Hopen. cbn [and_then]. rewrite Hfmt. cbn [negb].
  destruct (Z.gtb_spec (fst (img_size image)) 4096); [lia|].
  destruct (Z.gtb_spec (snd (img_size image)) 4096); [lia|]. cbn [orb].
  rewrite Hmode, Hconv. cbn [and_then]. rewrite Hsave. cbn [and_then].
  now rewrite Hnone.
Qed.

Lemma converted_image_is_reported_as_jpeg_witness :
  Image_open Demo.ext (Demo.decoded Demo.png_rgba_10x10)
  = Ok {| img_format := Some "PNG"; img_size := (10, 10); img_mode := "RGBA";
          img_pixels := Demo.decoded "/wAAgA==" |}
  /\ ImageProcessor.process_image Demo.ext (Demo.decoded Demo.png_rgba_10x10)
     = Ok (Demo.decoded "AAAKAAoA/wAAgA==", 10, 10, "JPEG").
Proof.
  split; [reflexivity|].
  apply (converted_image_is_reported_as_jpeg Demo.ext (Demo.decoded Demo.png_rgba_10x10)
           (Demo.decoded "AAAKAAoA/wAAgA==")
           {| img_format := Some "PNG"; img_size := (10, 10); img_mode := "RGBA";
              img_pixels := Demo.decoded "/wAAgA==" |}
           {| img_format := None; img_size := (10, 10); img_mode := "RGB";
              img_pixels := Demo.decoded "/wAAgA==" |});
    try reflexivity; vm_compute; discriminate.
Defined.

Lemma handler_log_last e :
  exists detail, last (handler_log e) = Some (Print (log_line (status_of e) detail)).
Proof. destruct e; eexists; reflexivity. Qed.


